(** * GSAT.XVG: the XVG reader and its statistics

    A shallow embedding of [src/GSAT/XVG.py]: the constructor [XVG.__init__]
    (line classification, metadata extraction, column assembly, header
    reconciliation), the statistics [calc_average], [calc_mvave] and the
    binning of [draw_distribution], the export [xvg2csv], the figures of
    [draw_stacking] and [draw] up to the calls of the plotting library,
    and [main].

    Conventions.
    - A Python [str] is a [string]; a character is a code point below 256.
    - [print(...)] appends a line to the output carried by [run];
      [exit()] ends the run with [Exit]; a Python exception ends it with
      [Raised].
    - Python [float]s are an abstract type with the operations the module
      uses ([PyArith], [PyFloat]); [Binary64] instantiates them with IEEE
      754 double precision numbers. *)

From Stdlib Require Import ZArith String Ascii DecimalString Bool Arith Lia List.
From Stdlib Require Import Floats.
Import ListNotations.

Open Scope string_scope.
Open Scope list_scope.
Open Scope nat_scope.

(** ** Python string primitives *)

Module PyStr.

(** [str.isspace] on one character, for code points below 256: TAB, LF, VT,
    FF, CR, the separators 0x1C-0x1F, SPACE, NEL (0x85) and NBSP (0xA0). *)
Definition isspace (c : ascii) : bool :=
  let n := nat_of_ascii c in
  ((9 <=? n) && (n <=? 13)) || ((28 <=? n) && (n <=? 32))
  || (n =? 133) || (n =? 160).

(** [s.lstrip(chars)], the characters to remove given as a predicate. *)
Fixpoint lstrip_by (p : ascii -> bool) (s : string) : string :=
  match s with
  | EmptyString => EmptyString
  | String c r => if p c then lstrip_by p r else s
  end.

(** [s.rstrip(chars)]. *)
Fixpoint rstrip_by (p : ascii -> bool) (s : string) : string :=
  match s with
  | EmptyString => EmptyString
  | String c r =>
      match rstrip_by p r with
      | EmptyString => if p c then EmptyString else String c EmptyString
      | r' => String c r'
      end
  end.

Definition strip_by (p : ascii -> bool) (s : string) : string :=
  rstrip_by p (lstrip_by p s).

(** [s.strip()] *)
Definition strip (s : string) : string := strip_by isspace s.

(** [s.strip(c)] for a one-character argument. *)
Definition strip_char (c : ascii) (s : string) : string :=
  strip_by (Ascii.eqb c) s.

(** [s.split(sep)] for a one-character separator: never empty, and empty
    pieces are kept. *)
Fixpoint split_on (sep : ascii) (s : string) : list string :=
  match s with
  | EmptyString => [EmptyString]
  | String c r =>
      if Ascii.eqb sep c then EmptyString :: split_on sep r
      else match split_on sep r with
           | h :: t => String c h :: t
           | [] => [String c EmptyString]
           end
  end.

(** [s.split()]: the maximal runs of non-whitespace characters. *)
Fixpoint split_ws (s : string) : list string :=
  match s with
  | EmptyString => []
  | String c r =>
      if isspace c then split_ws r
      else match r with
           | EmptyString => [String c EmptyString]
           | String c' _ =>
               if isspace c' then String c EmptyString :: split_ws r
               else match split_ws r with
                    | h :: t => String c h :: t
                    | [] => [String c EmptyString]
                    end
           end
  end.

(** [s.startswith(p)] *)
Definition startswith (p s : string) : bool := String.prefix p s.

(** [sub in s] *)
Fixpoint contains (sub s : string) : bool :=
  String.prefix sub s ||
  match s with
  | EmptyString => false
  | String _ r => contains sub r
  end.

(** Some character of [s] satisfies [p]. *)
Fixpoint any_char (p : ascii -> bool) (s : string) : bool :=
  match s with
  | EmptyString => false
  | String c r => p c || any_char p r
  end.

(** [c in s] for one character. *)
Definition has_char (c : ascii) (s : string) : bool := any_char (Ascii.eqb c) s.

(** [l[-1]] on a list of strings ([""] stands for the IndexError of an empty
    list, which [split_on] never returns). *)
Definition last_piece (l : list string) : string := last l EmptyString.

(** [s[-n:]]: the last [n] characters (all of [s] when it is shorter). *)
Definition suffix (n : nat) (s : string) : string :=
  substring (String.length s - n) n s.

End PyStr.

(** ** Runs: printed output, [exit()] and exceptions *)

Inductive exn : Type :=
| ValueError
| IndexError
| OverflowError.

(** The way a call ends, with the lines it printed. *)
Inductive run (A : Type) : Type :=
| Returned (a : A) (out : list string)
| Exit (out : list string)
| Raised (e : exn) (out : list string).

Arguments Returned {A} a out.
Arguments Exit {A} out.
Arguments Raised {A} e out.

Definition ret {A} (a : A) : run A := Returned a [].

Definition print (line : string) : run unit := Returned tt [line].

Definition exit {A} : run A := Exit [].

Definition raise {A} (e : exn) : run A := Raised e [].

Definition bind {A B} (m : run A) (k : A -> run B) : run B :=
  match m with
  | Returned a out =>
      match k a with
      | Returned b out' => Returned b (out ++ out')
      | Exit out' => Exit (out ++ out')
      | Raised e out' => Raised e (out ++ out')
      end
  | Exit out => Exit out
  | Raised e out => Raised e out
  end.

Declare Scope run_scope.
Delimit Scope run_scope with run.
Notation "x <- m ;; k" := (bind m (fun x => k))
  (at level 61, m at next level, right associativity) : run_scope.
Notation "m ;; k" := (bind m (fun _ => k))
  (at level 61, right associativity) : run_scope.


(** A [for] loop threading a value through the elements of a list. *)
Fixpoint for_each {A S} (body : S -> A -> run S) (l : list A) (s : S) : run S :=
  match l with
  | [] => ret s
  | a :: l' => bind (body s a) (for_each body l')
  end.

(** A list comprehension whose element expression may raise. *)
Fixpoint map_run {A B} (f : A -> run B) (l : list A) : run (list B) :=
  match l with
  | [] => ret []
  | a :: l' => bind (f a) (fun b => bind (map_run f l') (fun bs => ret (b :: bs)))
  end.

Open Scope run_scope.

(** ** Python floats *)

(** The arithmetic the module does on floats and the conversions between
    [int] and [float].  [int_of_float] is [int(x)]: truncation toward zero,
    [ValueError] on a NaN and [OverflowError] on an infinity. *)
Class PyArith (F : Type) : Type := {
  fadd : F -> F -> F;
  fsub : F -> F -> F;
  fmul : F -> F -> F;
  fdiv : F -> F -> F;
  feqb : F -> F -> bool;
  fltb : F -> F -> bool;
  fleb : F -> F -> bool;
  float_of_int : Z -> F;
  int_of_float : F -> exn + Z
}.

(** What [calc_average], [calc_mvave] and the constructor need besides:
    the square root, [np.nan] and the builtin [float(s)] on a string
    ([None] is its ValueError). *)
Class PyFloat (F : Type) : Type := {
  py_arith :: PyArith F;
  fsqrt : F -> F;
  fnan : F;
  float_of_str : string -> option F
}.

(** ** NumPy reductions on a list of floats *)

Section NumPy.
Context {F : Type} `{PyArith F}.

(** [x != x] *)
Definition isnan (x : F) : bool := negb (feqb x x).

(** [np.minimum(a, b)]: a NaN on the left wins, else the smaller. *)
Definition np_minimum (a b : F) : F :=
  if isnan a then a else if fltb a b then a else b.

Definition np_maximum (a b : F) : F :=
  if isnan a then a else if fltb b a then a else b.

(** [np.min(column)]; [None] is the ValueError of an empty column. *)
Definition np_min (l : list F) : option F :=
  match l with
  | [] => None
  | x :: l' => Some (fold_left np_minimum l' x)
  end.

Definition np_max (l : list F) : option F :=
  match l with
  | [] => None
  | x :: l' => Some (fold_left np_maximum l' x)
  end.

(** The sum of a list, added left to right from zero (NumPy's order of
    additions for fewer than eight elements). *)
Definition np_sum (l : list F) : F := fold_left fadd l (float_of_int 0).

(** [np.mean(l)] and [np.average(l)] without weights: sum over count. *)
Definition np_mean (l : list F) : F :=
  fdiv (np_sum l) (float_of_int (Z.of_nat (length l))).

End NumPy.

Section NumPyStd.
Context {F : Type} `{PyFloat F}.

(** [np.std(l)]: the population standard deviation,
    [sqrt(mean((x - mean(l))**2))]. *)
Definition np_std (l : list F) : F :=
  let m := np_mean l in
  fsqrt (np_mean (map (fun x => let d := fsub x m in fmul d d) l)).

End NumPyStd.

(** ** The XVG object *)

Record XVG (F : Type) : Type := mkXVG {
  xvg_filename : string;
  xvg_title : string;
  xvg_xlabel : string;
  xvg_ylabel : string;
  xvg_legends : list string;
  xvg_column_num : nat;
  xvg_row_num : nat;
  xvg_columns : list (list string);
  data_heads : list string;
  data_columns : list (list F)
}.

Arguments mkXVG {F}.
Arguments xvg_filename {F}.
Arguments xvg_title {F}.
Arguments xvg_xlabel {F}.
Arguments xvg_ylabel {F}.
Arguments xvg_legends {F}.
Arguments xvg_column_num {F}.
Arguments xvg_row_num {F}.
Arguments xvg_columns {F}.
Arguments data_heads {F}.
Arguments data_columns {F}.

Section Setters.
Context {F : Type}.

Definition set_title (v : string) (x : XVG F) : XVG F :=
  mkXVG (xvg_filename x) v (xvg_xlabel x) (xvg_ylabel x) (xvg_legends x)
        (xvg_column_num x) (xvg_row_num x) (xvg_columns x)
        (data_heads x) (data_columns x).

Definition set_xlabel (v : string) (x : XVG F) : XVG F :=
  mkXVG (xvg_filename x) (xvg_title x) v (xvg_ylabel x) (xvg_legends x)
        (xvg_column_num x) (xvg_row_num x) (xvg_columns x)
        (data_heads x) (data_columns x).

Definition set_ylabel (v : string) (x : XVG F) : XVG F :=
  mkXVG (xvg_filename x) (xvg_title x) (xvg_xlabel x) v (xvg_legends x)
        (xvg_column_num x) (xvg_row_num x) (xvg_columns x)
        (data_heads x) (data_columns x).

Definition set_legends (v : list string) (x : XVG F) : XVG F :=
  mkXVG (xvg_filename x) (xvg_title x) (xvg_xlabel x) (xvg_ylabel x) v
        (xvg_column_num x) (xvg_row_num x) (xvg_columns x)
        (data_heads x) (data_columns x).

(** The three raw-data fields are always written together. *)
Definition set_raw (cn rn : nat) (cols : list (list string)) (x : XVG F) : XVG F :=
  mkXVG (xvg_filename x) (xvg_title x) (xvg_xlabel x) (xvg_ylabel x)
        (xvg_legends x) cn rn cols (data_heads x) (data_columns x).

Definition set_data (hs : list string) (cs : list (list F)) (x : XVG F) : XVG F :=
  mkXVG (xvg_filename x) (xvg_title x) (xvg_xlabel x) (xvg_ylabel x)
        (xvg_legends x) (xvg_column_num x) (xvg_row_num x) (xvg_columns x)
        hs cs.

End Setters.

(** The attributes as [__init__] first sets them. *)
Definition fresh {F} (xvgfile : string) : XVG F :=
  mkXVG xvgfile "" "" "" [] 0 0 [] [] [].

(** ** [XVG.__init__] *)

Module Init.
Import PyStr.

Definition dquote : ascii := "034"%char.
Definition comma : ascii := ","%char.

(** [line.strip('"').split('"')[-1]] *)
Definition metadata_value (line : string) : string :=
  last_piece (split_on dquote (strip_char dquote line)).

Definition is_comment (line : string) : bool :=
  startswith "#" line || startswith "&" line.

Definition is_meta (line : string) : bool := startswith "@" line.

Definition is_title (line : string) : bool :=
  contains "title" line && negb (contains "subtitle" line).

Definition is_xlabel (line : string) : bool :=
  contains "xaxis" line && contains "label" line.

Definition is_ylabel (line : string) : bool :=
  contains "yaxis" line && contains "label" line.

Definition is_legend (line : string) : bool :=
  startswith "@ s" line && contains "legend" line.

(** [str(n)] for a natural number. *)
Definition str_of_nat (n : nat) : string :=
  DecimalString.NilZero.string_of_uint (Nat.to_uint n).

Definition msg_columns_differ (xvgfile : string) : string :=
  "Error -> the number of columns in " ++ xvgfile ++ " is not equal. ".

Definition msg_column_length (c : nat) : string :=
  "Error -> length of column " ++ str_of_nat c ++ " if not equal to count of rows".

Definition msg_no_data : string :=
  "Error -> no data line detected in xvg file".

Definition msg_pairing : string :=
  "Warning -> failed to pair ylabels and legends, use legends in xvg file".

Definition msg_no_file (xvgfile : string) : string :=
  "ERROR -> no " ++ xvgfile ++ " in current directory".

Definition msg_suffix : string :=
  "Error -> specify a xvg file with suffix xvg".

Definition msg_read (xvgfile : string) : string :=
  "Info -> read " ++ xvgfile ++ " successfully. ".

(** The branch of the loop over the lines that a line takes (lines
    111-122): the tests are made in this order, each on the whole line. *)
Inductive line_kind : Type :=
| Comment | Title | XLabel | YLabel | Legend | OtherMeta | DataRow.

Definition classify (line : string) : line_kind :=
  if is_comment line then Comment
  else if is_meta line then
    if is_title line then Title
    else if is_xlabel line then XLabel
    else if is_ylabel line then YLabel
    else if is_legend line then Legend
    else OtherMeta
  else DataRow.

Definition kind_eqb (a b : line_kind) : bool :=
  match a, b with
  | Comment, Comment | Title, Title | XLabel, XLabel | YLabel, YLabel
  | Legend, Legend | OtherMeta, OtherMeta | DataRow, DataRow => true
  | _, _ => false
  end.

(** The lines of one kind, in the order of the file. *)
Definition lines_of (k : line_kind) (lines : list string) : list string :=
  filter (fun l => kind_eqb (classify l) k) lines.

(** The token rows of the data lines. *)
Definition rows_of (lines : list string) : list (list string) :=
  map split_ws (lines_of DataRow lines).

Section Reader.
Context {F : Type} `{PyFloat F}.

(** The data branch of the loop over the lines (lines 124-139). *)
Definition read_row (x : XVG F) (line : string) : run (XVG F) :=
  let items := split_ws line in
  let x := if length (xvg_columns x) =? 0
           then set_raw (length items) 0 (repeat [] (length items)) x
           else x in
  if negb (length items =? length (xvg_columns x)) then
    print (msg_columns_differ (xvg_filename x));;
    print ("        " ++ line)%string;;
    exit
  else
    ret (set_raw (xvg_column_num x) (xvg_row_num x + 1)
           (map (fun ci => fst ci ++ [snd ci]) (combine (xvg_columns x) items))
           x).

(** One turn of the loop over the lines (lines 110-139). *)
Definition read_line (x : XVG F) (line : string) : run (XVG F) :=
  if is_comment line then ret x
  else if is_meta line then
    if is_title line then ret (set_title (metadata_value line) x)
    else if is_xlabel line then ret (set_xlabel (metadata_value line) x)
    else if is_ylabel line then ret (set_ylabel (metadata_value line) x)
    else if is_legend line then
      ret (set_legends (xvg_legends x ++ [metadata_value line]) x)
    else ret x
  else read_row x line.

(** [[line.strip() for line in fo.readlines() if line.strip() != ""]] *)
Definition clean (raw_lines : list string) : list string :=
  map strip (filter (fun l => negb (String.eqb (strip l) "")) raw_lines).

(** [[float(c) for c in column]] *)
Definition floats (column : list string) : run (list F) :=
  map_run (fun c => match float_of_str c with
                    | Some f => ret f
                    | None => raise ValueError
                    end) column.

(** [self.xvg_columns[i]] *)
Definition raw_column (x : XVG F) (i : nat) : run (list string) :=
  match nth_error (xvg_columns x) i with
  | Some c => ret c
  | None => raise IndexError
  end.

(** The checks after the loop (lines 142-152). *)
Definition check_shape (x : XVG F) : run unit :=
  for_each (fun _ c =>
      col <- raw_column x c;;
      if negb (length col =? xvg_row_num x)
      then print (msg_column_length c);; exit
      else ret tt)
    (seq 0 (xvg_column_num x)) tt;;
  if (xvg_column_num x =? 0) || (xvg_row_num x =? 0)
  then print msg_no_data;; exit
  else ret tt.

(** The pairing of the y-label with the legends (lines 160-171): the heads
    and the warning, if one is printed. *)
Definition pair_heads (ylabel : string) (legends : list string)
  : list string * list string :=
  let items := map strip (split_on comma ylabel) in
  let heads := legends in
  if length items =? length legends then
    (map (fun hi => (fst hi ++ " " ++ snd hi)%string) (combine heads items), [])
  else if (length items =? 1) && (String.length (hd "" items) <? 5) then
    (map (fun h => (h ++ " " ++ hd "" items)%string) heads, [])
  else (heads, [msg_pairing]).

(** Lines 154-174: the heads and the numeric columns. *)
Definition reconcile (x : XVG F) : run (XVG F) :=
  c0 <- raw_column x 0;;
  f0 <- floats c0;;
  let x := set_data (data_heads x ++ [xvg_xlabel x]) (data_columns x ++ [f0]) x in
  x <- (if (length (xvg_legends x) =? 0) && (1 <? length (xvg_columns x)) then
          c1 <- raw_column x 1;;
          f1 <- floats c1;;
          ret (set_data (data_heads x ++ [xvg_ylabel x]) (data_columns x ++ [f1]) x)
        else ret x);;
  if (0 <? length (xvg_legends x))
     && (length (xvg_legends x) <? length (xvg_columns x)) then
    let (heads, warning) := pair_heads (xvg_ylabel x) (xvg_legends x) in
    for_each (fun _ w => print w) warning tt;;
    let x := set_data (data_heads x ++ heads) (data_columns x) x in
    for_each (fun x i =>
        c <- raw_column x (i + 1);;
        f <- floats c;;
        ret (set_data (data_heads x) (data_columns x ++ [f]) x))
      (seq 0 (length heads)) x
  else ret x.

(** [XVG(xvgfile)].  [file_exists] is [os.path.exists(xvgfile)] and
    [raw_lines] what [fo.readlines()] returns: the call is modelled for a
    file that, when it is reached, is opened and read without an error of
    the operating system or of the decoding. *)
Definition XVG_init (file_exists : bool) (xvgfile : string)
    (raw_lines : list string) : run (XVG F) :=
  let x := fresh xvgfile in
  (if negb file_exists then print (msg_no_file xvgfile);; exit else ret tt);;
  (if negb (String.eqb (suffix 4 xvgfile) ".xvg")
   then print msg_suffix;; exit else ret tt);;
  x <- for_each read_line (clean raw_lines) x;;
  check_shape x;;
  x <- reconcile x;;
  print (msg_read xvgfile);;
  ret x.

(** The columns the data branch appends to: fresh ones on the first row. *)
Definition row_columns (x : XVG F) (items : list string) : list (list string) :=
  if length (xvg_columns x) =? 0 then repeat [] (length items) else xvg_columns x.

(** What the loop over the lines leaves of the lines [lines] read so far. *)
Definition parsed (xvgfile : string) (lines : list string) (x : XVG F) : Prop :=
  xvg_filename x = xvgfile /\
  xvg_title x = last (map metadata_value (lines_of Title lines)) "" /\
  xvg_xlabel x = last (map metadata_value (lines_of XLabel lines)) "" /\
  xvg_ylabel x = last (map metadata_value (lines_of YLabel lines)) "" /\
  xvg_legends x = map metadata_value (lines_of Legend lines) /\
  data_heads x = [] /\ data_columns x = [].

(** [legends] were declared and there are more raw columns than legends. *)
Definition paired (x : XVG F) : bool :=
  (0 <? length (xvg_legends x)) && (length (xvg_legends x) <? length (xvg_columns x)).

(** No legend was declared and there is a second raw column. *)
Definition single (x : XVG F) : bool :=
  (length (xvg_legends x) =? 0) && (1 <? length (xvg_columns x)).

(** The numeric column [f] is the raw column [i] read as floats. *)
Definition col_from (x : XVG F) (i : nat) (f : list F) : Prop :=
  exists raw, nth_error (xvg_columns x) i = Some raw /\
              map float_of_str raw = map Some f.

(** The raw columns hold the token rows [rows], column by column. *)
Definition raw_shape (x : XVG F) (rows : list (list string)) : Prop :=
  xvg_row_num x = length rows /\
  xvg_column_num x = length (xvg_columns x) /\
  length (xvg_columns x) = length (hd [] rows) /\
  Forall (fun r => length r = length (xvg_columns x)) rows /\
  forall j, j < length (xvg_columns x) ->
    nth j (xvg_columns x) [] = map (fun r => nth j r "") rows.

End Reader.

End Init.

(** ** Python sequences *)

Module PySeq.

(** [l[start:stop]] with Python's reading of the bounds: [None] is the end
    of the list on its side, a negative bound counts from the end, and
    both are clamped into [0, len(l)]. *)
Definition slice_bound (n i : Z) : Z :=
  if (i <? 0)%Z then Z.max (i + n) 0 else Z.min i n.

Definition slice {A} (l : list A) (start stop : option Z) : list A :=
  let n := Z.of_nat (length l) in
  let lo := match start with None => 0%Z | Some i => slice_bound n i end in
  let hi := match stop with None => n | Some i => slice_bound n i end in
  firstn (Z.to_nat (hi - lo)) (skipn (Z.to_nat lo) l).

(** The position [l[i]] reads or writes: a negative index counts from the
    end; [None] is the IndexError. *)
Definition index {A} (l : list A) (i : Z) : option nat :=
  let n := Z.of_nat (length l) in
  if (0 <=? i)%Z then (if (i <? n)%Z then Some (Z.to_nat i) else None)
  else if (0 <=? i + n)%Z then Some (Z.to_nat (i + n)) else None.

Fixpoint update {A} (k : nat) (f : A -> A) (l : list A) : list A :=
  match l, k with
  | [], _ => []
  | a :: l', O => f a :: l'
  | a :: l', S k' => a :: update k' f l'
  end.

(** The elements of [l] at the positions [a <= i < b], in order. *)
Definition index_range {A} (l : list A) (a b : nat) : list A :=
  flat_map (fun i => match nth_error l i with Some v => [v] | None => [] end)
           (seq a (b - a)).

(** A bound that is given, as a position; [d] when it is not given. *)
Definition bound_or (d : nat) (bound : option Z) : nat :=
  match bound with
  | Some z => Z.to_nat z
  | None => d
  end.

Definition nonneg (bound : option Z) : Prop :=
  match bound with
  | Some z => (0 <= z)%Z
  | None => True
  end.

(** [range(n)] for an integer [n] *)
Definition range (n : Z) : list Z := map Z.of_nat (seq 0 (Z.to_nat n)).

(** [sum(l)] for a list of integers *)
Definition sum (l : list Z) : Z := fold_right Z.add 0%Z l.

End PySeq.

(** ** The statistics *)

Module Stats.

Definition msg_start_end : string :=
  "Error -> start index should be less than end index".

Definition msg_index_rows : string :=
  "Error -> start or end index should be less than the number of rows in xvg file".

Definition msg_windowsize : string :=
  "Error -> windowsize value is not proper".

Definition msg_confidence : string :=
  "Error -> confidence value is not proper, it should be in (0,1)".

Definition msg_distribution : string :=
  "Error -> wrong in calculating distribution".

(** [a != None and b != None and a >= b] and [a != None and a >= n] *)
Definition both_ge (a b : option Z) : bool :=
  match a, b with
  | Some a, Some b => (a >=? b)%Z
  | _, _ => false
  end.

Definition given_ge (a : option Z) (n : Z) : bool :=
  match a with
  | Some a => (a >=? n)%Z
  | None => false
  end.

(** The ranges [calc_average] refuses: [start >= end] when both are given,
    or a given bound that is not below the number of rows. *)
Definition invalid_range (row_num : nat) (start stop : option Z) : Prop :=
  (exists a b, start = Some a /\ stop = Some b /\ (a >= b)%Z) \/
  (exists a, start = Some a /\ (a >= Z.of_nat row_num)%Z) \/
  (exists b, stop = Some b /\ (b >= Z.of_nat row_num)%Z).

Section Average.
Context {F : Type} `{PyFloat F}.

(** [XVG.calc_average] (lines 202-219) *)
Definition calc_average (x : XVG F) (start stop : option Z)
  : run (list string * list F * list F) :=
  (if both_ge start stop then print msg_start_end;; exit else ret tt);;
  (if given_ge start (Z.of_nat (xvg_row_num x))
      || given_ge stop (Z.of_nat (xvg_row_num x))
   then print msg_index_rows;; exit else ret tt);;
  ret (data_heads x,
       map (fun column => np_mean (PySeq.slice column start stop)) (data_columns x),
       map (fun column => np_std (PySeq.slice column start stop)) (data_columns x)).

(** [scipy.stats.norm.ppf(q, loc, scale)], the quantile function of the
    normal distribution, is outside this repository. *)
Variable norm_ppf : F -> F -> F -> F.

(** [scipy.stats.norm.interval(confidence, loc, scale)]: the quantiles at
    [(1.0 - confidence) / 2] and [(1.0 + confidence) / 2]. *)
Definition norm_interval (confidence loc scale : F) : F * F :=
  (norm_ppf (fdiv (fsub (float_of_int 1) confidence) (float_of_int 2)) loc scale,
   norm_ppf (fdiv (fadd (float_of_int 1) confidence) (float_of_int 2)) loc scale).

(** The loop over the rows of one column (lines 245-255): the moving
    average, the high and the low bound. *)
Definition mvave_column (windowsize : Z) (confidence : F) (row_num : nat)
    (column : list F) : list F * list F * list F :=
  let nans := repeat fnan (Z.to_nat windowsize) in
  fold_left (fun acc i =>
      let '(mv_ave, high, low) := acc in
      let window_data :=
        PySeq.slice column (Some (Z.of_nat i - windowsize)%Z) (Some (Z.of_nat i)) in
      let ave := np_mean window_data in
      let std := np_std window_data in
      let interval := norm_interval confidence ave std in
      (mv_ave ++ [ave], high ++ [snd interval], low ++ [fst interval]))
    (seq (Z.to_nat windowsize) (row_num - Z.to_nat windowsize))
    (nans, nans, nans).

(** [XVG.calc_mvave] (lines 236-260); [int(self.xvg_row_num / 2)] is the
    integer half of the row count.  The result is
    [(data_heads, column_mvaves, column_highs, column_lows)]. *)
Definition calc_mvave (x : XVG F) (windowsize : Z) (confidence : F)
  : run (list string * list (list F) * list (list F) * list (list F)) :=
  (if (windowsize <=? 0)%Z || (windowsize >? Z.of_nat (xvg_row_num x) / 2)%Z
   then print msg_windowsize;; exit else ret tt);;
  (if fleb confidence (float_of_int 0) || fleb (float_of_int 1) confidence
   then print msg_confidence;; exit else ret tt);;
  let per_column :=
    map (mvave_column windowsize confidence (xvg_row_num x)) (data_columns x) in
  ret (data_heads x,
       map (fun r => fst (fst r)) per_column,
       map (fun r => snd (fst r)) per_column,
       map snd per_column).

End Average.

Section Distribution.
Context {F : Type} `{PyArith F}.

(** [int(x)] *)
Definition int (x : F) : run Z :=
  match int_of_float x with
  | inr z => ret z
  | inl e => raise e
  end.

(** [frequency[index] += 1] *)
Definition increment (frequency : list Z) (index : Z) : run (list Z) :=
  match PySeq.index frequency index with
  | Some k => ret (PySeq.update k (fun f => (f + 1)%Z) frequency)
  | None => raise IndexError
  end.

(** The bucket of one value (lines 353-355). *)
Definition bucket (column_min bin_window : F) (bin : Z) (value : F) : run Z :=
  index <- int (fdiv (fsub value column_min) bin_window);;
  ret (if (index =? bin)%Z then (bin - 1)%Z else index).

(** The counting loop (lines 351-356). *)
Definition bin_counts (column_min bin_window : F) (bin : Z) (column : list F)
  : run (list Z) :=
  for_each (fun frequency value =>
      index <- bucket column_min bin_window bin value;;
      increment frequency index)
    column (repeat 0%Z (Z.to_nat bin)).

(** The distribution of one column (lines 347-364): [(x_value, frequency)]
    as they are handed to the plot. *)
Definition distribution (row_num : nat) (bin : Z) (column : list F)
  : run (list F * list F) :=
  match np_min column, np_max column with
  | Some column_min, Some column_max =>
      let bin_window := fdiv (fsub column_max column_min) (float_of_int bin) in
      if negb (feqb bin_window (float_of_int 0)) then
        frequency <- bin_counts column_min bin_window bin column;;
        (if negb (PySeq.sum frequency =? Z.of_nat row_num)%Z
         then print msg_distribution;; exit else ret tt);;
        ret (map (fun b => fadd column_min (fmul bin_window (float_of_int b)))
                 (PySeq.range bin),
             map (fun f => fdiv (fmul (float_of_int f) (float_of_int 100))
                                (float_of_int (Z.of_nat row_num)))
                 frequency)
      else ret ([column_min], [float_of_int 1])
  | _, _ => raise ValueError
  end.

(** [XVG.draw_distribution] (lines 342-364), up to the drawing: what is
    plotted for each column. *)
Definition draw_distribution (x : XVG F) (bin : Z) : run (list (list F * list F)) :=
  map_run (distribution (xvg_row_num x) bin) (data_columns x).

End Distribution.

End Stats.

(** ** IEEE 754 double precision: Python's [float] *)

Module Binary64.

(** [float(n)] for an integer: the nearest double, ties to even. *)
Definition of_Z (z : Z) : float :=
  SF2Prim (binary_normalize prec emax z 0 false).

(** [int(x)] *)
Definition to_Z (x : float) : exn + Z :=
  match Prim2SF x with
  | S754_zero _ => inr 0%Z
  | S754_infinity _ => inl OverflowError
  | S754_nan => inl ValueError
  | S754_finite s m e =>
      let v := if (0 <=? e)%Z then (Z.pos m * 2 ^ e)%Z
               else (Z.pos m / 2 ^ (- e))%Z in
      inr (if s then (- v)%Z else v)
  end.

Definition digit_of (c : ascii) : option Z :=
  let n := nat_of_ascii c in
  if (48 <=? n) && (n <=? 57) then Some (Z.of_nat (n - 48)) else None.

(** The leading decimal digits of [s]: their value after [acc], how many
    there are, and the rest of [s]. *)
Fixpoint read_digits (s : string) (acc : Z) (count : nat) : Z * nat * string :=
  match s with
  | EmptyString => (acc, count, s)
  | String c r =>
      match digit_of c with
      | Some d => read_digits r (10 * acc + d)%Z (S count)
      | None => (acc, count, s)
      end
  end.

(** [float(s)] on the decimal literals [[+-]digits[.digits]] whose digits
    make an integer below 2^53 with at most 22 of them after the point:
    there one correctly rounded division gives the nearest double, which is
    what Python returns.  Other spellings (exponents, [inf], [nan],
    underscores) are not read and give [None]. *)
Definition of_literal (s : string) : option float :=
  let '(negative, body) :=
    match s with
    | String "-" r => (true, r)
    | String "+" r => (false, r)
    | _ => (false, s)
    end in
  let '(whole, n1, rest) := read_digits body 0%Z 0 in
  let '(m, n2, rest) :=
    match rest with
    | String "." r => read_digits r whole 0
    | _ => (whole, 0, rest)
    end in
  match rest with
  | EmptyString =>
      if (0 <? n1 + n2) && (m <? 2 ^ 53)%Z && (n2 <=? 22) then
        let v := PrimFloat.div (of_Z m) (of_Z (10 ^ Z.of_nat n2)) in
        Some (if negative then PrimFloat.opp v else v)
      else None
  | _ => None
  end.

#[export] Instance arith64 : PyArith float := {
  fadd := PrimFloat.add;
  fsub := PrimFloat.sub;
  fmul := PrimFloat.mul;
  fdiv := PrimFloat.div;
  feqb := PrimFloat.eqb;
  fltb := PrimFloat.ltb;
  fleb := PrimFloat.leb;
  float_of_int := of_Z;
  int_of_float := to_Z
}.

#[export] Instance float64 : PyFloat float := {
  py_arith := arith64;
  fsqrt := PrimFloat.sqrt;
  fnan := PrimFloat.nan;
  float_of_str := of_literal
}.

End Binary64.

(** ** Sample inputs *)

Module Samples.
Import Init Binary64.

(** [s] between double quotes. *)
Definition quoted (s : string) : string :=
  String dquote (s ++ String dquote EmptyString).

Definition newline : string := String "010" EmptyString.

(** A file with two legends and three columns, as [readlines()] gives it. *)
Definition energy_file (ylabel : string) : list string :=
  [ "# gmx energy" ++ newline;
    "@    title " ++ quoted "GROMACS Energies" ++ newline;
    "@    xaxis  label " ++ quoted "Time (ps)" ++ newline;
    "@    yaxis  label " ++ quoted ylabel ++ newline;
    "@TYPE xy" ++ newline;
    "@ s0 legend " ++ quoted "s1" ++ newline;
    "@ s1 legend " ++ quoted "s2" ++ newline;
    "    0.000000   1.5  -2" ++ newline;
    newline;
    "    1.000000   2.5  -4" ++ newline;
    "    2.000000   3.5  -6" ++ newline ]%string.

(** The same file with a data row of two tokens after [rows] good rows. *)
Definition short_row : string := "    3.000000   4.5".

(** A legend line whose quoted text contains the word title. *)
Definition legend_with_title : string :=
  ("@ s0 legend " ++ quoted "title of run")%string.

(** A title line without quotes. *)
Definition bare_title : string := "@ title Energy".

(** A file with two title lines and two legend lines. *)
Definition two_titles : list string :=
  [ "@ title " ++ quoted "first" ++ newline;
    "@ s0 legend " ++ quoted "Potential" ++ newline;
    "@ title " ++ quoted "second" ++ newline;
    "@ s1 legend " ++ quoted "Kinetic" ++ newline;
    "0 1 2 3" ++ newline ]%string.

(** A dataset of one column holding the integers [values]. *)
Definition dataset (values : list Z) : XVG float :=
  mkXVG "column.xvg" "" "x" "" [] 1 (length values) [] ["x"]
        [map Binary64.of_Z values].

(** A stand-in for the quantile function of a distribution that is
    symmetric about [loc]. *)
Definition linear_ppf (q loc scale : float) : float :=
  (loc + scale * (q + q - 1))%float.

Definition one_to_six : XVG float := dataset [1; 2; 3; 4; 5; 6]%Z.

Definition four_fives : XVG float := dataset [5; 5; 5; 5]%Z.


Definition fives_and_six : XVG float := dataset [5; 5; 5; 6]%Z.

End Samples.

(** ** More of the constructor *)

Module InitMore.
Import PyStr Init.

(** The number of raw columns that lines 154-174 turn into numeric
    columns, from the number of legends and of raw columns: the first,
    then the second when no legend was declared, or one per legend when
    there are fewer legends than raw columns. *)
Definition consumed_columns (legends columns : nat) : nat :=
  1 + (if (legends =? 0) && (1 <? columns) then 1 else 0)
    + (if (0 <? legends) && (legends <? columns) then legends else 0).

Section Analysed.
Context {F : Type} `{PyFloat F}.

Definition analysed_count (x : XVG F) : nat :=
  consumed_columns (length (xvg_legends x)) (length (xvg_columns x)).

End Analysed.

(** The first [n] tokens of every token row are accepted by [float]. *)
Definition numeric_rows {F} `{PyFloat F} (n : nat) (rows : list (list string)) : Prop :=
  forall row j, In row rows -> j < n -> float_of_str (nth j row "") <> None.

(** The data rows of a file all have as many tokens as the first one. *)
Definition uniform_rows (lines : list string) : Prop :=
  Forall (fun row => length row = length (hd [] (rows_of lines))) (rows_of lines).

(** The first data line that has not as many tokens as the first one. *)
Definition first_mismatch (data : list string) : option string :=
  find (fun l => negb (length (split_ws l) =? length (split_ws (hd "" data))))
       data.

(** The attributes after the loop over lines that all have the same
    number of tokens, from the lines of each kind. *)
Definition loop_state {F} (xvgfile : string) (lines : list string) : XVG F :=
  let rows := rows_of lines in
  mkXVG xvgfile
        (last (map metadata_value (lines_of Title lines)) "")
        (last (map metadata_value (lines_of XLabel lines)) "")
        (last (map metadata_value (lines_of YLabel lines)) "")
        (map metadata_value (lines_of Legend lines))
        (length (hd [] rows)) (length rows)
        (map (fun j => map (fun row => nth j row "") rows)
             (seq 0 (length (hd [] rows))))
        [] [].

(** The kinds of line the loop reads something from. *)
Definition is_read (k : line_kind) : bool :=
  match k with
  | Comment | OtherMeta => false
  | _ => true
  end.

End InitMore.


(** ** More of the statistics *)

Module StatsMore.
Import PySeq Stats.

(** The [w] rows before row [i] of a column: [column[i - w : i]] for
    [w <= i]. *)
Definition window_before {A} (w : nat) (column : list A) (i : nat) : list A :=
  firstn w (skipn (i - w) column).

Section Slots.
Context {F : Type} `{PyArith F}.

(** The position of [frequency] that the counting loop increments for
    [value] (lines 353-356): the bucket, read as an index of a list of
    [bin] counts; [None] when the bucket cannot be computed or is no index
    of the list. *)
Definition slot (column_min bin_window : F) (bin : Z) (value : F) : option nat :=
  match bucket column_min bin_window bin value with
  | Returned i _ => PySeq.index (repeat 0%Z (Z.to_nat bin)) i
  | _ => None
  end.

(** [slot ... value == k] *)
Definition in_slot (column_min bin_window : F) (bin : Z) (k : nat) (value : F)
  : bool :=
  match slot column_min bin_window bin value with
  | Some j => j =? k
  | None => false
  end.

End Slots.

End StatsMore.


(** ** [XVG.draw_stacking] and [main] *)

Module Stacking.
Import PySeq.

Definition msg_stack_start : string :=
  "Warning -> column_index2start not in proper range, use default value.".

Definition msg_stack_end : string :=
  "Warning -> column_index2end not in proper range, use default value.".

(** [range(a, b)] *)
Definition range_from (a b : Z) : list Z :=
  map (fun k => (a + Z.of_nat k)%Z) (seq 0 (Z.to_nat (b - a))).

(** [l[i]], with Python's reading of a negative index. *)
Definition item {A} (l : list A) (i : Z) : run A :=
  match index l i with
  | Some k =>
      match nth_error l k with
      | Some a => ret a
      | None => raise IndexError
      end
  | None => raise IndexError
  end.

(** One call of [plt.fill_between(x, y1, y2, label=...)]. *)
Record layer (F : Type) : Type := mkLayer {
  layer_x : list F;
  layer_top : list F;
  layer_bottom : list Z;
  layer_label : string
}.

Arguments mkLayer {F}.
Arguments layer_x {F}.
Arguments layer_top {F}.
Arguments layer_bottom {F}.
Arguments layer_label {F}.

(** What a call of [draw_stacking] hands to the plot before [plt.show()]. *)
Record stacked_plot (F : Type) : Type := mkPlot {
  plot_layers : list (layer F);
  plot_xlabel : string;
  plot_ylabel : string;
  plot_title : string;
  plot_xlim : F * F;
  plot_ylim : F * F
}.

Arguments mkPlot {F}.
Arguments plot_layers {F}.
Arguments plot_xlabel {F}.
Arguments plot_ylabel {F}.
Arguments plot_title {F}.
Arguments plot_xlim {F}.
Arguments plot_ylim {F}.

Section Stack.
Context {F : Type} `{PyArith F}.

(** The builtin [sum] on a list of floats: additions from left to right
    before Python 3.12, a compensated sum from 3.12 on. *)
Variable py_sum : list F -> F.

(** The builtins [max] and [min] on a list: the first element is kept until
    a later one compares greater (smaller); [ValueError] on an empty
    list. *)
Definition py_max (l : list F) : run F :=
  match l with
  | [] => raise ValueError
  | a :: l' => ret (fold_left (fun m v => if fltb m v then v else m) l' a)
  end.

Definition py_min (l : list F) : run F :=
  match l with
  | [] => raise ValueError
  | a :: l' => ret (fold_left (fun m v => if fltb v m then v else m) l' a)
  end.

(** The check of the parameters (lines 396-410): the end index used. *)
Definition stacking_end (columns : Z) (column_index2start : Z)
    (column_index2end : option Z) : run Z :=
  column_index2end <-
    (if (column_index2start >=? columns)%Z
     then print msg_stack_start;; ret (Some 1%Z)
     else ret column_index2end);;
  match column_index2end with
  | None => ret columns
  | Some e =>
      if (e <=? column_index2start)%Z || (e >? columns)%Z
      then print msg_stack_end;; ret columns
      else ret e
  end.

(** [stack_data] of one turn of the loop (lines 415-427). *)
Definition stack_data (x : XVG F) (column_index2start column_index2end
    stack_index : Z) : run (list F) :=
  map_run (fun row =>
      values <- map_run (fun i =>
                    column <- item (data_columns x) i;;
                    item column row)
                  (range_from column_index2start
                     (column_index2end - (stack_index - column_index2start)));;
      ret (py_sum values))
    (range (Z.of_nat (xvg_row_num x))).

(** One turn of the loop (lines 414-438): the layer drawn and the limits
    of the y axis after it. *)
Definition stack_turn (x : XVG F) (column_index2start column_index2end : Z)
    (acc : list (layer F) * F * F) (stack_index : Z)
  : run (list (layer F) * F * F) :=
  let '(layers, ylim_max, ylim_min) := acc in
  data <- stack_data x column_index2start column_index2end stack_index;;
  x_data <- item (data_columns x) 0;;
  label <- item (data_heads x)
             (column_index2end + column_index2start - stack_index - 1);;
  let drawn := mkLayer x_data data (repeat 0%Z (length data)) label in
  highest <- py_max data;;
  lowest <- py_min data;;
  ret (layers ++ [drawn],
       (if fltb ylim_max highest then highest else ylim_max),
       (if fltb lowest ylim_min then lowest else ylim_min)).

(** [XVG.draw_stacking] (lines 396-446), up to [plt.show()]. *)
Definition draw_stacking (x : XVG F) (column_index2start : Z)
    (column_index2end : option Z) : run (stacked_plot F) :=
  column_index2end <-
    stacking_end (Z.of_nat (length (data_columns x))) column_index2start
                 column_index2end;;
  acc <- for_each (stack_turn x column_index2start column_index2end)
           (range_from column_index2start column_index2end)
           ([], float_of_int 0, float_of_int 0);;
  let '(layers, ylim_max, ylim_min) := acc in
  xlabel <- item (data_heads x) 0;;
  x_data <- item (data_columns x) 0;;
  match np_min x_data, np_max x_data with
  | Some x_min, Some x_max =>
      ret (mkPlot layers xlabel (xvg_ylabel x)
                  ("Stacked plot of " ++ xvg_title x)
                  (x_min, x_max) (ylim_min, ylim_max))
  | _, _ => raise ValueError
  end.

(** The sums over the columns [a <= i < b], row by row. *)
Definition column_sums (x : XVG F) (a b : nat) : list F :=
  map (fun row =>
         py_sum (map (fun i => nth row (nth i (data_columns x) []) (float_of_int 0))
                     (seq a (b - a))))
      (seq 0 (xvg_row_num x)).

(** The layer that stacks the columns [a <= i < b]: their sums over the
    first column, labelled with the head of column [b - 1]. *)
Definition stacked_columns (x : XVG F) (a b : nat) : layer F :=
  mkLayer (nth 0 (data_columns x) []) (column_sums x a b)
          (repeat 0%Z (xvg_row_num x)) (nth (b - 1) (data_heads x) "").

End Stack.

(** A dataset whose heads and columns go together, with at least one row. *)
Definition consistent {F} (x : XVG F) : Prop :=
  length (data_heads x) = length (data_columns x) /\
  Forall (fun column => length column = xvg_row_num x) (data_columns x) /\
  0 < xvg_row_num x.

Section Main.
Context {F : Type} `{PyFloat F}.
Variable py_sum : list F -> F.

(** [main()] (lines 477-480): [argv] is [sys.argv], [file_exists] is
    [os.path.exists] and [readlines] gives the lines of a file. *)
Definition main (argv : list string) (file_exists : string -> bool)
    (readlines : string -> list string) : run (stacked_plot F) :=
  file <- item argv 1;;
  xvg <- Init.XVG_init (file_exists file) file (readlines file);;
  draw_stacking py_sum xvg 2 (Some 7%Z).

End Main.

End Stacking.


(** ** [XVG.xvg2csv] *)

Module Csv.
Import PyStr PySeq Stacking.

Definition msg_csv_suffix : string :=
  "Error -> please specify a csv file name with suffix .csv".

Definition msg_csv_exists (outcsv : string) : string :=
  "Error -> already a " ++ outcsv ++ " in current directory".

Definition msg_csv_done (xvgfile outcsv : string) : string :=
  "Info -> convert " ++ xvgfile ++ " into " ++ outcsv ++ " successfully.".

(** The line feed that ends every line written. *)
Definition line_feed : string := String "010" EmptyString.

(** [s[:-n]] for [n > 0]: [s] without its last [n] characters (nothing when
    it is shorter). *)
Definition drop_last (n : nat) (s : string) : string :=
  substring 0 (String.length s - n) s.

(** An element of a column of [out_data]: a float of [data_columns] or a
    token of [xvg_columns]. *)
Inductive cell (F : Type) : Type :=
| Num (value : F)
| Text (token : string).

Arguments Num {F} value.
Arguments Text {F} token.

Section Exporting.
Context {F : Type}.

(** [str(v)] for a float is outside this repository. *)
Variable str_of_float : F -> string.

(** [str(c)] *)
Definition str (c : cell F) : string :=
  match c with
  | Num value => str_of_float value
  | Text token => token
  end.

(** [out_data] (lines 279-286): the numeric columns, followed by the raw
    columns that were not converted. *)
Definition out_data (x : XVG F) : list (list (cell F)) :=
  let converted := length (data_columns x) in
  if converted =? length (xvg_columns x) then map (map Num) (data_columns x)
  else if converted <? length (xvg_columns x) then
    map (map Num) (data_columns x)
    ++ map (map Text) (skipn converted (xvg_columns x))
  else [].

(** [",".join([str(column[row]) for column in out_data]) + "\n"] *)
Definition csv_line (x : XVG F) (row : Z) : run string :=
  cells <- map_run (fun column => c <- item column row;; ret (str c))
             (out_data x);;
  ret (String.concat "," cells ++ line_feed)%string.

(** The loop over the rows inside the [with] block (lines 289-290): what
    the file holds when the block is left, after [content], and the way
    the loop ends. *)
Fixpoint write_rows (x : XVG F) (rows : list Z) (content : string)
  : string * run unit :=
  match rows with
  | [] => (content, ret tt)
  | row :: rows' =>
      match csv_line x row with
      | Returned line out =>
          let '(content', r) := write_rows x rows' (content ++ line) in
          (content', Returned tt out;; r)
      | Exit out => (content, Exit out)
      | Raised e out => (content, Raised e out)
      end
  end.

(** [XVG.xvg2csv] (lines 271-296).  [path_exists] is [os.path.exists];
    [open(outcsv, "w")] is taken to succeed on a path that does not exist.
    The result is the file written, as its path and content ([None] when
    no file is opened), and the way the call ends. *)
Definition xvg2csv (path_exists : string -> bool) (x : XVG F) (outcsv : string)
  : option (string * string) * run unit :=
  let outcsv := if String.eqb outcsv ""
                then (drop_last 4 (xvg_filename x) ++ ".csv")%string
                else outcsv in
  if negb (String.eqb (suffix 4 outcsv) ".csv") then
    (None, print msg_csv_suffix;; exit)
  else if path_exists outcsv then
    (None, print (msg_csv_exists outcsv);; exit)
  else
    let header := (String.concat "," (data_heads x) ++ line_feed)%string in
    let '(content, r) :=
      write_rows x (range (Z.of_nat (xvg_row_num x))) header in
    (Some (outcsv, content),
     r;; print (msg_csv_done (xvg_filename x) outcsv)).

End Exporting.

Section Rows.
Context {F : Type} `{PyFloat F}.
Variable str_of_float : F -> string.

(** Line [r] of the data of the csv file: the floats of row [r] as
    [str] prints them, then the tokens of row [r] in the raw columns that
    were not converted. *)
Definition csv_row (x : XVG F) (r : nat) : string :=
  (String.concat ","
     (map (fun column => str_of_float (nth r column fnan)) (data_columns x)
      ++ map (fun column => nth r column "")
             (skipn (length (data_columns x)) (xvg_columns x)))
   ++ line_feed)%string.

(** The csv file of a dataset: the heads, then one line a row. *)
Definition csv_text (x : XVG F) : string :=
  (String.concat "," (data_heads x) ++ line_feed
   ++ String.concat "" (map (csv_row x) (seq 0 (xvg_row_num x))))%string.

End Rows.

End Csv.


(** ** [XVG.draw] and the layout of the subplots *)

Module Drawing.
Import PySeq.

(** The ways [draw] fails: an exception of the kinds above or the
    [ZeroDivisionError] of [%].  It prints nothing and does not exit. *)
Inductive failure : Type :=
| Raises (e : exn)
| ZeroDivision.

Definition result (A : Type) : Type := (failure + A)%type.

Definition rbind {A B} (m : result A) (k : A -> result B) : result B :=
  match m with
  | inl e => inl e
  | inr a => k a
  end.

Declare Scope result_scope.
Delimit Scope result_scope with result.
Notation "'let*' x ':=' m 'in' k" := (rbind m (fun x => k))
  (at level 10, x name, m at level 200, k at level 200) : result_scope.

Local Open Scope result_scope.

(** A list comprehension whose element expression may fail. *)
Fixpoint map_result {A B} (f : A -> result B) (l : list A) : result (list B) :=
  match l with
  | [] => inr []
  | a :: l' =>
      let* b := f a in
      let* bs := map_result f l' in
      inr (b :: bs)
  end.

(** [l[i]] for an index that is not negative. *)
Definition at_index {A} (l : list A) (i : nat) : result A :=
  match nth_error l i with
  | Some a => inr a
  | None => inl (Raises IndexError)
  end.

(** A value that is there, or the exception [e]. *)
Definition or_raise {A} (e : exn) (v : option A) : result A :=
  match v with
  | Some a => inr a
  | None => inl (Raises e)
  end.

(** The subscript of the grid a subplot is made from: [grid[row, col]], or
    [grid[row, col:]] when [cell_to_end] is set. *)
Record cell : Type := mkCell {
  cell_row : nat;
  cell_col : nat;
  cell_to_end : bool
}.

(** The rows and columns of the grid of [draw] (line 307). *)
Definition draw_grid (column_num : nat) : nat * nat :=
  if 2 <? column_num then (2, column_num / 2) else (1, column_num).

(** The subscript of the subplot of column [i] in [draw] (lines 310-323). *)
Definition draw_cell (column_num i : nat) : result cell :=
  let half := column_num / 2 in
  if half =? 0 then inl ZeroDivision
  else inr (mkCell (if i - 1 <? half then 0 else 1) ((i - 1) mod half)
                   (i =? column_num - 1)).

(** The grid of [draw_distribution] (line 343) and the subscript of the
    subplot of column [i] (lines 366-379). *)
Definition distribution_grid (column_num : nat) : nat * nat :=
  (2, (column_num + 1) / 2).

Definition distribution_cell (column_num i : nat) : result cell :=
  let half := (column_num + 1) / 2 in
  if half =? 0 then inl ZeroDivision
  else inr (mkCell (if i <? half then 0 else 1) (i mod half)
                   (i =? column_num - 1)).

(** One subplot of [draw]: where it is, what it plots and its labels and
    limits. *)
Record subplot (F : Type) : Type := mkSubplot {
  sub_cell : cell;
  sub_x : list F;
  sub_y : list F;
  sub_ylabel : string;
  sub_xlim : Z * Z;
  sub_xlabel : string
}.

Arguments mkSubplot {F}.
Arguments sub_cell {F}.
Arguments sub_x {F}.
Arguments sub_y {F}.
Arguments sub_ylabel {F}.
Arguments sub_xlim {F}.
Arguments sub_xlabel {F}.

Section Draw.
Context {F : Type} `{PyArith F}.

(** [int(x)] *)
Definition to_int (x : F) : result Z :=
  match int_of_float x with
  | inr z => inr z
  | inl e => inl (Raises e)
  end.

(** The body of the loop of [draw] for column [i] (lines 308-328). *)
Definition draw_column (x : XVG F) (column_num : nat) (x_min x_max : F)
    (x_space : Z) (i : nat) : result (subplot F) :=
  let* c := draw_cell column_num i in
  let* x_data := at_index (data_columns x) 0 in
  let* y_data := at_index (data_columns x) i in
  let* ylabel := at_index (data_heads x) i in
  let* low := to_int (fsub x_min (float_of_int x_space)) in
  let* high := to_int (fadd x_max (float_of_int x_space)) in
  let* xlabel := at_index (data_heads x) 0 in
  inr (mkSubplot c x_data y_data ylabel (low, high) xlabel).

(** [plt.GridSpec(nrows, ncols)] is outside this repository: it gives a
    grid or fails. *)
Context {G : Type}.
Variable GridSpec : nat -> nat -> result G.

(** [XVG.draw] (lines 303-332), up to [plt.show()]: the grid, the subplots
    and the title of the figure.  Line 307 builds both grids before it
    chooses one. *)
Definition draw (x : XVG F) : result (G * list (subplot F) * string) :=
  let column_num := length (data_columns x) in
  let* first := at_index (data_columns x) 0 in
  let* x_min := or_raise ValueError (np_min first) in
  let* x_max := or_raise ValueError (np_max first) in
  let* x_space :=
    to_int (fdiv (fsub x_max x_min) (float_of_int 100)) in
  let* wide := GridSpec 1 column_num in
  let* tall := GridSpec 2 (column_num / 2) in
  let grid := if 2 <? column_num then tall else wide in
  let* plots :=
    map_result (draw_column x column_num x_min x_max x_space)
               (seq 1 (column_num - 1)) in
  inr (grid, plots, xvg_title x).

End Draw.

(** The cell [c] comes before the cell [c'] in reading order. *)
Definition before (c c' : cell) : Prop :=
  cell_row c < cell_row c' \/
  (cell_row c = cell_row c' /\ cell_col c < cell_col c').

(** The cell lies in a grid of the shape [grid]. *)
Definition in_grid (grid : nat * nat) (c : cell) : Prop :=
  cell_row c < fst grid /\ cell_col c < snd grid.

End Drawing.


(** ** More sample inputs *)

Module MoreSamples.
Import Init Samples.

(** A file without a data row. *)
Definition header_only : list string :=
  [ "# gmx energy" ++ newline;
    "@    title " ++ quoted "GROMACS Energies" ++ newline;
    newline;
    "@ s0 legend " ++ quoted "s1" ++ newline ]%string.

(** Two legends and two columns: as many legends as columns. *)
Definition two_legends_two_columns : list string :=
  [ "@    xaxis  label " ++ quoted "Time (ps)" ++ newline;
    "@    yaxis  label " ++ quoted "(nm)" ++ newline;
    "@ s0 legend " ++ quoted "s1" ++ newline;
    "@ s1 legend " ++ quoted "s2" ++ newline;
    "0 1.5" ++ newline;
    "1 2.5" ++ newline ]%string.

(** No legend and a third column that holds text. *)
Definition text_in_third_column : list string :=
  [ "@    xaxis  label " ++ quoted "Time (ps)" ++ newline;
    "@    yaxis  label " ++ quoted "(nm)" ++ newline;
    "0 1.5 first" ++ newline;
    "1 2.5 second" ++ newline ]%string.

(** The lines of [energy_file] in another order: the data first, the
    legends last, no comment and no blank line, and a line more that
    starts with [@]. *)
Definition energy_file_reordered (ylabel : string) : list string :=
  [ "    0.000000   1.5  -2" ++ newline;
    "@    yaxis  label " ++ quoted ylabel ++ newline;
    "    1.000000   2.5  -4" ++ newline;
    "@    xaxis  label " ++ quoted "Time (ps)" ++ newline;
    "    2.000000   3.5  -6" ++ newline;
    "@ view 0.15, 0.15, 0.75, 0.85" ++ newline;
    "@    title " ++ quoted "GROMACS Energies" ++ newline;
    "@ s0 legend " ++ quoted "s1" ++ newline;
    "@ s1 legend " ++ quoted "s2" ++ newline ]%string.

(** No legend, whole numbers and a third column that holds text. *)
Definition whole_numbers : list string :=
  [ "@    xaxis  label " ++ quoted "t" ++ newline;
    "@    yaxis  label " ++ quoted "y" ++ newline;
    "0 1 first" ++ newline;
    "1 2 second" ++ newline ]%string.

(** A stand-in for [str] on floats: right on the whole numbers below
    10^16, which Python prints with one decimal. *)
Definition str_of_whole (v : float) : string :=
  match Binary64.to_Z v with
  | inr z => (DecimalString.NilZero.string_of_int (Z.to_int z) ++ ".0")%string
  | inl _ => "nan"
  end.

(** A dataset of three curves over two rows. *)
Definition three_curves : XVG float :=
  mkXVG "energy.xvg" "Energies" "Time (ps)" "(kJ/mol)" ["a"; "b"; "c"] 4 2
        [["0"; "1"]; ["1"; "2"]; ["10"; "20"]; ["100"; "200"]]
        ["Time (ps)"; "a (kJ/mol)"; "b (kJ/mol)"; "c (kJ/mol)"]
        [[0; 1]; [1; 2]; [10; 20]; [100; 200]]%float.

(** A stand-in for the standard quantile function of a distribution that
    is symmetric about 0, and the quantile function with a location and a
    scale it gives. *)
Definition uniform_ppf (q : float) : float := (q + q - 1)%float.

Definition scaled_ppf (q loc scale : float) : float :=
  (uniform_ppf q * scale + loc)%float.

(** A stand-in for [plt.GridSpec]: a grid with at least one row and one
    column, as its shape. *)
Definition positive_grid (rows columns : nat)
  : (Drawing.failure + (nat * nat))%type :=
  if (0 <? rows) && (0 <? columns) then inr (rows, columns)
  else inl (Drawing.Raises ValueError).

End MoreSamples.

(** * Properties *)

Import PyStr PySeq Init Stats Binary64.

(** ** Strings *)

Section StringFacts.

Lemma lstrip_by_none (p : ascii -> bool) (s : string) :
  any_char p s = false -> lstrip_by p s = s.
Proof.
  destruct s as [|c r]; simpl; [reflexivity|].
  intros Hp. apply orb_false_iff in Hp as [Hc _]. now rewrite Hc.
Qed.

Lemma rstrip_by_none (p : ascii -> bool) (s : string) :
  any_char p s = false -> rstrip_by p s = s.
Proof.
  induction s as [|c r IH]; simpl; [reflexivity|].
  intros Hp. apply orb_false_iff in Hp as [Hc Hr].
  rewrite (IH Hr), Hc. now destruct r.
Qed.

Lemma strip_by_none (p : ascii -> bool) (s : string) :
  any_char p s = false -> strip_by p s = s.
Proof.
  intros Hp. unfold strip_by.
  rewrite (lstrip_by_none _ _ Hp). now apply rstrip_by_none.
Qed.

Lemma split_on_none (sep : ascii) (s : string) :
  has_char sep s = false -> split_on sep s = [s].
Proof.
  unfold has_char.
  induction s as [|c r IH]; simpl; [reflexivity|].
  intros Hp. apply orb_false_iff in Hp as [Hc Hr].
  now rewrite Hc, (IH Hr).
Qed.

(** What [lstrip] leaves starts with a character it does not remove. *)
Lemma lstrip_by_head (p : ascii -> bool) (s : string) (c : ascii) (r : string) :
  lstrip_by p s = String c r -> p c = false.
Proof.
  induction s as [|d t IH]; simpl; [discriminate|].
  destruct (p d) eqn:Hd; [exact IH|].
  intros Heq. injection Heq as <- _. exact Hd.
Qed.

Lemma rstrip_by_head (p : ascii -> bool) (c : ascii) (r : string) :
  p c = false -> exists r', rstrip_by p (String c r) = String c r'.
Proof.
  intros Hc. simpl. destruct (rstrip_by p r) as [|d t].
  - rewrite Hc. now exists EmptyString.
  - now exists (String d t).
Qed.

(** A stripped line that is not empty starts with a character that is not
    white space. *)
Lemma strip_head (s : string) :
  strip s <> EmptyString ->
  exists c r, strip s = String c r /\ isspace c = false.
Proof.
  unfold strip, strip_by. intros Hne.
  destruct (lstrip_by isspace s) as [|c r] eqn:Hl; [now elim Hne|].
  pose proof (lstrip_by_head _ _ _ _ Hl) as Hc.
  destruct (rstrip_by_head isspace c r Hc) as [r' Hr].
  exists c, r'. now split.
Qed.

Lemma split_ws_head (c : ascii) (r : string) :
  isspace c = false -> split_ws (String c r) <> [].
Proof.
  intros Hc. simpl. rewrite Hc.
  destruct r as [|c' r']; [discriminate|].
  destruct (isspace c'); [discriminate|].
  destruct (split_ws (String c' r')); discriminate.
Qed.

Lemma split_ws_strip (s : string) :
  strip s <> EmptyString -> split_ws (strip s) <> [].
Proof.
  intros Hne. destruct (strip_head s Hne) as (c & r & -> & Hc).
  now apply split_ws_head.
Qed.

End StringFacts.

(** ** Runs *)

Section RunFacts.
Context {A B : Type}.

Lemma bind_Returned (m : run A) (k : A -> run B) (b : B) (out : list string) :
  bind m k = Returned b out ->
  exists a o1 o2, m = Returned a o1 /\ k a = Returned b o2 /\ out = o1 ++ o2.
Proof.
  destruct m as [a o1| |]; simpl; try discriminate.
  destruct (k a) as [b' o2| |] eqn:Hk; try discriminate.
  intros Heq. injection Heq as <- <-. now exists a, o1, o2.
Qed.

Lemma bind_ret_l (a : A) (k : A -> run B) : bind (ret a) k = k a.
Proof. unfold ret. simpl. now destruct (k a). Qed.

Lemma bind_Returned_nil (a : A) (k : A -> run B) :
  bind (Returned a []) k = k a.
Proof. exact (bind_ret_l a k). Qed.

End RunFacts.

Lemma bind_ret_r {A} (m : run A) : bind m ret = m.
Proof. destruct m; simpl; now rewrite ?app_nil_r. Qed.

Lemma bind_assoc {A B C} (m : run A) (k : A -> run B) (h : B -> run C) :
  bind (bind m k) h = bind m (fun a => bind (k a) h).
Proof.
  destruct m as [a o| |]; simpl; try reflexivity.
  destruct (k a) as [b o'| |]; simpl; try reflexivity.
  destruct (h b); simpl; now rewrite app_assoc.
Qed.

Lemma bind_ext {A B} (m : run A) (k k' : A -> run B) :
  (forall a, k a = k' a) -> bind m k = bind m k'.
Proof. intros Hk. destruct m; simpl; now rewrite ?Hk. Qed.

Lemma for_each_app {A S} (body : S -> A -> run S) (l1 l2 : list A) (s : S) :
  for_each body (l1 ++ l2) s = bind (for_each body l1 s) (for_each body l2).
Proof.
  revert s. induction l1 as [|a l1 IH]; intros s.
  - cbn [app for_each]. now rewrite bind_ret_l.
  - cbn [app for_each]. rewrite bind_assoc. apply bind_ext. intros s'. apply IH.
Qed.

(** ** The loop over the lines *)

Section ReaderFacts.
Context {F : Type} `{PyFloat F}.

Lemma kind_eqb_eq (a b : line_kind) : kind_eqb a b = true <-> a = b.
Proof. destruct a, b; simpl; split; congruence. Qed.

Lemma read_line_classify (x : XVG F) (line : string) :
  read_line x line =
  match classify line with
  | Comment | OtherMeta => ret x
  | Title => ret (set_title (metadata_value line) x)
  | XLabel => ret (set_xlabel (metadata_value line) x)
  | YLabel => ret (set_ylabel (metadata_value line) x)
  | Legend => ret (set_legends (xvg_legends x ++ [metadata_value line]) x)
  | DataRow => read_row x line
  end.
Proof.
  unfold read_line, classify.
  destruct (is_comment line); [reflexivity|].
  destruct (is_meta line); [|reflexivity].
  destruct (is_title line); [reflexivity|].
  destruct (is_xlabel line); [reflexivity|].
  destruct (is_ylabel line); [reflexivity|].
  destruct (is_legend line); reflexivity.
Qed.

Lemma lines_of_snoc (k : line_kind) (l : list string) (a : string) :
  lines_of k (l ++ [a]) =
  if kind_eqb (classify a) k then lines_of k l ++ [a] else lines_of k l.
Proof.
  unfold lines_of. rewrite filter_app. simpl.
  destruct (kind_eqb (classify a) k); [reflexivity | apply app_nil_r].
Qed.

Lemma rows_of_snoc (l : list string) (a : string) :
  rows_of (l ++ [a]) =
  if kind_eqb (classify a) DataRow then rows_of l ++ [split_ws a] else rows_of l.
Proof.
  unfold rows_of. rewrite lines_of_snoc.
  destruct (kind_eqb (classify a) DataRow); [|reflexivity].
  now rewrite map_app.
Qed.

(** Appending one token to each column. *)
Lemma nth_append_row (cols : list (list string)) (items : list string) (j : nat) :
  length items = length cols -> j < length cols ->
  nth j (map (fun ci => fst ci ++ [snd ci]) (combine cols items)) [] =
  nth j cols [] ++ [nth j items ""].
Proof.
  revert items j. induction cols as [|c cols IH]; intros [|i items] j Hlen Hj;
    simpl in *; try lia.
  destruct j as [|j]; [reflexivity|].
  apply IH; lia.
Qed.

Lemma length_append_row (cols : list (list string)) (items : list string) :
  length items = length cols ->
  length (map (fun ci => fst ci ++ [snd ci]) (combine cols items)) = length cols.
Proof. intros Hlen. rewrite length_map, length_combine. lia. Qed.

Lemma read_row_unfold (x : XVG F) (line : string) :
  read_row x line =
  let items := split_ws line in
  let first := length (xvg_columns x) =? 0 in
  if negb (length items =? length (row_columns x items)) then
    Exit [msg_columns_differ (xvg_filename x); ("        " ++ line)%string]
  else
    Returned (set_raw (if first then length items else xvg_column_num x)
                ((if first then 0 else xvg_row_num x) + 1)
                (map (fun ci => fst ci ++ [snd ci])
                     (combine (row_columns x items) items)) x) [].
Proof.
  unfold read_row, row_columns.
  destruct (length (xvg_columns x) =? 0); simpl;
    match goal with |- context [negb ?b] => destruct b end; reflexivity.
Qed.

End ReaderFacts.

Section LoopInvariant.
Context {F : Type} `{PyFloat F}.

Lemma for_each_single {A S} (body : S -> A -> run S) (a : A) (s : S) :
  for_each body [a] s = body s a.
Proof. cbn [for_each]. apply (bind_ret_r (body s a)). Qed.

Lemma rows_of_nonempty (lines : list string) :
  Forall (fun l => split_ws l <> []) lines ->
  Forall (fun r => r <> []) (rows_of lines).
Proof.
  intros Hl. unfold rows_of, lines_of. apply Forall_map.
  rewrite Forall_forall in *. intros l Hin.
  apply filter_In in Hin as [Hin _]. now apply Hl.
Qed.

(** Rows that all have the length 0 of an empty column list are no rows. *)
Lemma no_rows_yet (x : XVG F) (rows : list (list string)) :
  raw_shape x rows -> Forall (fun r => r <> []) rows ->
  length (xvg_columns x) = 0 -> rows = [].
Proof.
  intros (_ & _ & _ & Hall & _) Hne H0.
  destruct rows as [|r rows]; [reflexivity|].
  inversion Hall as [|? ? Hr _]; inversion Hne as [|? ? Hr' _]; subst.
  rewrite H0 in Hr. destruct r; [now elim Hr' | discriminate].
Qed.

Lemma raw_shape_step (x : XVG F) (rows : list (list string)) (items : list string) :
  raw_shape x rows -> Forall (fun r => r <> []) rows ->
  length items = length (row_columns x items) ->
  let first := length (xvg_columns x) =? 0 in
  raw_shape
    (set_raw (if first then length items else xvg_column_num x)
       ((if first then 0 else xvg_row_num x) + 1)
       (map (fun ci => fst ci ++ [snd ci]) (combine (row_columns x items) items)) x)
    (rows ++ [items]).
Proof.
  intros Hs Hne Hlen first. subst first. unfold row_columns in *.
  destruct (length (xvg_columns x) =? 0) eqn:H0.
  - apply Nat.eqb_eq in H0.
    rewrite (no_rows_yet x rows Hs Hne H0). unfold raw_shape. cbn [set_raw
      xvg_row_num xvg_column_num xvg_columns app length hd Nat.add].
    rewrite length_append_row by exact Hlen. rewrite repeat_length.
    repeat split; try reflexivity.
    + constructor; [reflexivity | constructor].
    + intros j Hj. rewrite nth_append_row by (rewrite ?repeat_length; auto).
      rewrite nth_repeat. reflexivity.
  - apply Nat.eqb_neq in H0.
    destruct Hs as (Hrow & Hcol & Hhd & Hall & Hnth).
    assert (Hrows : rows <> []).
    { intros ->. simpl in Hhd. contradiction. }
    unfold raw_shape. cbn [set_raw xvg_row_num xvg_column_num xvg_columns].
    rewrite length_append_row by exact Hlen.
    repeat split.
    + rewrite length_app. simpl. lia.
    + exact Hcol.
    + destruct rows; [contradiction | exact Hhd].
    + apply Forall_app. split; [exact Hall | constructor; [exact Hlen | constructor]].
    + intros j Hj. rewrite nth_append_row by auto.
      rewrite map_app. simpl. now rewrite Hnth.
Qed.

(** The loop over the lines, when it ends without [exit()], has printed
    nothing, holds the metadata of the lines read and the data rows column
    by column. *)
Lemma read_lines_inv (xvgfile : string) (lines : list string) :
  Forall (fun l => split_ws l <> []) lines ->
  forall (x : XVG F) (out : list string),
  for_each read_line lines (fresh xvgfile) = Returned x out ->
  out = [] /\ parsed xvgfile lines x /\ raw_shape x (rows_of lines).
Proof.
  induction lines as [|a l IH] using rev_ind; intros Hl x out Hrun.
  - cbn in Hrun. injection Hrun as <- <-.
    repeat split; try reflexivity. constructor. intros j Hj. inversion Hj.
  - apply Forall_app in Hl as [Hl Ha].
    rewrite for_each_app in Hrun.
    apply bind_Returned in Hrun as (x1 & o1 & o2 & Hrun1 & Hstep & ->).
    destruct (IH Hl x1 o1 Hrun1) as (-> & Hp & Hs).
    rewrite for_each_single, read_line_classify in Hstep.
    pose proof (rows_of_nonempty l Hl) as Hne.
    destruct Hp as (Hf & Ht & Hx & Hy & Hg & Hh & Hc).
    unfold parsed. rewrite rows_of_snoc, !lines_of_snoc.
    destruct (classify a) eqn:Hk; cbn [kind_eqb];
      try (injection Hstep as <- <-; rewrite ?map_app; cbn [map];
           rewrite ?last_last;
           repeat split; solve [assumption | reflexivity | apply Hs
                                | cbn; congruence]).
    rewrite read_row_unfold in Hstep. cbv zeta in Hstep.
    destruct (negb _) eqn:Hlen in Hstep; [discriminate|].
    injection Hstep as <- <-.
    apply negb_false_iff, Nat.eqb_eq in Hlen.
    split; [reflexivity|]. split.
    + cbn. repeat split; assumption.
    + now apply raw_shape_step.
Qed.

End LoopInvariant.

(** ** The checks and the header reconciliation *)

Section ReconcileFacts.
Context {F : Type} `{PyFloat F}.

Lemma floats_Returned (col : list string) (fs : list F) (out : list string) :
  floats col = Returned fs out ->
  out = [] /\ length fs = length col /\ map float_of_str col = map Some fs.
Proof.
  revert fs out. induction col as [|c col IH]; intros fs out Hr.
  - cbn in Hr. injection Hr as <- <-. now repeat split.
  - unfold floats in Hr. cbn [map_run] in Hr. fold (floats col) in Hr.
    apply bind_Returned in Hr as (f & o1 & o2 & Hf & Hr & ->).
    apply bind_Returned in Hr as (fs' & o3 & o4 & Hfs & Hr & ->).
    injection Hr as <- <-.
    destruct (IH _ _ Hfs) as (-> & Hlen & Hmap).
    destruct (float_of_str c) as [f'|] eqn:Hc; [|discriminate].
    injection Hf as <- <-.
    repeat split; cbn; congruence.
Qed.

Lemma raw_column_Returned (x : XVG F) (i : nat) (c : list string) (out : list string) :
  raw_column x i = Returned c out ->
  out = [] /\ nth_error (xvg_columns x) i = Some c.
Proof.
  unfold raw_column. destruct (nth_error (xvg_columns x) i); [|discriminate].
  intros Hr. injection Hr as <- <-. now split.
Qed.

Lemma check_columns_Returned (x : XVG F) (l : list nat) (u : unit) (out : list string) :
  for_each (fun _ c =>
      col <- raw_column x c;;
      if negb (length col =? xvg_row_num x)
      then print (msg_column_length c);; exit
      else ret tt) l tt = Returned u out ->
  out = [].
Proof.
  revert out. induction l as [|c l IH]; intros out Hr.
  - cbn in Hr. now injection Hr as <- <-.
  - cbn [for_each] in Hr.
    apply bind_Returned in Hr as ([] & o1 & o2 & Hc & Hr & ->).
    rewrite (IH _ Hr), app_nil_r.
    apply bind_Returned in Hc as (col & o3 & o4 & Hcol & Hc & ->).
    apply raw_column_Returned in Hcol as [-> _].
    destruct (negb _); [discriminate|]. now injection Hc as <-.
Qed.

Lemma check_shape_Returned (x : XVG F) (u : unit) (out : list string) :
  check_shape x = Returned u out ->
  out = [] /\ xvg_column_num x <> 0 /\ xvg_row_num x <> 0.
Proof.
  unfold check_shape. intros Hr.
  apply bind_Returned in Hr as (u' & o1 & o2 & Hc & Hr & ->).
  apply check_columns_Returned in Hc as ->.
  destruct (xvg_column_num x =? 0) eqn:Hcn; [discriminate|].
  destruct (xvg_row_num x =? 0) eqn:Hrn; [discriminate|].
  cbn in Hr. injection Hr as <- <-.
  apply Nat.eqb_neq in Hcn, Hrn. now repeat split.
Qed.

Lemma print_all (l : list string) :
  for_each (fun (_ : unit) w => print w) l tt = Returned tt l.
Proof.
  induction l as [|w l IH]; [reflexivity|].
  cbn [for_each]. unfold print at 1. cbn [bind]. now rewrite IH.
Qed.

Lemma pair_heads_length (ylabel : string) (legends : list string) :
  length (fst (pair_heads ylabel legends)) = length legends.
Proof.
  unfold pair_heads.
  destruct (length (map strip (split_on comma ylabel)) =? length legends) eqn:Hl.
  - apply Nat.eqb_eq in Hl. cbn. rewrite length_map, length_combine. lia.
  - destruct (_ && _); cbn; [apply length_map | reflexivity].
Qed.

(** The loop that appends one numeric column per head (lines 173-174). *)
Lemma append_columns_Returned (n a : nat) (x x' : XVG F) (out : list string) :
  for_each (fun x i =>
      c <- raw_column x (i + 1);;
      f <- floats c;;
      ret (set_data (data_heads x) (data_columns x ++ [f]) x))
    (seq a n) x = Returned x' out ->
  out = [] /\
  exists fs, x' = set_data (data_heads x) (data_columns x ++ fs) x /\
             Forall2 (fun i f => col_from x (i + 1) f) (seq a n) fs.
Proof.
  revert a x out. induction n as [|n IH]; intros a x out Hr.
  - cbn in Hr. injection Hr as <- <-. split; [reflexivity|].
    exists []. rewrite app_nil_r. split; [now destruct x | constructor].
  - cbn [seq for_each] in Hr.
    apply bind_Returned in Hr as (x1 & o1 & o2 & Hstep & Hr & ->).
    apply bind_Returned in Hstep as (c & o3 & o4 & Hc & Hstep & ->).
    apply bind_Returned in Hstep as (f & o5 & o6 & Hf & Hstep & ->).
    injection Hstep as <- <-.
    apply raw_column_Returned in Hc as [-> Hc].
    destruct (floats_Returned _ _ _ Hf) as (-> & _ & Hmap).
    apply IH in Hr as (-> & fs & -> & Hall).
    split; [reflexivity|].
    exists (f :: fs). cbn. rewrite <- app_assoc. split; [reflexivity|].
    constructor; [now exists c | exact Hall].
Qed.

End ReconcileFacts.

Section ReconcileSpec.
Context {F : Type} `{PyFloat F}.

Lemma reconcile_Returned (x x' : XVG F) (out : list string) :
  data_heads x = [] -> data_columns x = [] ->
  reconcile x = Returned x' out ->
  x' = set_data (data_heads x') (data_columns x') x /\
  data_heads x' =
    xvg_xlabel x :: (if single x then [xvg_ylabel x] else [])
    ++ (if paired x then fst (pair_heads (xvg_ylabel x) (xvg_legends x)) else []) /\
  out = (if paired x then snd (pair_heads (xvg_ylabel x) (xvg_legends x)) else []) /\
  length (data_columns x') = length (data_heads x') /\
  Forall2 (col_from x) (seq 0 (length (data_columns x'))) (data_columns x').
Proof.
  intros Hh Hc Hr. unfold reconcile in Hr. rewrite Hh, Hc in Hr. cbn [app] in Hr.
  apply bind_Returned in Hr as (c0 & o1 & o2 & Hc0 & Hr & ->).
  apply raw_column_Returned in Hc0 as [-> Hc0].
  apply bind_Returned in Hr as (f0 & o3 & o4 & Hf0 & Hr & ->).
  destruct (floats_Returned _ _ _ Hf0) as (-> & _ & Hm0).
  apply bind_Returned in Hr as (x1 & o5 & o6 & Hx1 & Hr & ->).
  cbn [set_data xvg_legends xvg_columns xvg_xlabel xvg_ylabel data_heads
       data_columns] in Hx1.
  fold (single x) in Hx1.
  assert (H0 : col_from x 0 f0) by now exists c0.
  destruct (single x) eqn:Hsingle.
  - (* one series headed by the y-label *)
    apply bind_Returned in Hx1 as (c1 & o7 & o8 & Hc1 & Hx1 & ->).
    apply raw_column_Returned in Hc1 as [-> Hc1].
    cbn [set_data xvg_columns] in Hc1.
    apply bind_Returned in Hx1 as (f1 & o9 & o10 & Hf1 & Hx1 & ->).
    destruct (floats_Returned _ _ _ Hf1) as (-> & _ & Hm1).
    injection Hx1 as <- <-.
    cbn [set_data xvg_legends xvg_columns xvg_xlabel xvg_ylabel data_heads
         data_columns] in Hr.
    assert (Hp : paired x = false).
    { unfold single in Hsingle. unfold paired.
      apply andb_true_iff in Hsingle as [Hs _]. apply Nat.eqb_eq in Hs.
      now rewrite Hs. }
    fold (paired x) in Hr. rewrite Hp in Hr |- *.
    injection Hr as <- <-. cbn.
    repeat split; try reflexivity.
    constructor; [exact H0|]. constructor; [now exists c1 | constructor].
  - injection Hx1 as <- <-.
    cbn [set_data xvg_legends xvg_columns xvg_xlabel xvg_ylabel data_heads
         data_columns] in Hr.
    fold (paired x) in Hr.
    destruct (paired x) eqn:Hp.
    + destruct (pair_heads (xvg_ylabel x) (xvg_legends x)) as [heads warning] eqn:Hph.
      apply bind_Returned in Hr as ([] & o7 & o8 & Hw & Hr & ->).
      rewrite print_all in Hw. injection Hw as <-.
      apply append_columns_Returned in Hr as (-> & fs & -> & Hall).
      cbn. rewrite app_nil_r.
      pose proof (Forall2_length Hall) as Hlen. rewrite length_seq in Hlen.
      repeat split; try reflexivity.
      * now rewrite Hlen.
      * constructor; [exact H0|].
        rewrite <- Hlen, <- seq_shift. clear Hlen.
        revert Hall. generalize (seq 0 (length heads)). intros l Hall.
        induction Hall as [|i f l' fs' Hfi _ IH]; cbn; constructor; auto.
        destruct Hfi as (raw & Hraw & Hm). exists raw. split; [|exact Hm].
        cbn in Hraw. now rewrite Nat.add_1_r in Hraw.
    + injection Hr as <- <-. cbn.
      repeat split; try reflexivity.
      constructor; [exact H0 | constructor].
Qed.

End ReconcileSpec.

(** ** The constructor *)

Section InitFacts.
Context {F : Type} `{PyFloat F}.

Lemma clean_tokens (raw_lines : list string) :
  Forall (fun l => split_ws l <> []) (clean raw_lines).
Proof.
  unfold clean. apply Forall_map. rewrite Forall_forall. intros l Hin.
  apply filter_In in Hin as [_ Hne]. apply split_ws_strip.
  intros Heq. rewrite Heq in Hne. discriminate.
Qed.

(** What a call of the constructor that returns has gone through. *)
Lemma XVG_init_Returned (file_exists : bool) (xvgfile : string)
    (raw_lines : list string) (x : XVG F) (out : list string) :
  XVG_init file_exists xvgfile raw_lines = Returned x out ->
  exists x0 out',
    parsed xvgfile (clean raw_lines) x0 /\
    raw_shape x0 (rows_of (clean raw_lines)) /\
    xvg_column_num x0 <> 0 /\ xvg_row_num x0 <> 0 /\
    reconcile x0 = Returned x out' /\
    out = out' ++ [msg_read xvgfile].
Proof.
  unfold XVG_init. intros Hr.
  apply bind_Returned in Hr as ([] & o1 & o2 & He & Hr & ->).
  destruct (negb file_exists); [discriminate|]. injection He as <-.
  apply bind_Returned in Hr as ([] & o3 & o4 & Hs & Hr & ->).
  destruct (negb _); [discriminate|]. injection Hs as <-.
  apply bind_Returned in Hr as (x0 & o5 & o6 & Hloop & Hr & ->).
  destruct (read_lines_inv _ _ (clean_tokens raw_lines) _ _ Hloop)
    as (-> & Hp & Hshape).
  apply bind_Returned in Hr as ([] & o7 & o8 & Hc & Hr & ->).
  apply check_shape_Returned in Hc as (-> & Hcn & Hrn).
  apply bind_Returned in Hr as (x1 & o9 & o10 & Hrec & Hr & ->).
  apply bind_Returned in Hr as ([] & o11 & o12 & Hpr & Hr & ->).
  injection Hpr as <-. injection Hr as <- <-.
  exists x0, o9. split; [exact Hp|]. split; [exact Hshape|]. now repeat split.
Qed.

End InitFacts.

(** ** The dataset of a parsed file *)

Section Dataset.
Context {F : Type} `{PyFloat F}.

Lemma classify_DataRow (line : string) :
  kind_eqb (classify line) DataRow = negb (is_comment line) && negb (is_meta line).
Proof.
  unfold classify. destruct (is_comment line); [reflexivity|].
  destruct (is_meta line); [|reflexivity].
  destruct (is_title line); [reflexivity|].
  destruct (is_xlabel line); [reflexivity|].
  destruct (is_ylabel line); [reflexivity|].
  destruct (is_legend line); reflexivity.
Qed.

Lemma data_lines_filter (lines : list string) :
  lines_of DataRow lines =
  filter (fun l => negb (is_comment l) && negb (is_meta l)) lines.
Proof. unfold lines_of. apply filter_ext. intros l. apply classify_DataRow. Qed.

(** A numeric column read from a raw column has one value per data row. *)
Lemma col_from_length (x0 : XVG F) (rows : list (list string)) (i : nat) (f : list F) :
  raw_shape x0 rows -> col_from x0 i f -> length f = xvg_row_num x0.
Proof.
  intros (Hrow & _ & _ & _ & Hnth) (raw & Hraw & Hm).
  assert (Hi : i < length (xvg_columns x0)).
  { apply nth_error_Some. congruence. }
  apply (nth_error_nth _ _ []) in Hraw. rewrite (Hnth i Hi) in Hraw. subst raw.
  apply (f_equal (@length _)) in Hm. rewrite !length_map in Hm. lia.
Qed.

Lemma Forall2_nth_r {A B} (R : A -> B -> Prop) (l1 : list A) (l2 : list B)
    (i : nat) (b : B) :
  Forall2 R l1 l2 -> nth_error l2 i = Some b ->
  exists a, nth_error l1 i = Some a /\ R a b.
Proof.
  intros Hall. revert i. induction Hall as [|a b' l1 l2 Hab _ IH]; intros i Hi.
  - now destruct i.
  - destruct i as [|i]; cbn in *.
    + injection Hi as <-. now exists a.
    + now apply IH.
Qed.

(** Every value list of a dataset the constructor returns has one value per
    data row. *)
Lemma XVG_init_column_lengths (file_exists : bool) (xvgfile : string)
    (raw_lines : list string) (x : XVG F) (out : list string) :
  XVG_init file_exists xvgfile raw_lines = Returned x out ->
  Forall (fun values => length values = xvg_row_num x) (data_columns x).
Proof.
  intros Hinit.
  apply XVG_init_Returned in Hinit
    as (x0 & out' & Hp & Hshape & Hcn & Hrn & Hrec & ->).
  destruct Hp as (_ & _ & _ & _ & _ & Hh & Hc).
  destruct (reconcile_Returned _ _ _ Hh Hc Hrec) as (Hx & _ & _ & _ & Hcols).
  assert (Hrows : xvg_row_num x = xvg_row_num x0) by (rewrite Hx; reflexivity).
  rewrite Hrows. rewrite Forall_forall. intros f Hin.
  apply In_nth_error in Hin as [i Hi].
  destruct (Forall2_nth_r _ _ _ i f Hcols Hi) as (j & Hj & Hcol).
  now apply (col_from_length x0 _ j f Hshape).
Qed.

(** C7: for every file the constructor accepts, there are as many heads as
    value lists, every value list has [xvg_row_num] values, [xvg_row_num]
    counts the lines that are not empty, not comments and not [@] lines,
    and the first value list is the first token of every data row read as
    a float. *)
Theorem dataset_invariant (file_exists : bool) (xvgfile : string)
    (raw_lines : list string) (x : XVG F) (out : list string) :
  XVG_init file_exists xvgfile raw_lines = Returned x out ->
  let data_lines :=
    filter (fun l => negb (is_comment l) && negb (is_meta l)) (clean raw_lines) in
  length (data_heads x) = length (data_columns x) /\
  Forall (fun values => length values = xvg_row_num x) (data_columns x) /\
  xvg_row_num x = length data_lines /\
  exists values, nth_error (data_columns x) 0 = Some values /\
    map Some values =
    map float_of_str (map (fun l => nth 0 (split_ws l) "") data_lines).
Proof.
  intros Hinit data_lines. subst data_lines. rewrite <- data_lines_filter.
  pose proof (XVG_init_column_lengths _ _ _ _ _ Hinit) as Hall.
  apply XVG_init_Returned in Hinit
    as (x0 & out' & Hp & Hshape & Hcn & Hrn & Hrec & ->).
  destruct Hp as (_ & _ & _ & _ & _ & Hh & Hc).
  destruct (reconcile_Returned _ _ _ Hh Hc Hrec) as (Hx & Hhd & _ & Hlen & Hcols).
  assert (Hrows : xvg_row_num x = xvg_row_num x0) by (rewrite Hx; reflexivity).
  split; [now symmetry|]. split; [exact Hall|]. split.
  - rewrite Hrows. destruct Hshape as (-> & _). unfold rows_of. apply length_map.
  - destruct (data_columns x) as [|f0 cs] eqn:Hdc; [inversion Hcols; subst|].
    + rewrite Hhd in Hlen. discriminate.
    + exists f0. split; [reflexivity|].
      inversion Hcols as [|? ? ? ? (raw & Hraw & Hm) _]; subst.
      destruct Hshape as (_ & Hcl & _ & _ & Hnth).
      apply (nth_error_nth _ _ []) in Hraw.
      rewrite Hnth in Hraw by lia. subst raw.
      unfold rows_of in Hm. rewrite <- Hm, !map_map. reflexivity.
Qed.

End Dataset.

(** ** Metadata and heads of a parsed file *)

Section Heads.
Context {F : Type} `{PyFloat F}.

Lemma nth_pair (legends items : list string) (i : nat) :
  length items = length legends -> i < length legends ->
  nth i (map (fun hi => (fst hi ++ " " ++ snd hi)%string) (combine legends items)) "" =
  (nth i legends "" ++ " " ++ nth i items "")%string.
Proof.
  revert items i. induction legends as [|l legends IH]; intros [|it items] i Hlen Hi;
    cbn in *; try lia.
  destruct i as [|i]; [reflexivity|]. apply IH; lia.
Qed.

Lemma nth_suffixed (legends : list string) (piece : string) (i : nat) :
  i < length legends ->
  nth i (map (fun h => (h ++ " " ++ piece)%string) legends) "" =
  (nth i legends "" ++ " " ++ piece)%string.
Proof.
  revert i. induction legends as [|l legends IH]; intros i Hi; cbn in *; [lia|].
  destruct i as [|i]; [reflexivity|]. apply IH; lia.
Qed.

(** The three cases of the pairing. *)
Lemma pair_heads_cases (ylabel : string) (legends : list string) :
  let items := map strip (split_on comma ylabel) in
  let heads := fst (pair_heads ylabel legends) in
  let warning := snd (pair_heads ylabel legends) in
  (length items = length legends ->
     (forall i, i < length legends ->
        nth i heads "" = (nth i legends "" ++ " " ++ nth i items "")%string) /\
     warning = []) /\
  (length items <> length legends ->
   length items = 1 -> String.length (nth 0 items "") < 5 ->
     (forall i, i < length legends ->
        nth i heads "" = (nth i legends "" ++ " " ++ nth 0 items "")%string) /\
     warning = []) /\
  (length items <> length legends ->
   ~ (length items = 1 /\ String.length (nth 0 items "") < 5) ->
     heads = legends /\ warning = [msg_pairing]).
Proof.
  intros items heads warning. subst heads warning. unfold pair_heads.
  fold items. replace (hd "" items) with (nth 0 items "") by now destruct items.
  destruct (length items =? length legends) eqn:Hl.
  - apply Nat.eqb_eq in Hl. cbn [fst snd]. split; [|split].
    + intros _. split; [|reflexivity]. intros i Hi. now apply nth_pair.
    + intros Hne. contradiction.
    + intros Hne. contradiction.
  - apply Nat.eqb_neq in Hl.
    destruct ((length items =? 1) && (String.length (nth 0 items "") <? 5)) eqn:Hc;
      cbn [fst snd]; (split; [|split]); try (intros Heq; contradiction).
    + intros _ _ _. split; [|reflexivity]. intros i Hi. now apply nth_suffixed.
    + intros _ Hn. exfalso. apply Hn.
      apply andb_true_iff in Hc as [H1 H5].
      apply Nat.eqb_eq in H1. apply Nat.ltb_lt in H5. now split.
    + intros _ H1 H5. exfalso.
      apply andb_false_iff in Hc as [Hc|Hc];
        [apply Nat.eqb_neq in Hc | apply Nat.ltb_ge in Hc]; lia.
    + intros _ _. now split.
Qed.

Lemma header_reconciliation_general (file_exists : bool) (xvgfile : string)
    (raw_lines : list string) (x : XVG F) (out : list string) :
  XVG_init file_exists xvgfile raw_lines = Returned x out ->
  xvg_legends x <> [] ->
  length (xvg_legends x) < length (xvg_columns x) ->
  let legends := xvg_legends x in
  let items := map strip (split_on comma (xvg_ylabel x)) in
  exists heads,
    data_heads x = xvg_xlabel x :: heads /\
    length heads = length legends /\
    (length items = length legends ->
       (forall i, i < length legends ->
          nth i heads "" = (nth i legends "" ++ " " ++ nth i items "")%string) /\
       out = [msg_read xvgfile]) /\
    (length items <> length legends ->
     length items = 1 -> String.length (nth 0 items "") < 5 ->
       (forall i, i < length legends ->
          nth i heads "" = (nth i legends "" ++ " " ++ nth 0 items "")%string) /\
       out = [msg_read xvgfile]) /\
    (length items <> length legends ->
     ~ (length items = 1 /\ String.length (nth 0 items "") < 5) ->
       heads = legends /\ out = [msg_pairing; msg_read xvgfile]).
Proof.
  intros Hinit Hleg Hcols legends items. subst legends items.
  apply XVG_init_Returned in Hinit
    as (x0 & out' & Hp & Hshape & Hcn & Hrn & Hrec & ->).
  destruct Hp as (_ & _ & _ & _ & _ & Hh & Hc).
  destruct (reconcile_Returned _ _ _ Hh Hc Hrec) as (Hx & Hhd & -> & _).
  rewrite Hx in Hleg, Hcols |- *.
  cbn [set_data xvg_legends xvg_columns xvg_ylabel xvg_xlabel data_heads] in *.
  assert (Hs : single x0 = false).
  { unfold single. destruct (xvg_legends x0); [contradiction | reflexivity]. }
  assert (Hpd : paired x0 = true).
  { unfold paired. apply andb_true_iff. split; apply Nat.ltb_lt; [|exact Hcols].
    destruct (xvg_legends x0); [contradiction | cbn; lia]. }
  rewrite Hs, Hpd in *. cbn [app] in Hhd.
  exists (fst (pair_heads (xvg_ylabel x0) (xvg_legends x0))).
  split; [exact Hhd|]. split; [apply pair_heads_length|].
  destruct (pair_heads_cases (xvg_ylabel x0) (xvg_legends x0)) as (H1 & H2 & H3).
  split; [|split].
  - intros Heq. destruct (H1 Heq) as [Hn ->]. now split.
  - intros Hne Hone Hshort. destruct (H2 Hne Hone Hshort) as [Hn ->]. now split.
  - intros Hne Hnot. destruct (H3 Hne Hnot) as [Hn ->]. now split.
Qed.

End Heads.

(** ** Header reconciliation, dataset and metadata *)

(** C1: when legends were declared and there are more raw columns than
    legends, the heads after the x-label are the legends paired with the
    y-label: with as many comma-separated, stripped pieces as legends,
    legend [i] gets piece [i] after a space; else, with a single piece of
    fewer than 5 characters, every legend gets that piece; else the legends
    stay as they are and the warning is printed.  The y-labels
    ["A, B"], ["nm"] and ["Energy Components"] with the legends [s1] and
    [s2] show the three cases. *)
Theorem header_reconciliation :
  (forall (F : Type) (ops : PyFloat F) (file_exists : bool) (xvgfile : string)
          (raw_lines : list string) (x : XVG F) (out : list string),
     XVG_init file_exists xvgfile raw_lines = Returned x out ->
     xvg_legends x <> [] ->
     length (xvg_legends x) < length (xvg_columns x) ->
     let legends := xvg_legends x in
     let items := map strip (split_on comma (xvg_ylabel x)) in
     exists heads,
       data_heads x = xvg_xlabel x :: heads /\
       length heads = length legends /\
       (length items = length legends ->
          (forall i, i < length legends ->
             nth i heads "" = (nth i legends "" ++ " " ++ nth i items "")%string) /\
          out = [msg_read xvgfile]) /\
       (length items <> length legends ->
        length items = 1 -> String.length (nth 0 items "") < 5 ->
          (forall i, i < length legends ->
             nth i heads "" = (nth i legends "" ++ " " ++ nth 0 items "")%string) /\
          out = [msg_read xvgfile]) /\
       (length items <> length legends ->
        ~ (length items = 1 /\ String.length (nth 0 items "") < 5) ->
          heads = legends /\ out = [msg_pairing; msg_read xvgfile])) /\
  (exists x : XVG float,
     XVG_init true "energy.xvg" (Samples.energy_file "A, B")
       = Returned x [msg_read "energy.xvg"] /\
     xvg_legends x = ["s1"; "s2"] /\
     data_heads x = ["Time (ps)"; "s1 A"; "s2 B"]) /\
  (exists x : XVG float,
     XVG_init true "energy.xvg" (Samples.energy_file "nm")
       = Returned x [msg_read "energy.xvg"] /\
     xvg_legends x = ["s1"; "s2"] /\
     data_heads x = ["Time (ps)"; "s1 nm"; "s2 nm"]) /\
  (exists x : XVG float,
     XVG_init true "energy.xvg" (Samples.energy_file "Energy Components")
       = Returned x [msg_pairing; msg_read "energy.xvg"] /\
     xvg_legends x = ["s1"; "s2"] /\
     data_heads x = ["Time (ps)"; "s1"; "s2"]).
Proof.
  split; [intros F ops; apply header_reconciliation_general|].
  repeat split; eexists; (split; [vm_compute; reflexivity|]); split; reflexivity.
Qed.

Lemma header_reconciliation_witness :
  exists (x : XVG float) (heads : list string),
    XVG_init true "energy.xvg" (Samples.energy_file "A, B")
      = Returned x [msg_read "energy.xvg"] /\
    data_heads x = xvg_xlabel x :: heads /\
    length heads = 2 /\
    nth 0 heads "" = "s1 A" /\ nth 1 heads "" = "s2 B".
Proof.
  assert (Hrun : exists x : XVG float,
             XVG_init true "energy.xvg" (Samples.energy_file "A, B")
               = Returned x [msg_read "energy.xvg"]).
  { eexists. vm_compute. reflexivity. }
  destruct Hrun as [x Hrun].
  assert (Hleg : xvg_legends x = ["s1"; "s2"]).
  { vm_compute in Hrun. now injection Hrun as <-. }
  assert (Hcol : length (xvg_columns x) = 3).
  { vm_compute in Hrun. now injection Hrun as <-. }
  assert (Hy : xvg_ylabel x = "A, B").
  { vm_compute in Hrun. now injection Hrun as <-. }
  destruct (proj1 header_reconciliation float _ true _ _ x _ Hrun)
    as (heads & Hd & Hlen & Hcase & _).
  - rewrite Hleg. discriminate.
  - rewrite Hleg, Hcol. cbn. lia.
  - exists x, heads. rewrite Hleg, Hy in *.
    destruct (Hcase eq_refl) as [Hn _].
    repeat split; try assumption.
    + apply (Hn 0). cbn. lia.
    + apply (Hn 1). cbn. lia.
Defined.

Lemma dataset_invariant_witness :
  exists x : XVG float,
    XVG_init true "energy.xvg" (Samples.energy_file "A, B")
      = Returned x [msg_read "energy.xvg"] /\
    length (data_heads x) = length (data_columns x) /\
    Forall (fun values => length values = xvg_row_num x) (data_columns x) /\
    xvg_row_num x = 3 /\
    exists values, nth_error (data_columns x) 0 = Some values /\
      map Some values = map float_of_str ["0.000000"; "1.000000"; "2.000000"].
Proof.
  assert (Hrun : exists x : XVG float,
             XVG_init true "energy.xvg" (Samples.energy_file "A, B")
               = Returned x [msg_read "energy.xvg"]).
  { eexists. vm_compute. reflexivity. }
  destruct Hrun as [x Hrun]. exists x. split; [exact Hrun|].
  exact (dataset_invariant true _ _ x _ Hrun).
Defined.

(** C10: the title, the x-label and the y-label of a parsed file are the
    values of the last title, x-label and y-label line (each such line
    overwrites what an earlier one set), and the legends are the values of
    all legend lines in the order of the file. *)
Theorem metadata_last_wins (F : Type) (ops : PyFloat F) (file_exists : bool)
    (xvgfile : string) (raw_lines : list string) (x : XVG F) (out : list string) :
  XVG_init file_exists xvgfile raw_lines = Returned x out ->
  xvg_title x = last (map metadata_value (lines_of Title (clean raw_lines))) "" /\
  xvg_xlabel x = last (map metadata_value (lines_of XLabel (clean raw_lines))) "" /\
  xvg_ylabel x = last (map metadata_value (lines_of YLabel (clean raw_lines))) "" /\
  xvg_legends x = map metadata_value (lines_of Legend (clean raw_lines)).
Proof.
  intros Hinit.
  apply XVG_init_Returned in Hinit
    as (x0 & out' & Hp & Hshape & Hcn & Hrn & Hrec & ->).
  destruct Hp as (_ & Ht & Hx & Hy & Hg & Hh & Hc).
  destruct (reconcile_Returned _ _ _ Hh Hc Hrec) as (-> & _).
  now repeat split.
Qed.

Lemma metadata_last_wins_witness :
  exists x : XVG float,
    XVG_init true "twice.xvg" Samples.two_titles
      = Returned x [msg_read "twice.xvg"] /\
    map metadata_value (lines_of Title (clean Samples.two_titles))
      = ["first"; "second"] /\
    xvg_title x = "second" /\
    xvg_legends x = ["Potential"; "Kinetic"].
Proof.
  assert (Hrun : exists x : XVG float,
             XVG_init true "twice.xvg" Samples.two_titles
               = Returned x [msg_read "twice.xvg"]).
  { eexists. vm_compute. reflexivity. }
  destruct Hrun as [x Hrun]. exists x. split; [exact Hrun|].
  destruct (metadata_last_wins float _ true _ _ x _ Hrun) as (Ht & _ & _ & Hl).
  rewrite Ht, Hl. repeat split; reflexivity.
Defined.

(** ** Rows of different widths *)

Section Mismatch.
Context {F : Type} `{PyFloat F}.

(** The loop over the lines goes through when all data rows have the width
    of the first one. *)
Lemma read_lines_ok (xvgfile : string) (lines : list string) :
  Forall (fun l => split_ws l <> []) lines ->
  Forall (fun r => length r = length (hd [] (rows_of lines))) (rows_of lines) ->
  exists x : XVG F, for_each read_line lines (fresh xvgfile) = Returned x [].
Proof.
  induction lines as [|a l IH] using rev_ind; intros Hl Hw.
  - now exists (fresh xvgfile).
  - apply Forall_app in Hl as [Hl Ha].
    rewrite rows_of_snoc in Hw.
    assert (Hw' : Forall (fun r => length r = length (hd [] (rows_of l))) (rows_of l)).
    { destruct (kind_eqb (classify a) DataRow); [|exact Hw].
      apply Forall_app in Hw as [Hw _].
      destruct (rows_of l); [constructor | exact Hw]. }
    destruct (IH Hl Hw') as [x1 Hrun1].
    destruct (read_lines_inv _ _ Hl _ _ Hrun1) as (_ & _ & Hs).
    rewrite for_each_app, Hrun1, bind_Returned_nil, for_each_single.
    rewrite read_line_classify.
    destruct (classify a) eqn:Hk; try (eexists; reflexivity).
    cbn [kind_eqb] in Hw. rewrite read_row_unfold. cbv zeta.
    replace (length (split_ws a) =? length (row_columns x1 (split_ws a)))
      with true; [eexists; reflexivity|].
    symmetry. apply Nat.eqb_eq. unfold row_columns.
    destruct (length (xvg_columns x1) =? 0) eqn:H0;
      [now rewrite repeat_length|].
    apply Nat.eqb_neq in H0. destruct Hs as (_ & _ & Hhd & _).
    apply Forall_app in Hw as [_ Hw]. inversion Hw as [|? ? Hlen _]; subst.
    rewrite Hlen, Hhd. destruct (rows_of l); [now elim H0 | reflexivity].
Qed.

End Mismatch.

Section MismatchLoop.
Context {F : Type} `{PyFloat F}.

(** The loop over the lines stops at the first data row whose width is not
    that of the first data row. *)
Lemma read_lines_mismatch_at (xvgfile : string) (before : list string)
    (row : string) (after : list string) (first_row : string) :
  Forall (fun l => split_ws l <> []) before ->
  hd_error (lines_of DataRow before) = Some first_row ->
  Forall (fun r => length (split_ws r) = length (split_ws first_row))
         (lines_of DataRow before) ->
  classify row = DataRow ->
  length (split_ws row) <> length (split_ws first_row) ->
  for_each read_line (before ++ row :: after) (fresh (F := F) xvgfile)
  = Exit [msg_columns_differ xvgfile; ("        " ++ row)%string].
Proof.
  intros Htok Hfirst Hwidth Hkind Hbad.
  assert (Hrows : rows_of before <> []).
  { unfold rows_of. destruct (lines_of DataRow before); discriminate. }
  assert (Hhd : hd [] (rows_of before) = split_ws first_row).
  { unfold rows_of. destruct (lines_of DataRow before); [discriminate|].
    cbn in Hfirst |- *. now injection Hfirst as ->. }
  destruct (read_lines_ok (F := F) xvgfile before Htok) as [x1 Hrun1].
  { rewrite Hhd. unfold rows_of. apply Forall_map. exact Hwidth. }
  destruct (read_lines_inv _ _ Htok _ _ Hrun1) as (_ & Hp & Hs).
  destruct Hp as (Hname & _). destruct Hs as (_ & _ & Hlen & _).
  rewrite Hhd in Hlen.
  assert (Hpos : length (split_ws first_row) <> 0).
  { rewrite <- Hhd. destruct (rows_of before) as [|r rs] eqn:Hr;
      [now elim Hrows|].
    pose proof (rows_of_nonempty _ Htok) as Hall. rewrite Hr in Hall.
    inversion Hall as [|? ? Hr0 _]; subst. cbn. now destruct r. }
  rewrite for_each_app, Hrun1, bind_Returned_nil.
  cbn [for_each]. rewrite read_line_classify, Hkind, read_row_unfold. cbv zeta.
  assert (Hcols : row_columns x1 (split_ws row) = xvg_columns x1).
  { unfold row_columns. rewrite Hlen.
    destruct (length (split_ws first_row) =? 0) eqn:H0; [|reflexivity].
    apply Nat.eqb_eq in H0. contradiction. }
  rewrite Hcols, Hlen.
  destruct (length (split_ws row) =? length (split_ws first_row)) eqn:He;
    [apply Nat.eqb_eq in He; contradiction|].
  cbn [negb bind]. now rewrite Hname.
Qed.

(** An [exit()] in the loop over the lines ends the constructor. *)
Lemma XVG_init_loop_exit (xvgfile : string) (raw_lines : list string)
    (out : list string) :
  PyStr.suffix 4 xvgfile = ".xvg" ->
  for_each read_line (clean raw_lines) (fresh (F := F) xvgfile) = Exit out ->
  XVG_init (F := F) true xvgfile raw_lines = Exit out.
Proof.
  intros Hsuf Hloop. unfold XVG_init. cbn [negb]. rewrite Hsuf.
  cbn [String.eqb negb]. rewrite !bind_ret_l, Hloop. reflexivity.
Qed.

End MismatchLoop.

(** The first element that passes a test. *)
Lemma first_match {A} (test : A -> bool) (l : list A) :
  existsb test l = true ->
  exists before a after,
    l = before ++ a :: after /\ test a = true /\
    forallb (fun x => negb (test x)) before = true.
Proof.
  induction l as [|x l IH]; [discriminate|]. cbn [existsb].
  destruct (test x) eqn:Hx.
  - intros _. now exists [], x, l.
  - cbn [orb]. intros Hex. destruct (IH Hex) as (before & a & after & -> & Ha & Hb).
    exists (x :: before), a, after. cbn [forallb app]. now rewrite Hx, Hb.
Qed.

(** C6: when some data row has another number of tokens than the first
    data row, the constructor stops at the first such row: the data rows
    before it all have the width of the first one, it has not, and the
    call prints the error message and that row and ends with [exit()],
    whatever follows; no object is returned. *)
Theorem column_count_mismatch (F : Type) (ops : PyFloat F) (xvgfile : string)
    (raw_lines : list string) (first_row : string) :
  PyStr.suffix 4 xvgfile = ".xvg" ->
  hd_error (lines_of DataRow (clean raw_lines)) = Some first_row ->
  Exists (fun row => length (split_ws row) <> length (split_ws first_row))
         (lines_of DataRow (clean raw_lines)) ->
  exists before row after,
    lines_of DataRow (clean raw_lines) = before ++ row :: after /\
    Forall (fun r => length (split_ws r) = length (split_ws first_row)) before /\
    length (split_ws row) <> length (split_ws first_row) /\
    XVG_init (F := F) true xvgfile raw_lines
    = Exit [msg_columns_differ xvgfile; ("        " ++ row)%string].
Proof.
  intros Hsuf Hfirst Hbad.
  set (wrong := fun l => kind_eqb (classify l) DataRow
                         && negb (length (split_ws l) =? length (split_ws first_row))).
  assert (Hex : existsb wrong (clean raw_lines) = true).
  { apply Exists_exists in Hbad as (row & Hin & Hw).
    apply existsb_exists. exists row.
    apply filter_In in Hin as [Hin Hk]. split; [exact Hin|].
    unfold wrong. rewrite Hk. cbn. apply negb_true_iff. now apply Nat.eqb_neq. }
  destruct (first_match wrong _ Hex) as (before & row & after & Hsplit & Hrow & Hpre).
  unfold wrong in Hrow. apply andb_true_iff in Hrow as [Hk Hw].
  apply negb_true_iff, Nat.eqb_neq in Hw.
  assert (Hgood : Forall (fun r => length (split_ws r) = length (split_ws first_row))
                         (lines_of DataRow before)).
  { apply Forall_forall. intros r Hin. apply filter_In in Hin as [Hin Hr].
    rewrite forallb_forall in Hpre. specialize (Hpre r Hin).
    unfold wrong in Hpre. rewrite Hr in Hpre. cbn in Hpre.
    rewrite negb_involutive in Hpre. now apply Nat.eqb_eq. }
  assert (Hdata : lines_of DataRow (clean raw_lines)
                  = lines_of DataRow before ++ row :: lines_of DataRow after).
  { rewrite Hsplit. unfold lines_of. rewrite filter_app. cbn [filter].
    now rewrite Hk. }
  assert (Hfirst' : hd_error (lines_of DataRow before) = Some first_row).
  { rewrite Hdata in Hfirst. destruct (lines_of DataRow before); [|exact Hfirst].
    cbn in Hfirst. injection Hfirst as <-. now elim Hw. }
  exists (lines_of DataRow before), row, (lines_of DataRow after).
  split; [exact Hdata|]. split; [exact Hgood|]. split; [exact Hw|].
  apply XVG_init_loop_exit; [exact Hsuf|]. rewrite Hsplit.
  apply (read_lines_mismatch_at xvgfile before row after first_row);
    try assumption.
  - pose proof (clean_tokens raw_lines) as Htok. rewrite Hsplit in Htok.
    now apply Forall_app in Htok as [Htok _].
  - now apply kind_eqb_eq.
Qed.

Lemma column_count_mismatch_witness :
  (exists before row after,
     lines_of DataRow
       (clean (Samples.energy_file "A, B"
               ++ Samples.short_row :: ["4 5 6"; "7 8"]))
     = before ++ row :: after /\
     Forall (fun r => length (split_ws r) = 3) before /\
     length (split_ws row) <> 3 /\
     XVG_init (F := float) true "energy.xvg"
       (Samples.energy_file "A, B" ++ Samples.short_row :: ["4 5 6"; "7 8"])
     = Exit [msg_columns_differ "energy.xvg"; ("        " ++ row)%string]) /\
  XVG_init (F := float) true "energy.xvg"
    (Samples.energy_file "A, B" ++ Samples.short_row :: ["4 5 6"; "7 8"])
  = Exit ["Error -> the number of columns in energy.xvg is not equal. ";
          "        3.000000   4.5"].
Proof.
  split; [|vm_compute; reflexivity].
  apply (column_count_mismatch float _ "energy.xvg"
           (Samples.energy_file "A, B"
            ++ Samples.short_row :: ["4 5 6"; "7 8"])
           "0.000000   1.5  -2").
  - reflexivity.
  - reflexivity.
  - apply Exists_exists. exists "3.000000   4.5". split.
    + vm_compute. tauto.
    + vm_compute. discriminate.
Defined.

(** ** Metadata lines *)

Lemma meta_not_comment (line : string) :
  is_meta line = true -> is_comment line = false.
Proof.
  unfold is_meta, is_comment, startswith.
  destruct line as [|c r]; [discriminate|].
  destruct c as [[] [] [] [] [] [] [] []]; intros Hm;
    try (vm_compute in Hm; discriminate Hm); reflexivity.
Qed.

(** C9: the tests on an [@] line are made in the order title, x-label,
    y-label, legend, each on the whole line; so a line that starts with
    [@], contains [title] and does not contain [subtitle] is a title line
    whatever else it contains: it sets the title to its value and leaves
    the labels and the legends as they were, also when it starts with
    [@ s] and contains [legend]. *)
Theorem title_takes_precedence :
  (forall line : string,
     startswith "@" line = true ->
     classify line =
       if contains "title" line && negb (contains "subtitle" line) then Title
       else if contains "xaxis" line && contains "label" line then XLabel
       else if contains "yaxis" line && contains "label" line then YLabel
       else if startswith "@ s" line && contains "legend" line then Legend
       else OtherMeta) /\
  (forall (F : Type) (ops : PyFloat F) (x : XVG F) (line : string),
     startswith "@" line = true ->
     contains "title" line = true ->
     contains "subtitle" line = false ->
     classify line = Title /\
     exists x', read_line x line = Returned x' [] /\
       xvg_title x' = metadata_value line /\
       xvg_legends x' = xvg_legends x /\
       xvg_xlabel x' = xvg_xlabel x /\
       xvg_ylabel x' = xvg_ylabel x /\
       xvg_columns x' = xvg_columns x).
Proof.
  assert (Horder : forall line : string,
            startswith "@" line = true ->
            classify line =
              if contains "title" line && negb (contains "subtitle" line) then Title
              else if contains "xaxis" line && contains "label" line then XLabel
              else if contains "yaxis" line && contains "label" line then YLabel
              else if startswith "@ s" line && contains "legend" line then Legend
              else OtherMeta).
  { intros line Hmeta. unfold classify.
    rewrite (meta_not_comment line Hmeta). unfold is_meta. rewrite Hmeta.
    reflexivity. }
  split; [exact Horder|].
  intros F ops x line Hmeta Htitle Hsub.
  assert (Hk : classify line = Title).
  { rewrite (Horder line Hmeta), Htitle, Hsub. reflexivity. }
  split; [exact Hk|].
  exists (set_title (metadata_value line) x).
  rewrite read_line_classify, Hk. now repeat split.
Qed.

Lemma title_takes_precedence_witness :
  is_legend Samples.legend_with_title = true /\
  classify Samples.legend_with_title = Title /\
  exists x' : XVG float,
    read_line (fresh "run.xvg") Samples.legend_with_title = Returned x' [] /\
    xvg_title x' = "title of run" /\
    xvg_legends x' = [].
Proof.
  split; [reflexivity|].
  destruct (proj2 title_takes_precedence float _ (fresh "run.xvg")
              Samples.legend_with_title eq_refl eq_refl eq_refl)
    as (Hk & x' & Hrun & Ht & Hl & _).
  split; [exact Hk|]. exists x'. now repeat split.
Defined.

(** The value of a line without a double quote is the line. *)
Lemma metadata_value_bare (line : string) :
  has_char dquote line = false -> metadata_value line = line.
Proof.
  intros Hq. unfold metadata_value, strip_char.
  rewrite (strip_by_none _ _ Hq), (split_on_none _ _ Hq). reflexivity.
Qed.

(** C4, as the code has it: the value of a line without a double quote is
    the whole line, which for a line that starts with [@] is not empty; a
    title, axis-label or legend line without a double quote is stored
    whole in the field of its kind. *)
Theorem unquoted_metadata_value (F : Type) (ops : PyFloat F) (x : XVG F)
    (line : string) :
  has_char dquote line = false ->
  metadata_value line = line /\
  (startswith "@" line = true -> metadata_value line <> "") /\
  (classify line = Title -> read_line x line = Returned (set_title line x) []) /\
  (classify line = XLabel -> read_line x line = Returned (set_xlabel line x) []) /\
  (classify line = YLabel -> read_line x line = Returned (set_ylabel line x) []) /\
  (classify line = Legend ->
     read_line x line = Returned (set_legends (xvg_legends x ++ [line]) x) []).
Proof.
  intros Hq. rewrite read_line_classify, (metadata_value_bare line Hq).
  split; [reflexivity|]. split.
  - intros Hmeta ->. discriminate Hmeta.
  - repeat split; intros ->; reflexivity.
Qed.

Lemma unquoted_metadata_value_witness :
  metadata_value Samples.bare_title = "@ title Energy" /\
  read_line (F := float) (fresh "run.xvg") Samples.bare_title
  = Returned (set_title "@ title Energy" (fresh "run.xvg")) [].
Proof.
  destruct (unquoted_metadata_value float _ (fresh "run.xvg")
              Samples.bare_title eq_refl) as (Hv & _ & Ht & _).
  split; [exact Hv | exact (Ht eq_refl)].
Defined.

(** C4 as stated fails: the title line [@ title Energy] has no double
    quote, and its value is the whole line, not the empty string. *)
Lemma unquoted_metadata_value_not_empty :
  has_char dquote Samples.bare_title = false /\
  classify Samples.bare_title = Title /\
  metadata_value Samples.bare_title = "@ title Energy" /\
  metadata_value Samples.bare_title <> "".
Proof. repeat split; try reflexivity. discriminate. Qed.

(** ** Slices *)

Section SliceFacts.
Context {A : Type}.

Lemma index_range_skipn (l : list A) (a b : nat) :
  index_range l a b = firstn (b - a) (skipn a l).
Proof.
  unfold index_range. revert a b.
  induction l as [|x l IH]; intros a b.
  - rewrite skipn_nil, firstn_nil.
    induction (seq a (b - a)) as [|i s IHs]; [reflexivity|].
    cbn. now destruct i.
  - destruct a as [|a].
    + rewrite Nat.sub_0_r. destruct b as [|b]; [reflexivity|].
      cbn [seq flat_map nth_error skipn firstn app]. f_equal.
      rewrite <- seq_shift, flat_map_concat_map, map_map, <- flat_map_concat_map.
      cbn [nth_error]. specialize (IH 0 b). rewrite Nat.sub_0_r in IH. exact IH.
    + destruct b as [|b]; [reflexivity|].
      cbn [Nat.sub skipn]. rewrite <- (IH a b).
      rewrite <- seq_shift, flat_map_concat_map, map_map, <- flat_map_concat_map.
      reflexivity.
Qed.

(** For bounds that are not negative, the slice is the half-open range of
    positions from [start] (0 when it is not given) to [stop] (the length
    when it is not given). *)
Lemma slice_index_range (l : list A) (start stop : option Z) :
  nonneg start -> nonneg stop ->
  slice l start stop = index_range l (bound_or 0 start) (bound_or (length l) stop).
Proof.
  intros Hs He. rewrite index_range_skipn. unfold slice, slice_bound, bound_or.
  set (n := length l).
  assert (Hlo : forall a, (0 <= a)%Z ->
            skipn (Z.to_nat (Z.min a (Z.of_nat n))) l = skipn (Z.to_nat a) l).
  { intros a Ha. destruct (Z.le_ge_cases a (Z.of_nat n)) as [Hle|Hge].
    - now rewrite Z.min_l.
    - rewrite Z.min_r by lia. rewrite Nat2Z.id.
      rewrite !skipn_all2; [reflexivity | subst n; lia | subst n; lia]. }
  assert (Hcut : forall (k k' : nat) (l' : list A),
            Nat.min k (length l') = Nat.min k' (length l') ->
            firstn k l' = firstn k' l').
  { intros k k' l' Hk.
    transitivity (firstn (Nat.min k (length l')) l').
    - now rewrite <- firstn_firstn, firstn_all.
    - now rewrite Hk, <- firstn_firstn, firstn_all. }
  destruct start as [a|], stop as [b|]; cbn in Hs, He.
  - destruct (a <? 0)%Z eqn:Ha; [lia|]. destruct (b <? 0)%Z eqn:Hb; [lia|].
    rewrite Hlo by lia. apply Hcut. rewrite length_skipn. fold n. lia.
  - destruct (a <? 0)%Z eqn:Ha; [lia|].
    rewrite Hlo by lia. apply Hcut. rewrite length_skipn. fold n. lia.
  - destruct (b <? 0)%Z eqn:Hb; [lia|]. cbn [Z.to_nat skipn].
    apply Hcut. fold n. lia.
  - cbn [Z.to_nat skipn]. apply Hcut. fold n. lia.
Qed.

Lemma slice_whole (l : list A) : slice l None None = l.
Proof.
  unfold slice. rewrite Z.sub_0_r, Nat2Z.id. cbn [Z.to_nat skipn].
  apply firstn_all.
Qed.

End SliceFacts.

(** ** [calc_average] *)

Section AverageFacts.
Context {F : Type} `{PyFloat F}.

Lemma both_ge_true (start stop : option Z) :
  both_ge start stop = true <->
  exists a b, start = Some a /\ stop = Some b /\ (a >= b)%Z.
Proof.
  unfold both_ge. destruct start as [a|], stop as [b|]; split;
    try discriminate; try (intros (a' & b' & Ha & Hb & _); discriminate).
  - intros Hge. exists a, b. repeat split. apply Z.geb_le in Hge. lia.
  - intros (a' & b' & Ha & Hb & Hge). injection Ha as <-. injection Hb as <-.
    apply Z.geb_le. lia.
Qed.

Lemma given_ge_true (bound : option Z) (n : Z) :
  given_ge bound n = true <-> exists a, bound = Some a /\ (a >= n)%Z.
Proof.
  unfold given_ge. destruct bound as [a|]; split; try discriminate.
  - intros Hge. exists a. split; [reflexivity|]. apply Z.geb_le in Hge. lia.
  - intros (a' & Ha & Hge). injection Ha as <-. apply Z.geb_le. lia.
  - intros (a' & Ha & _). discriminate.
Qed.

Lemma invalid_range_test (row_num : nat) (start stop : option Z) :
  both_ge start stop
  || (given_ge start (Z.of_nat row_num) || given_ge stop (Z.of_nat row_num)) = true
  <-> invalid_range row_num start stop.
Proof.
  unfold invalid_range.
  rewrite !orb_true_iff, both_ge_true, !given_ge_true. reflexivity.
Qed.

Lemma calc_average_invalid (x : XVG F) (start stop : option Z) :
  invalid_range (xvg_row_num x) start stop ->
  calc_average x start stop = Exit [msg_start_end] \/
  calc_average x start stop = Exit [msg_index_rows].
Proof.
  intros Hbad. apply invalid_range_test in Hbad. unfold calc_average.
  destruct (both_ge start stop); [now left|]. cbn [orb] in Hbad.
  rewrite Hbad. now right.
Qed.

Lemma calc_average_valid (x : XVG F) (start stop : option Z) :
  ~ invalid_range (xvg_row_num x) start stop ->
  calc_average x start stop =
  Returned (data_heads x,
            map (fun column => np_mean (slice column start stop)) (data_columns x),
            map (fun column => np_std (slice column start stop)) (data_columns x))
           [].
Proof.
  intros Hok. rewrite <- invalid_range_test in Hok.
  apply not_true_is_false in Hok. apply orb_false_iff in Hok as [Hb Hg].
  unfold calc_average. now rewrite Hb, Hg.
Qed.

End AverageFacts.

(** C5: [calc_average] ends with [exit()] after its error message exactly
    when [start >= end] with both given, or a given bound is not below the
    number of rows; otherwise it returns, for every column, the mean and
    the population standard deviation of [column[start:end]], which for
    bounds that are not negative is the half-open range of positions from
    [start] to [end], and the whole column without bounds.  On [1, 2, 3, 4, 5, 6] the range from 1 to 4 is
    [2, 3, 4], with mean 3.0. *)
Theorem calc_average_range :
  (forall (F : Type) (ops : PyFloat F) (x : XVG F) (start stop : option Z),
     (invalid_range (xvg_row_num x) start stop ->
        calc_average x start stop = Exit [msg_start_end] \/
        calc_average x start stop = Exit [msg_index_rows]) /\
     (~ invalid_range (xvg_row_num x) start stop ->
        calc_average x start stop =
        Returned (data_heads x,
                  map (fun column => np_mean (slice column start stop))
                      (data_columns x),
                  map (fun column => np_std (slice column start stop))
                      (data_columns x))
                 [])) /\
  (forall (A : Type) (column : list A) (start stop : option Z),
     nonneg start -> nonneg stop ->
     slice column start stop =
     index_range column (bound_or 0 start) (bound_or (length column) stop)) /\
  (forall (A : Type) (column : list A), slice column None None = column) /\
  (slice (map Binary64.of_Z [1; 2; 3; 4; 5; 6]%Z) (Some 1%Z) (Some 4%Z)
     = [2; 3; 4]%float /\
   calc_average Samples.one_to_six (Some 1%Z) (Some 4%Z)
     = Returned (["x"], [3%float], [PrimFloat.sqrt (2 / 3)]) []).
Proof.
  split; [|split; [|split]].
  - intros F ops x start stop. split.
    + apply calc_average_invalid.
    + apply calc_average_valid.
  - intros A column start stop. apply slice_index_range.
  - intros A column. apply slice_whole.
  - split; vm_compute; reflexivity.
Qed.

Lemma calc_average_range_witness :
  calc_average Samples.one_to_six (Some 4%Z) (Some 1%Z) = Exit [msg_start_end] /\
  calc_average Samples.one_to_six None (Some 6%Z) = Exit [msg_index_rows] /\
  calc_average Samples.one_to_six None None
    = Returned (["x"], [3.5%float], [PrimFloat.sqrt (17.5 / 6)]) [].
Proof.
  pose proof (proj1 calc_average_range float _ Samples.one_to_six) as Hspec.
  split; [|split].
  - destruct (proj1 (Hspec (Some 4%Z) (Some 1%Z))) as [Hexit|Hexit].
    + left. exists 4%Z, 1%Z. repeat split. lia.
    + exact Hexit.
    + vm_compute in Hexit. discriminate Hexit.
  - destruct (proj1 (Hspec None (Some 6%Z))) as [Hexit|Hexit].
    + right. right. exists 6%Z. split; [reflexivity | cbn; lia].
    + vm_compute in Hexit. discriminate Hexit.
    + exact Hexit.
  - rewrite (proj2 (Hspec None None)).
    + vm_compute. reflexivity.
    + intros [(a & b & Ha & _)|[(a & Ha & _)|(b & Hb & _)]]; discriminate.
Defined.

(** A negative bound passes both guards and counts from the end of the
    column, as in any Python slice: [start = -2] averages the last two
    values. *)
Lemma calc_average_negative_start :
  slice (map Binary64.of_Z [1; 2; 3; 4; 5; 6]%Z) (Some (-2)%Z) None
    = [5; 6]%float /\
  calc_average Samples.one_to_six (Some (-2)%Z) None
    = Returned (["x"], [5.5%float], [0.5%float]) [].
Proof. split; vm_compute; reflexivity. Qed.

(** ** [calc_mvave] *)

Lemma calc_mvave_one_to_six
    (norm_ppf : float -> float -> float -> float) (confidence : float) :
  PrimFloat.leb confidence 0 = false ->
  PrimFloat.leb 1 confidence = false ->
  let bounds mean := norm_interval norm_ppf confidence mean 0.5%float in
  calc_mvave norm_ppf Samples.one_to_six 2 confidence
  = Returned
      (["x"],
       [[nan; nan; 1.5; 2.5; 3.5; 4.5]%float],
       [[nan; nan; snd (bounds 1.5); snd (bounds 2.5); snd (bounds 3.5);
         snd (bounds 4.5)]%float],
       [[nan; nan; fst (bounds 1.5); fst (bounds 2.5); fst (bounds 3.5);
         fst (bounds 4.5)]%float])
      [].
Proof.
  intros Hlow Hhigh bounds. subst bounds. unfold calc_mvave.
  change (fleb confidence (float_of_int 0)) with (PrimFloat.leb confidence 0).
  change (fleb (float_of_int 1) confidence) with (PrimFloat.leb 1 confidence).
  rewrite Hlow, Hhigh. vm_compute. reflexivity.
Qed.

(** *** The interval of a location-scale quantile function *)

(** The sign goes through the rounding of a product. *)
Lemma SFopp_round_aux (s : bool) (m e : Z) (l : SpecFloat.location) :
  SFopp (binary_round_aux prec emax s m e l)
  = binary_round_aux prec emax (negb s) m e l.
Proof.
  unfold binary_round_aux.
  destruct (shr_fexp prec emax m e l) as [mrs' e'].
  destruct (shr_fexp prec emax _ e' loc_Exact) as [mrs'' e''].
  destruct (shr_m mrs''); try reflexivity.
  destruct (Z.leb e'' (emax - prec)); reflexivity.
Qed.

Lemma SFmul_opp_l (x y : spec_float) :
  SFmul prec emax (SFopp x) y = SFopp (SFmul prec emax x y).
Proof.
  destruct x as [sx|sx| |sx mx ex], y as [sy|sy| |sy my ey]; cbn [SFopp SFmul];
    try reflexivity; try (now destruct sx, sy).
  rewrite SFopp_round_aux. now destruct sx, sy.
Qed.

(** [(-a) * b == -(a * b)] for all doubles. *)
Lemma mul_opp_l (a b : float) : ((- a) * b = - (a * b))%float.
Proof.
  apply Prim2SF_inj.
  rewrite mul_spec, opp_spec, opp_spec, mul_spec.
  apply SFmul_opp_l.
Qed.

(** The interval of a quantile function of the form
    [std_ppf(q) * scale + loc] whose standard quantiles at the two levels
    are opposite: the location minus and plus the same half width. *)
Lemma norm_interval_symmetric
    (norm_ppf : float -> float -> float -> float) (std_ppf : float -> float)
    (confidence loc scale : float) :
  (forall q loc scale, norm_ppf q loc scale = (std_ppf q * scale + loc)%float) ->
  std_ppf ((1 - confidence) / 2)%float
    = (- std_ppf ((1 + confidence) / 2))%float ->
  let half_width := (std_ppf ((1 + confidence) / 2) * scale)%float in
  norm_interval norm_ppf confidence loc scale
  = ((- half_width + loc)%float, (half_width + loc)%float).
Proof.
  intros Hform Hsym half_width. unfold norm_interval.
  change (fdiv (fsub (float_of_int 1) confidence) (float_of_int 2))
    with ((1 - confidence) / 2)%float.
  change (fdiv (fadd (float_of_int 1) confidence) (float_of_int 2))
    with ((1 + confidence) / 2)%float.
  rewrite !Hform, Hsym, mul_opp_l. reflexivity.
Qed.

(** C2, as the code has it: on [1, 2, 3, 4, 5, 6] with a window of 2 the
    three result arrays have 6 entries, NaN at the indices 0 and 1; the
    window of index 2 is the slice from 0 to 2, that is [1, 2], so the
    entry at index 2 is 1.5 with standard deviation 0.5, and its interval
    is symmetric about 1.5: the bounds are 1.5 minus and plus the same
    half width.  The interval is that of [scipy.stats.norm], which is
    outside this repository; it is taken to be a location-scale quantile,
    [std_ppf(q) * scale + loc], whose standard quantiles at the levels
    [(1 - confidence) / 2] and [(1 + confidence) / 2] are opposite. *)
Theorem moving_average_example
    (norm_ppf : float -> float -> float -> float) (std_ppf : float -> float)
    (confidence : float) :
  PrimFloat.leb confidence 0 = false ->
  PrimFloat.leb 1 confidence = false ->
  (forall q loc scale, norm_ppf q loc scale = (std_ppf q * scale + loc)%float) ->
  std_ppf ((1 - confidence) / 2)%float
    = (- std_ppf ((1 + confidence) / 2))%float ->
  let half_width := (std_ppf ((1 + confidence) / 2) * 0.5)%float in
  calc_mvave norm_ppf Samples.one_to_six 2 confidence
  = Returned
      (["x"],
       [[nan; nan; 1.5; 2.5; 3.5; 4.5]%float],
       [[nan; nan; half_width + 1.5; half_width + 2.5; half_width + 3.5;
         half_width + 4.5]%float],
       [[nan; nan; - half_width + 1.5; - half_width + 2.5;
         - half_width + 3.5; - half_width + 4.5]%float])
      [] /\
  slice (map Binary64.of_Z [1; 2; 3; 4; 5; 6]%Z) (Some (2 - 2)%Z) (Some 2%Z)
    = [1; 2]%float /\
  np_mean [1; 2]%float = 1.5%float /\
  np_std [1; 2]%float = 0.5%float /\
  norm_interval norm_ppf confidence 1.5%float 0.5%float
  = ((- half_width + 1.5)%float, (half_width + 1.5)%float).
Proof.
  intros Hlow Hhigh Hform Hsym half_width.
  assert (Hint : forall loc,
            norm_interval norm_ppf confidence loc 0.5%float
            = ((- half_width + loc)%float, (half_width + loc)%float))
    by (intros loc; now apply (norm_interval_symmetric norm_ppf std_ppf)).
  split.
  - rewrite (calc_mvave_one_to_six norm_ppf confidence Hlow Hhigh).
    cbv zeta. rewrite !Hint. reflexivity.
  - split; [vm_compute; reflexivity|]. split; [vm_compute; reflexivity|].
    split; [vm_compute; reflexivity | apply Hint].
Qed.

Lemma moving_average_example_witness :
  calc_mvave MoreSamples.scaled_ppf Samples.one_to_six 2 0.5%float
  = Returned
      (["x"],
       [[nan; nan; 1.5; 2.5; 3.5; 4.5]%float],
       [[nan; nan; 1.75; 2.75; 3.75; 4.75]%float],
       [[nan; nan; 1.25; 2.25; 3.25; 4.25]%float])
      [] /\
  norm_interval MoreSamples.scaled_ppf 0.5%float 1.5%float 0.5%float
  = (1.25, 1.75)%float.
Proof.
  destruct (moving_average_example MoreSamples.scaled_ppf
              MoreSamples.uniform_ppf 0.5%float eq_refl eq_refl
              (fun q loc scale => eq_refl) eq_refl)
    as (Hrun & _ & _ & _ & Hint).
  split.
  - etransitivity; [exact Hrun | vm_compute; reflexivity].
  - etransitivity; [exact Hint | vm_compute; reflexivity].
Defined.

(** C2 as stated fails: whatever the quantile function, the entry at index
    2 is 1.5, the mean of [1, 2], and not 2.5. *)
Lemma moving_average_index_2 :
  (forall norm_ppf : float -> float -> float -> float,
     exists mv_ave high low,
       calc_mvave norm_ppf Samples.one_to_six 2 (95 / 100)%float
         = Returned (["x"], [mv_ave], [high], [low]) [] /\
       nth 2 mv_ave nan = 1.5%float) /\
  PrimFloat.eqb 1.5 2.5 = false.
Proof.
  split; [|reflexivity]. intros norm_ppf.
  pose proof (calc_mvave_one_to_six norm_ppf (95 / 100)%float eq_refl eq_refl)
    as Hrun.
  cbv zeta in Hrun. do 3 eexists. split; [exact Hrun | reflexivity].
Qed.

(** ** The binning of [draw_distribution] *)


Section RunNoExit.
Context {A B : Type}.



End RunNoExit.

Section Counting.

Lemma update_length {A} (k : nat) (f : A -> A) (l : list A) :
  length (update k f l) = length l.
Proof.
  revert k. induction l as [|a l IH]; intros [|k]; cbn; auto.
Qed.

Lemma sum_update (k : nat) (l : list Z) :
  k < length l -> sum (update k (fun f => (f + 1)%Z) l) = (sum l + 1)%Z.
Proof.
  unfold sum.
  revert k. induction l as [|a l IH]; intros k Hk; cbn [length] in Hk; [lia|].
  destruct k as [|k]; cbn [update fold_right].
  - lia.
  - rewrite IH by lia. lia.
Qed.

Lemma index_lt {A} (l : list A) (i : Z) (k : nat) :
  index l i = Some k -> k < length l.
Proof.
  unfold index.
  destruct (0 <=? i)%Z eqn:H0.
  - destruct (i <? Z.of_nat (length l))%Z eqn:H1; [|discriminate].
    intros Heq. injection Heq as <-. lia.
  - destruct (0 <=? i + Z.of_nat (length l))%Z eqn:H1; [|discriminate].
    intros Heq. injection Heq as <-. lia.
Qed.

Lemma sum_repeat_0 (n : nat) : sum (repeat 0%Z n) = 0%Z.
Proof. unfold sum. induction n as [|n IH]; cbn [repeat fold_right]; lia. Qed.

Context {F : Type} `{PyArith F}.

Lemma increment_Returned (frequency : list Z) (i : Z) (frequency' : list Z)
    (out : list string) :
  increment frequency i = Returned frequency' out ->
  out = [] /\ length frequency' = length frequency /\
  sum frequency' = (sum frequency + 1)%Z.
Proof.
  unfold increment. destruct (index frequency i) as [k|] eqn:Hk; [|discriminate].
  intros Hr. injection Hr as <- <-. apply index_lt in Hk.
  split; [reflexivity|]. split; [apply update_length | now apply sum_update].
Qed.

Lemma bucket_Returned (column_min bin_window : F) (bin : Z) (value : F) (i : Z)
    (out : list string) :
  bucket column_min bin_window bin value = Returned i out -> out = [].
Proof.
  unfold bucket, int. destruct (int_of_float _); [discriminate|].
  cbn. intros Hr. now injection Hr as _ <-.
Qed.

Lemma count_loop (column_min bin_window : F) (bin : Z) (column : list F)
    (frequency0 frequency : list Z) (out : list string) :
  for_each (fun frequency value =>
      index <- bucket column_min bin_window bin value;;
      increment frequency index) column frequency0 = Returned frequency out ->
  out = [] /\ length frequency = length frequency0 /\
  sum frequency = (sum frequency0 + Z.of_nat (length column))%Z.
Proof.
  revert frequency0 out. induction column as [|v column IH]; intros f0 out Hr.
  - cbn in Hr. injection Hr as <- <-. cbn [length]. repeat split. lia.
  - cbn [for_each] in Hr.
    apply bind_Returned in Hr as (f1 & o1 & o2 & Hstep & Hr & ->).
    apply bind_Returned in Hstep as (i & o3 & o4 & Hb & Hi & ->).
    apply bucket_Returned in Hb as ->.
    apply increment_Returned in Hi as (-> & Hlen & Hsum).
    apply IH in Hr as (-> & Hlen' & Hsum').
    split; [reflexivity|]. split; [congruence|].
    rewrite Hsum', Hsum. cbn [length]. lia.
Qed.

(** Every value adds one to one bucket: when the counting loop ends, the
    counts add up to the number of values. *)
Lemma bin_counts_sum (column_min bin_window : F) (bin : Z) (column : list F)
    (frequency : list Z) (out : list string) :
  bin_counts column_min bin_window bin column = Returned frequency out ->
  out = [] /\ length frequency = Z.to_nat bin /\
  sum frequency = Z.of_nat (length column).
Proof.
  unfold bin_counts. intros Hr.
  apply count_loop in Hr as (-> & Hlen & Hsum).
  rewrite repeat_length in Hlen. rewrite sum_repeat_0 in Hsum.
  now repeat split.
Qed.




(** A column whose bin width compares equal to zero gets one bucket at its
    minimum, with the frequency 1. *)
Lemma distribution_constant (row_num : nat) (bin : Z) (column : list F)
    (column_min column_max : F) :
  np_min column = Some column_min -> np_max column = Some column_max ->
  feqb (fdiv (fsub column_max column_min) (float_of_int bin)) (float_of_int 0) = true ->
  distribution row_num bin column = Returned ([column_min], [float_of_int 1]) [].
Proof.
  intros Hmin Hmax Hw. unfold distribution. now rewrite Hmin, Hmax, Hw.
Qed.

End Counting.

(** ** The distribution of a column *)

(** In double precision a bin width in the subnormal range is rounded so
    much that the quotient of a value by it can exceed [bin]: the values
    0 and 7 * 2^-1074 with 5 bins give the width 2^-1074 and the index 7,
    which is no bucket. *)
Lemma binning_subnormal_width :
  let tiny := SF2Prim (S754_finite false 7 (-1074)) in
  np_min [0%float; tiny] = Some 0%float /\
  np_max [0%float; tiny] = Some tiny /\
  PrimFloat.ltb 0 (tiny / 5) = true /\
  bucket 0%float (tiny / 5)%float 5 tiny = Returned 7%Z [] /\
  distribution 2 5 [0%float; tiny] = Raised IndexError [].
Proof. repeat split; vm_compute; reflexivity. Qed.

(** C3, on the code: a column whose bin width compares equal to zero gets
    one bucket at its value, and the frequency stored for it is 1, where
    the buckets of the other branch hold per cent of the rows: four equal
    values give ([5], [1]), while three of four values in one bucket give
    75. *)
Theorem constant_column_bucket :
  (forall (F : Type) (ops : PyArith F) (row_num : nat) (bin : Z)
          (column : list F) (column_min column_max : F),
     np_min column = Some column_min -> np_max column = Some column_max ->
     feqb (fdiv (fsub column_max column_min) (float_of_int bin)) (float_of_int 0)
       = true ->
     distribution row_num bin column
       = Returned ([column_min], [float_of_int 1]) []) /\
  draw_distribution Samples.four_fives 100 = Returned [([5], [1])%float] [] /\
  PrimFloat.eqb 1 100 = false /\
  draw_distribution Samples.fives_and_six 2
    = Returned [([5; 5.5], [75; 25])%float] [].
Proof.
  split; [|repeat split; vm_compute; reflexivity].
  intros F ops row_num bin column column_min column_max.
  apply distribution_constant.
Qed.

(** * More properties of strings *)

Section Appending.
Local Open Scope string_scope.

Lemma append_nil_r (s : string) : s ++ "" = s.
Proof. induction s as [|c s IH]; cbn; [reflexivity | now rewrite IH]. Qed.

Lemma append_assoc (a b c : string) : (a ++ b) ++ c = a ++ (b ++ c).
Proof. induction a as [|x a IH]; cbn; [reflexivity | now rewrite IH]. Qed.

Lemma length_append (a b : string) :
  String.length (a ++ b) = String.length a + String.length b.
Proof. induction a as [|x a IH]; cbn; [reflexivity | now rewrite IH]. Qed.

End Appending.

(** * More properties of the constructor *)

Import InitMore.

Section InitOutcomes.
Context {F : Type} `{PyFloat F}.

(** The loop over the lines either goes through without printing, or stops
    at a data row of the wrong width. *)
Lemma read_lines_outcome (xvgfile : string) (lines : list string) :
  Forall (fun l => split_ws l <> []) lines ->
  (uniform_rows lines /\
   exists x : XVG F, for_each read_line lines (fresh xvgfile) = Returned x []) \/
  (~ uniform_rows lines /\
   exists row, In row (lines_of DataRow lines) /\
     for_each read_line lines (fresh (F := F) xvgfile)
     = Exit [msg_columns_differ xvgfile; ("        " ++ row)%string]).
Proof.
  intros Htok. unfold uniform_rows.
  assert (Hcase : lines_of DataRow lines = [] \/
                  exists first_row rest, lines_of DataRow lines = first_row :: rest).
  { destruct (lines_of DataRow lines) as [|f r]; [now left | right; now exists f, r]. }
  destruct Hcase as [Hdata|(first_row & rest & Hdata)].
  { left. assert (Hu : Forall (fun row => length row = length (hd [] (rows_of lines)))
                         (rows_of lines)).
    { unfold rows_of. rewrite Hdata. constructor. }
    split; [exact Hu | now apply read_lines_ok]. }
  set (wrong := fun l => kind_eqb (classify l) DataRow
                         && negb (length (split_ws l) =? length (split_ws first_row))).
  assert (Hhd : hd [] (rows_of lines) = split_ws first_row).
  { unfold rows_of. now rewrite Hdata. }
  destruct (existsb wrong lines) eqn:Hex.
  - right.
    destruct (first_match wrong _ Hex) as (before & row & after & Hsplit & Hrow & Hpre).
    unfold wrong in Hrow. apply andb_true_iff in Hrow as [Hk Hw].
    apply negb_true_iff, Nat.eqb_neq in Hw.
    assert (Hin : In row (lines_of DataRow lines)).
    { unfold lines_of. apply filter_In. split; [|exact Hk].
      rewrite Hsplit. apply in_or_app. right. now left. }
    split.
    + intros Hall. rewrite Hhd in Hall. rewrite Forall_forall in Hall.
      apply Hw. apply Hall. unfold rows_of. now apply in_map.
    + exists row. split; [exact Hin|].
      assert (Hgood : Forall (fun r => length (split_ws r) = length (split_ws first_row))
                             (lines_of DataRow before)).
      { apply Forall_forall. intros r Hr. apply filter_In in Hr as [Hr Hkr].
        rewrite forallb_forall in Hpre. specialize (Hpre r Hr).
        unfold wrong in Hpre. rewrite Hkr in Hpre. cbn in Hpre.
        rewrite negb_involutive in Hpre. now apply Nat.eqb_eq. }
      assert (Hd : lines_of DataRow lines
                   = lines_of DataRow before ++ row :: lines_of DataRow after).
      { rewrite Hsplit. unfold lines_of. rewrite filter_app. cbn [filter].
        now rewrite Hk. }
      assert (Hfirst : hd_error (lines_of DataRow before) = Some first_row).
      { rewrite Hdata in Hd. destruct (lines_of DataRow before) as [|b bs].
        - cbn in Hd. injection Hd as <- _. now elim Hw.
        - cbn in Hd. injection Hd as <- _. reflexivity. }
      rewrite Hsplit.
      apply (read_lines_mismatch_at xvgfile before row after first_row);
        try assumption.
      * rewrite Hsplit in Htok. now apply Forall_app in Htok as [Htok _].
      * now apply kind_eqb_eq.
  - left.
    assert (Hu : Forall (fun row => length row = length (hd [] (rows_of lines)))
                        (rows_of lines)).
    { rewrite Hhd. unfold rows_of. apply Forall_map. apply Forall_forall.
      intros r Hr. apply filter_In in Hr as [Hr Hkr].
      assert (Hnot : wrong r = false).
      { destruct (wrong r) eqn:Hwr; [|reflexivity].
        assert (existsb wrong lines = true)
          by (apply existsb_exists; now exists r).
        congruence. }
      unfold wrong in Hnot. rewrite Hkr in Hnot. cbn in Hnot.
      apply negb_false_iff in Hnot. now apply Nat.eqb_eq. }
    split; [exact Hu | now apply read_lines_ok].
Qed.

(** Every raw column has one token per data row. *)
Lemma raw_column_shape (x : XVG F) (rows : list (list string)) (j : nat) :
  raw_shape x rows -> j < length (xvg_columns x) ->
  exists col, nth_error (xvg_columns x) j = Some col /\
              col = map (fun r => nth j r "") rows /\
              length col = xvg_row_num x.
Proof.
  intros (Hrow & _ & _ & _ & Hnth) Hj.
  destruct (nth_error (xvg_columns x) j) as [col|] eqn:Hc.
  - exists col. split; [reflexivity|].
    apply (nth_error_nth _ _ []) in Hc. rewrite (Hnth j Hj) in Hc. subst col.
    split; [reflexivity|]. now rewrite length_map.
  - apply nth_error_None in Hc. lia.
Qed.

Lemma check_columns_ok (x : XVG F) (rows : list (list string)) (n a : nat) :
  raw_shape x rows -> a + n <= length (xvg_columns x) ->
  for_each (fun _ c =>
      col <- raw_column x c;;
      if negb (length col =? xvg_row_num x)
      then print (msg_column_length c);; exit
      else ret tt) (seq a n) tt = Returned tt [].
Proof.
  intros Hs. revert a. induction n as [|n IH]; intros a Ha; [reflexivity|].
  cbn [seq for_each].
  destruct (raw_column_shape x rows a Hs) as (col & Hc & _ & Hlen); [lia|].
  unfold raw_column at 1. rewrite Hc, bind_ret_l, Hlen, Nat.eqb_refl.
  cbn [negb]. rewrite bind_ret_l. apply IH. lia.
Qed.

(** The checks after the loop pass as soon as there is a data row. *)
Lemma check_shape_ok (x : XVG F) (rows : list (list string)) :
  raw_shape x rows -> rows <> [] -> Forall (fun r => r <> []) rows ->
  check_shape x = Returned tt [].
Proof.
  intros Hs Hne Htok. unfold check_shape.
  pose proof Hs as (Hrow & Hcn & Hhd & _).
  rewrite (check_columns_ok x rows _ 0 Hs) by (cbn; lia).
  rewrite bind_Returned_nil.
  destruct rows as [|r rows]; [now elim Hne|].
  inversion Htok as [|? ? Hr _]; subst.
  assert (Hc : xvg_column_num x <> 0).
  { rewrite Hcn, Hhd. cbn. destruct r; [now elim Hr | discriminate]. }
  assert (Hr' : xvg_row_num x <> 0) by (rewrite Hrow; discriminate).
  apply Nat.eqb_neq in Hc, Hr'. now rewrite Hc, Hr'.
Qed.

Lemma check_shape_no_data (x : XVG F) :
  raw_shape x [] -> check_shape x = Exit [msg_no_data].
Proof.
  intros Hs. unfold check_shape.
  pose proof Hs as (Hrow & Hcn & Hhd & _).
  rewrite (check_columns_ok x [] _ 0 Hs) by (cbn; lia).
  rewrite bind_Returned_nil. cbn in Hrow. rewrite Hrow. cbn.
  now rewrite orb_true_r.
Qed.

End InitOutcomes.

Section ReconcileOutcomes.
Context {F : Type} `{PyFloat F}.

Lemma floats_outcome (col : list string) :
  (exists fs, floats col = Returned fs []) \/
  (floats col = Raised ValueError [] /\
   Exists (fun token => float_of_str token = None) col).
Proof.
  induction col as [|c col IH]; [left; now exists []|].
  unfold floats in *. cbn [map_run].
  destruct (float_of_str c) as [f|] eqn:Hc.
  - rewrite bind_ret_l. destruct IH as [[fs Hfs]|[Hfs Hbad]].
    + left. exists (f :: fs). now rewrite Hfs.
    + right. rewrite Hfs. split; [reflexivity | now apply Exists_cons_tl].
  - right. split; [reflexivity | now apply Exists_cons_hd].
Qed.

Lemma pair_heads_warning (ylabel : string) (legends : list string) :
  snd (pair_heads ylabel legends) = [] \/
  snd (pair_heads ylabel legends) = [msg_pairing].
Proof.
  unfold pair_heads.
  destruct (_ =? _); [now left|]. destruct (_ && _); [now left | now right].
Qed.

(** The loop that appends one numeric column per head either goes through
    or stops at a raw column with a token that is no float. *)
Lemma append_columns_outcome (cols : list (list string)) (n a : nat) (x : XVG F) :
  xvg_columns x = cols -> a + n < length cols ->
  (exists x', for_each (fun x i =>
        c <- raw_column x (i + 1);;
        f <- floats c;;
        ret (set_data (data_heads x) (data_columns x ++ [f]) x))
      (seq a n) x = Returned x' []) \/
  (for_each (fun x i =>
        c <- raw_column x (i + 1);;
        f <- floats c;;
        ret (set_data (data_heads x) (data_columns x ++ [f]) x))
      (seq a n) x = Raised ValueError [] /\
   exists i col, a < i <= a + n /\ nth_error cols i = Some col /\
     Exists (fun token => float_of_str token = None) col).
Proof.
  revert a x. induction n as [|n IH]; intros a x Hx Han.
  - left. now exists x.
  - cbn [seq for_each].
    destruct (nth_error cols (a + 1)) as [c|] eqn:Hc;
      [|apply nth_error_None in Hc; lia].
    unfold raw_column at 1 3. rewrite Hx, Hc, !bind_ret_l.
    destruct (floats_outcome c) as [[f Hf]|[Hf Hbad]]; rewrite Hf.
    + rewrite !bind_Returned_nil, !bind_ret_l.
      destruct (IH (S a) (set_data (data_heads x) (data_columns x ++ [f]) x))
        as [[x' Hx']|[Hraise (i & col & Hi & Hcol & Hbad)]];
        [now rewrite <- Hx | lia | |].
      * left. now exists x'.
      * right. split; [exact Hraise|]. exists i, col. repeat split; auto; lia.
    + right. split; [reflexivity|]. exists (a + 1), c. repeat split; auto; lia.
Qed.

(** Lines 154-174 either build the dataset or stop at a token that is no
    float, in one of the raw columns they read. *)
Lemma reconcile_outcome (x : XVG F) :
  0 < length (xvg_columns x) ->
  (exists x' out, reconcile x = Returned x' out) \/
  (exists out i col,
     reconcile x = Raised ValueError out /\
     (out = [] \/ out = [msg_pairing]) /\
     i < analysed_count x /\
     nth_error (xvg_columns x) i = Some col /\
     Exists (fun token => float_of_str token = None) col).
Proof.
  intros Hpos. unfold analysed_count, consumed_columns.
  fold (single x). fold (paired x).
  remember (reconcile x) as r eqn:Hr. unfold reconcile in Hr.
  destruct (nth_error (xvg_columns x) 0) as [c0|] eqn:Hc0;
    [|apply nth_error_None in Hc0; lia].
  unfold raw_column at 1 in Hr. rewrite Hc0, bind_ret_l in Hr.
  destruct (floats_outcome c0) as [[f0 Hf0]|[Hf0 Hbad]]; rewrite Hf0 in Hr.
  2:{ right. exists [], 0, c0. split; [exact Hr|]. split; [now left|].
      split; [lia|]. now split. }
  rewrite bind_Returned_nil in Hr.
  cbn [set_data xvg_legends xvg_columns xvg_xlabel xvg_ylabel data_heads
       data_columns] in Hr.
  fold (single x) in Hr.
  destruct (single x) eqn:Hsingle.
  - assert (Hp : paired x = false).
    { unfold single in Hsingle. unfold paired.
      apply andb_true_iff in Hsingle as [Hs _]. apply Nat.eqb_eq in Hs.
      now rewrite Hs. }
    assert (H1 : 1 < length (xvg_columns x)).
    { unfold single in Hsingle. apply andb_true_iff in Hsingle as [_ Hs].
      now apply Nat.ltb_lt. }
    destruct (nth_error (xvg_columns x) 1) as [c1|] eqn:Hc1;
      [|apply nth_error_None in Hc1; lia].
    unfold raw_column at 1 in Hr. cbn [set_data xvg_columns] in Hr.
    rewrite Hc1, bind_ret_l in Hr.
    destruct (floats_outcome c1) as [[f1 Hf1]|[Hf1 Hbad]]; rewrite Hf1 in Hr.
    2:{ right. exists [], 1, c1. split; [exact Hr|]. split; [now left|].
        split; [lia|]. now split. }
    rewrite !bind_Returned_nil, bind_ret_l in Hr.
    cbn [set_data xvg_legends xvg_columns xvg_xlabel xvg_ylabel data_heads
         data_columns] in Hr.
    fold (paired x) in Hr. rewrite Hp in Hr. left. eexists. eexists. exact Hr.
  - rewrite bind_ret_l in Hr.
    cbn [set_data xvg_legends xvg_columns xvg_xlabel xvg_ylabel data_heads
         data_columns] in Hr.
    fold (paired x) in Hr.
    destruct (paired x) eqn:Hp; [|left; eexists; eexists; exact Hr].
    pose proof (pair_heads_length (xvg_ylabel x) (xvg_legends x)) as Hlen.
    pose proof (pair_heads_warning (xvg_ylabel x) (xvg_legends x)) as Hwarn.
    destruct (pair_heads (xvg_ylabel x) (xvg_legends x)) as [heads warning].
    cbn [fst snd] in Hlen, Hwarn.
    rewrite print_all in Hr.
    assert (Hlt : length (xvg_legends x) < length (xvg_columns x)).
    { unfold paired in Hp. apply andb_true_iff in Hp as [_ Hp].
      now apply Nat.ltb_lt. }
    match type of Hr with
    | context [for_each ?body (seq 0 (length heads)) ?x0] =>
        destruct (append_columns_outcome (xvg_columns x) (length heads) 0 x0)
          as [[x' Hx']|[Hraise (i & col & Hi & Hcol & Hbad)]];
          [reflexivity | lia | |]
    end.
    + left. rewrite Hx' in Hr. eexists. eexists. exact Hr.
    + right. rewrite Hraise in Hr. exists warning, i, col.
      cbn [bind] in Hr. rewrite app_nil_r in Hr.
      split; [exact Hr|]. split; [exact Hwarn|].
      split; [lia|]. now split.
Qed.

End ReconcileOutcomes.

Section InitCharacterised.
Context {F : Type} `{PyFloat F}.

(** The constructor after its two checks of the file name. *)
Lemma XVG_init_unfold (xvgfile : string) (raw_lines : list string) :
  PyStr.suffix 4 xvgfile = ".xvg" ->
  XVG_init (F := F) true xvgfile raw_lines =
  (x <- for_each read_line (clean raw_lines) (fresh xvgfile);;
   check_shape x;;
   x <- reconcile x;;
   print (msg_read xvgfile);;
   ret x).
Proof.
  intros Hsuf. unfold XVG_init. cbn [negb]. rewrite Hsuf, String.eqb_refl.
  cbn [negb]. now rewrite !bind_ret_l.
Qed.

Lemma XVG_init_no_file (xvgfile : string) (raw_lines : list string) :
  XVG_init (F := F) false xvgfile raw_lines = Exit [msg_no_file xvgfile].
Proof. reflexivity. Qed.

Lemma XVG_init_bad_suffix (xvgfile : string) (raw_lines : list string) :
  PyStr.suffix 4 xvgfile <> ".xvg" ->
  XVG_init (F := F) true xvgfile raw_lines = Exit [msg_suffix].
Proof.
  intros Hsuf. unfold XVG_init. cbn [negb].
  destruct (String.eqb (PyStr.suffix 4 xvgfile) ".xvg") eqn:He;
    [apply String.eqb_eq in He; contradiction | reflexivity].
Qed.

(** A raw column with a token that is no float, among token rows. *)
Lemma bad_token_in_rows (x : XVG F) (rows : list (list string)) (i : nat)
    (col : list string) :
  raw_shape x rows -> nth_error (xvg_columns x) i = Some col ->
  Exists (fun token => float_of_str token = None) col ->
  exists row, In row rows /\ float_of_str (nth i row "") = None.
Proof.
  intros Hs Hcol Hbad.
  assert (Hi : i < length (xvg_columns x)) by (apply nth_error_Some; congruence).
  destruct (raw_column_shape x rows i Hs Hi) as (col' & Hc' & Heq & _).
  rewrite Hcol in Hc'. injection Hc' as <-. subst col.
  apply Exists_exists in Hbad as (token & Hin & Hnone).
  apply in_map_iff in Hin as (row & <- & Hrow). now exists row.
Qed.

End InitCharacterised.

Section InitCases.
Context {F : Type} `{PyFloat F}.

Lemma Forall2_seq_nth {B} (R : nat -> B -> Prop) (n : nat) (l : list B)
    (j : nat) (b : B) :
  Forall2 R (seq 0 n) l -> nth_error l j = Some b -> R j b.
Proof.
  intros Hall Hj.
  destruct (Forall2_nth_r _ _ _ j b Hall Hj) as (a & Ha & Hab).
  assert (Hlt : j < length (seq 0 n)) by (apply nth_error_Some; congruence).
  rewrite length_seq in Hlt.
  apply (nth_error_nth _ _ 0) in Ha. rewrite seq_nth in Ha by exact Hlt.
  cbn in Ha. now subst a.
Qed.

(** The number of numeric columns of a dataset built by lines 154-174. *)
Lemma reconcile_count (x x' : XVG F) (out : list string) :
  data_heads x = [] -> data_columns x = [] ->
  reconcile x = Returned x' out ->
  length (data_columns x') = analysed_count x /\
  (out = [] \/ out = [msg_pairing]).
Proof.
  intros Hh Hc Hrec.
  destruct (reconcile_Returned _ _ _ Hh Hc Hrec) as (_ & Hhd & -> & Hlen & _).
  split.
  - rewrite Hlen, Hhd. unfold analysed_count, consumed_columns.
    fold (single x). fold (paired x). cbn [length]. rewrite length_app.
    destruct (single x), (paired x); cbn [length];
      rewrite ?pair_heads_length; lia.
  - destruct (paired x); [apply pair_heads_warning | now left].
Qed.

(** The tokens lines 154-174 have read are floats. *)
Lemma reconcile_numeric (x x' : XVG F) (out : list string)
    (rows : list (list string)) :
  data_heads x = [] -> data_columns x = [] -> raw_shape x rows ->
  reconcile x = Returned x' out ->
  numeric_rows (analysed_count x) rows.
Proof.
  intros Hh Hc Hs Hrec row j Hrow Hj.
  destruct (reconcile_count _ _ _ Hh Hc Hrec) as [Hcount _].
  destruct (reconcile_Returned _ _ _ Hh Hc Hrec) as (_ & _ & _ & _ & Hcols).
  rewrite <- Hcount in Hj.
  destruct (nth_error (data_columns x') j) as [f|] eqn:Hf;
    [|apply nth_error_None in Hf; lia].
  destruct (Forall2_seq_nth _ _ _ _ _ Hcols Hf) as (raw & Hraw & Hm).
  assert (Hjc : j < length (xvg_columns x)) by (apply nth_error_Some; congruence).
  destruct (raw_column_shape x rows j Hs Hjc) as (col & Hcol & Heq & _).
  rewrite Hraw in Hcol. injection Hcol as <-. subst raw.
  rewrite map_map in Hm.
  apply In_nth_error in Hrow as [k Hk].
  apply (map_nth_error (fun r => float_of_str (nth j r ""))) in Hk.
  rewrite Hm in Hk.
  destruct (nth_error f k) as [v|] eqn:Hv.
  - rewrite (map_nth_error Some _ _ Hv) in Hk. congruence.
  - apply nth_error_None in Hv.
    assert (Hnone : nth_error (map Some f) k = None)
      by (apply nth_error_None; now rewrite length_map).
    congruence.
Qed.

(** The four ways a call on an existing file with the right suffix goes,
    read off the file: a data row of the wrong width, no data row, a token
    that is no float in a column that is read, or a dataset. *)
Lemma XVG_init_cases (xvgfile : string) (raw_lines : list string) :
  PyStr.suffix 4 xvgfile = ".xvg" ->
  let lines := clean raw_lines in
  let rows := rows_of lines in
  let consumed :=
    consumed_columns (length (lines_of Legend lines)) (length (hd [] rows)) in
  let r := XVG_init (F := F) true xvgfile raw_lines in
  (~ uniform_rows lines /\
   exists row, In row (lines_of DataRow lines) /\
     r = Exit [msg_columns_differ xvgfile; ("        " ++ row)%string]) \/
  (uniform_rows lines /\ rows = [] /\ r = Exit [msg_no_data]) \/
  (uniform_rows lines /\ rows <> [] /\
   (exists row j, In row rows /\ j < consumed /\
                  float_of_str (nth j row "") = None) /\
   (r = Raised ValueError [] \/ r = Raised ValueError [msg_pairing])) \/
  (uniform_rows lines /\ rows <> [] /\ numeric_rows consumed rows /\
   exists x, length (data_columns x) = consumed /\
     (r = Returned x [msg_read xvgfile] \/
      r = Returned x [msg_pairing; msg_read xvgfile])).
Proof.
  intros Hsuf lines rows consumed r. subst r.
  rewrite (XVG_init_unfold _ _ Hsuf). fold lines.
  pose proof (clean_tokens raw_lines) as Htok. fold lines in Htok.
  destruct (read_lines_outcome (F := F) xvgfile lines Htok)
    as [[Hu [x0 Hloop]]|[Hnu (row & Hrow & Hloop)]].
  2:{ left. split; [exact Hnu|]. exists row. split; [exact Hrow|].
      now rewrite Hloop. }
  right. rewrite Hloop, bind_Returned_nil.
  destruct (read_lines_inv _ _ Htok _ _ Hloop) as (_ & Hp & Hs).
  fold rows in Hs.
  destruct Hp as (_ & _ & _ & _ & Hleg & Hh & Hc).
  assert (Hcount : analysed_count x0 = consumed).
  { unfold analysed_count, consumed. rewrite Hleg, length_map.
    destruct Hs as (_ & _ & -> & _). reflexivity. }
  destruct rows as [|row0 rows'] eqn:Hrows.
  { left. split; [exact Hu|]. split; [reflexivity|].
    now rewrite (check_shape_no_data x0 Hs). }
  right.
  assert (Hne : row0 :: rows' <> []) by discriminate.
  pose proof (rows_of_nonempty lines Htok) as Hnonempty. fold rows in Hnonempty.
  rewrite Hrows in Hnonempty.
  rewrite (check_shape_ok x0 _ Hs Hne Hnonempty), bind_Returned_nil.
  assert (Hpos : 0 < length (xvg_columns x0)).
  { destruct Hs as (_ & _ & -> & _). cbn.
    inversion Hnonempty as [|? ? Hr _]; subst. destruct row0; [now elim Hr | cbn; lia]. }
  destruct (reconcile_outcome x0 Hpos)
    as [(x' & out & Hrec)|(out & i & col & Hrec & Hout & Hi & Hcol & Hbad)].
  - right. split; [exact Hu|]. split; [exact Hne|].
    split; [rewrite <- Hcount; now apply (reconcile_numeric x0 x' out)|].
    destruct (reconcile_count _ _ _ Hh Hc Hrec) as [Hn Hout].
    exists x'. split; [congruence|]. rewrite Hrec. unfold print, ret.
    destruct Hout as [-> | ->]; [left | right]; reflexivity.
  - left. split; [exact Hu|]. split; [exact Hne|]. split.
    + destruct (bad_token_in_rows x0 _ i col Hs Hcol Hbad) as (row & Hrow & Hnone).
      exists row, i. repeat split; auto. congruence.
    + rewrite Hrec. destruct Hout as [-> | ->]; [left | right]; reflexivity.
Qed.

End InitCases.

Section InitTheorems.
Context {F : Type} `{PyFloat F}.

(** What a dataset holds after lines 154-174, in terms of the state the
    loop over the lines left. *)
Lemma XVG_init_dataset (file_exists : bool) (xvgfile : string)
    (raw_lines : list string) (x : XVG F) (out : list string) :
  XVG_init file_exists xvgfile raw_lines = Returned x out ->
  let rows := rows_of (clean raw_lines) in
  xvg_legends x = map metadata_value (lines_of Legend (clean raw_lines)) /\
  length (xvg_columns x) = length (hd [] rows) /\
  xvg_column_num x = length (xvg_columns x) /\
  length (data_columns x) = analysed_count x /\
  data_heads x =
    xvg_xlabel x :: (if single x then [xvg_ylabel x] else [])
    ++ (if paired x then fst (pair_heads (xvg_ylabel x) (xvg_legends x)) else []) /\
  out = (if paired x then snd (pair_heads (xvg_ylabel x) (xvg_legends x)) else [])
        ++ [msg_read xvgfile] /\
  Forall2 (fun i values =>
             map Some values = map (fun row => float_of_str (nth i row "")) rows)
          (seq 0 (length (data_columns x))) (data_columns x).
Proof.
  intros Hrun rows.
  destruct (XVG_init_Returned _ _ _ _ _ Hrun)
    as (x0 & out' & Hp & Hs & _ & _ & Hrec & ->).
  destruct Hp as (_ & _ & _ & _ & Hleg & Hh & Hc).
  destruct (reconcile_count _ _ _ Hh Hc Hrec) as [Hcount _].
  destruct (reconcile_Returned _ _ _ Hh Hc Hrec) as (Hx & Hhd & Hout & _ & Hcols).
  assert (Hl : xvg_legends x = xvg_legends x0) by (rewrite Hx; reflexivity).
  assert (Hcs : xvg_columns x = xvg_columns x0) by (rewrite Hx; reflexivity).
  assert (Hn : xvg_column_num x = xvg_column_num x0) by (rewrite Hx; reflexivity).
  assert (Hxl : xvg_xlabel x = xvg_xlabel x0) by (rewrite Hx; reflexivity).
  assert (Hyl : xvg_ylabel x = xvg_ylabel x0) by (rewrite Hx; reflexivity).
  assert (Hsg : single x = single x0) by (unfold single; now rewrite Hl, Hcs).
  assert (Hpr : paired x = paired x0) by (unfold paired; now rewrite Hl, Hcs).
  assert (Hac : analysed_count x = analysed_count x0)
    by (unfold analysed_count; now rewrite Hl, Hcs).
  rewrite Hl, Hcs, Hn, Hxl, Hyl, Hsg, Hpr, Hac.
  pose proof Hs as (_ & Hnum & Hwidth & _).
  repeat (split; [assumption || congruence|]).
  eapply Forall2_impl; [|exact Hcols].
  intros i values (raw & Hraw & Hm).
  assert (Hi : i < length (xvg_columns x0)) by (apply nth_error_Some; congruence).
  destruct (raw_column_shape x0 _ i Hs Hi) as (col & Hcol & Heq & _).
  rewrite Hraw in Hcol. injection Hcol as <-.
  rewrite <- Hm, Heq, map_map. reflexivity.
Qed.

End InitTheorems.

Section InitExtras.
Context {F : Type} `{PyFloat F}.

(** X3: every call of the constructor on a file that, when it is reached,
    is opened and read without error ends in one of eight ways.  It
    returns a dataset after printing the success line, alone or after the
    pairing warning; or it exits after the message for a missing file, for
    a wrong suffix, for a data row of another width (followed by that row)
    or for a file without data; or it raises [ValueError] at a token that
    is no float, having printed nothing or the pairing warning.  It never
    raises [IndexError], and the message for a column of the wrong length
    (lines 142-149) is never printed. *)
Theorem XVG_init_outcomes (file_exists : bool) (xvgfile : string)
    (raw_lines : list string) :
  let r := XVG_init (F := F) file_exists xvgfile raw_lines in
  (exists x, r = Returned x [msg_read xvgfile] \/
             r = Returned x [msg_pairing; msg_read xvgfile]) \/
  r = Exit [msg_no_file xvgfile] \/
  r = Exit [msg_suffix] \/
  (exists row, In row (lines_of DataRow (clean raw_lines)) /\
     r = Exit [msg_columns_differ xvgfile; ("        " ++ row)%string]) \/
  r = Exit [msg_no_data] \/
  r = Raised ValueError [] \/
  r = Raised ValueError [msg_pairing].
Proof.
  intros r. subst r.
  destruct file_exists; [|right; left; apply XVG_init_no_file].
  destruct (string_dec (PyStr.suffix 4 xvgfile) ".xvg") as [Hsuf|Hsuf];
    [|right; right; left; now apply XVG_init_bad_suffix].
  destruct (XVG_init_cases (F := F) xvgfile raw_lines Hsuf)
    as [(_ & row & Hrow & Hr)
       |[(_ & _ & Hr)
        |[(_ & _ & _ & Hr)
         |(_ & _ & _ & x & _ & Hr)]]].
  - do 3 right. left. now exists row.
  - do 4 right. now left.
  - do 5 right. exact Hr.
  - left. now exists x.
Qed.

(** X4: for an existing file with the suffix [.xvg], the constructor exits
    with the message that no data line was detected exactly when no line of
    the file is a data line: every line is blank, a comment or starts with
    [@] (an empty file included). *)
Theorem XVG_init_no_data (xvgfile : string) (raw_lines : list string) :
  PyStr.suffix 4 xvgfile = ".xvg" ->
  XVG_init (F := F) true xvgfile raw_lines = Exit [msg_no_data] <->
  lines_of DataRow (clean raw_lines) = [].
Proof.
  intros Hsuf.
  destruct (XVG_init_cases (F := F) xvgfile raw_lines Hsuf)
    as [(_ & row & Hrow & Hr)
       |[(_ & Hrows & Hr)
        |[(_ & Hrows & _ & Hr)
         |(_ & Hrows & _ & x & _ & Hr)]]].
  - split; intros Hn.
    + rewrite Hr in Hn. discriminate.
    + rewrite Hn in Hrow. destruct Hrow.
  - split; [|intros _; exact Hr]. intros _.
    unfold rows_of in Hrows. now apply map_eq_nil in Hrows.
  - split; intros Hn.
    + destruct Hr as [Hr|Hr]; rewrite Hr in Hn; discriminate.
    + elim Hrows. unfold rows_of. now rewrite Hn.
  - split; intros Hn.
    + destruct Hr as [Hr|Hr]; rewrite Hr in Hn; discriminate.
    + elim Hrows. unfold rows_of. now rewrite Hn.
Qed.

(** X5: the files the constructor accepts.  A call returns a dataset exactly
    when the file exists, its name ends in [.xvg], it has a data row, all
    data rows have as many tokens as the first one, and in every row the
    tokens of the columns that are read are floats.  The columns read are
    the first one, the second one when no legend is declared, and one per
    legend when there are fewer legends than columns: tokens of the other
    columns are never converted and may be any text. *)
Theorem XVG_init_accepts (file_exists : bool) (xvgfile : string)
    (raw_lines : list string) :
  let lines := clean raw_lines in
  let rows := rows_of lines in
  (exists x out, XVG_init (F := F) file_exists xvgfile raw_lines = Returned x out)
  <->
  file_exists = true /\
  PyStr.suffix 4 xvgfile = ".xvg" /\
  rows <> [] /\
  uniform_rows lines /\
  numeric_rows
    (consumed_columns (length (lines_of Legend lines)) (length (hd [] rows)))
    rows.
Proof.
  intros lines rows.
  destruct file_exists.
  2:{ rewrite XVG_init_no_file. split.
      - intros (x & out & Hr). discriminate.
      - intros (Hf & _). discriminate. }
  destruct (string_dec (PyStr.suffix 4 xvgfile) ".xvg") as [Hsuf|Hsuf].
  2:{ rewrite (XVG_init_bad_suffix _ _ Hsuf). split.
      - intros (x & out & Hr). discriminate.
      - intros (_ & Hs & _). contradiction. }
  destruct (XVG_init_cases (F := F) xvgfile raw_lines Hsuf)
    as [(Hnu & row & Hrow & Hr)
       |[(_ & Hrows & Hr)
        |[(_ & _ & (row & j & Hrow & Hj & Hbad) & Hr)
         |(Hu & Hrows & Hnum & x & _ & Hr)]]];
    fold lines in Hnu || idtac.
  - split.
    + intros (x & out & Hx). rewrite Hr in Hx. discriminate.
    + intros (_ & _ & _ & Hu & _). contradiction.
  - split.
    + intros (x & out & Hx). rewrite Hr in Hx. discriminate.
    + intros (_ & _ & Hne & _). contradiction.
  - split.
    + intros (x & out & Hx). destruct Hr as [Hr|Hr]; rewrite Hr in Hx; discriminate.
    + intros (_ & _ & _ & _ & Hnum). elim (Hnum row j Hrow Hj Hbad).
  - split.
    + intros _. repeat split; assumption.
    + intros _. destruct Hr as [Hr|Hr]; rewrite Hr; eauto.
Qed.

(** X6: the numeric columns of a dataset.  A dataset holds the first raw
    column, the second one when the file declares no legend and has a
    second column, and one column per legend when it declares fewer legends
    than it has columns; with at least as many legends as columns it holds
    the first column only.  Numeric column [i] is raw column [i]: its values
    are the floats of token [i] of the data rows, in the order of the
    file, and [column_num] is the width of the rows. *)
Theorem XVG_init_data_columns (file_exists : bool) (xvgfile : string)
    (raw_lines : list string) (x : XVG F) (out : list string) :
  XVG_init file_exists xvgfile raw_lines = Returned x out ->
  let rows := rows_of (clean raw_lines) in
  xvg_column_num x = length (hd [] rows) /\
  length (data_columns x)
    = consumed_columns (length (xvg_legends x)) (xvg_column_num x) /\
  forall i values, nth_error (data_columns x) i = Some values ->
    map Some values = map (fun row => float_of_str (nth i row "")) rows.
Proof.
  intros Hrun rows.
  destruct (XVG_init_dataset _ _ _ _ _ Hrun)
    as (_ & Hwidth & Hnum & Hcount & _ & _ & Hcols).
  split; [rewrite Hnum; exact Hwidth|]. split.
  - rewrite Hcount, Hnum. reflexivity.
  - intros i values Hi. exact (Forall2_seq_nth _ _ _ _ _ Hcols Hi).
Qed.

(** X7: the heads of a dataset when the legends are not paired.  Without a
    legend the heads are the x-label and, when there is a second column, the
    y-label.  With at least as many legends as columns the legends are
    dropped from the heads: the dataset has the x-label and the first column
    only.  In both cases the success line is all that is printed. *)
Theorem XVG_init_heads_unpaired (file_exists : bool) (xvgfile : string)
    (raw_lines : list string) (x : XVG F) (out : list string) :
  XVG_init file_exists xvgfile raw_lines = Returned x out ->
  (xvg_legends x = [] ->
     data_heads x
       = xvg_xlabel x :: (if 1 <? xvg_column_num x then [xvg_ylabel x] else []) /\
     out = [msg_read xvgfile]) /\
  (xvg_legends x <> [] -> xvg_column_num x <= length (xvg_legends x) ->
     data_heads x = [xvg_xlabel x] /\
     length (data_columns x) = 1 /\
     out = [msg_read xvgfile]).
Proof.
  intros Hrun.
  destruct (XVG_init_dataset _ _ _ _ _ Hrun)
    as (_ & _ & Hnum & Hcount & Hheads & Hout & _).
  unfold analysed_count, consumed_columns in Hcount.
  fold (single x) in Hcount. fold (paired x) in Hcount.
  split.
  - intros Hleg.
    assert (Hp : paired x = false) by (unfold paired; now rewrite Hleg).
    assert (Hs : single x = (1 <? xvg_column_num x))
      by (unfold single; now rewrite Hleg, Hnum).
    rewrite Hp, Hs in Hheads. rewrite Hp in Hout.
    rewrite app_nil_r in Hheads. now split.
  - intros Hleg Hle.
    assert (Hlen : 0 < length (xvg_legends x))
      by (destruct (xvg_legends x); [now elim Hleg | cbn; lia]).
    assert (Hp : paired x = false).
    { unfold paired. apply andb_false_iff. right. apply Nat.ltb_ge. lia. }
    assert (Hs : single x = false).
    { unfold single. apply andb_false_iff. left. apply Nat.eqb_neq. lia. }
    rewrite Hp, Hs in Hheads, Hcount. rewrite Hp in Hout.
    split; [exact Hheads|]. split; [exact Hcount | exact Hout].
Qed.

End InitExtras.

Lemma XVG_init_no_data_witness :
  PyStr.suffix 4 "energy.xvg" = ".xvg" /\
  lines_of DataRow (clean MoreSamples.header_only) = [] /\
  XVG_init (F := float) true "energy.xvg" MoreSamples.header_only
    = Exit [msg_no_data].
Proof.
  split; [reflexivity|]. split; [vm_compute; reflexivity|].
  apply (XVG_init_no_data "energy.xvg" MoreSamples.header_only).
  - reflexivity.
  - vm_compute. reflexivity.
Defined.

Lemma XVG_init_data_columns_witness :
  exists x : XVG float,
    XVG_init true "dist.xvg" MoreSamples.text_in_third_column
      = Returned x [msg_read "dist.xvg"] /\
    xvg_column_num x = 3 /\
    length (data_columns x) = 2 /\
    forall i values, nth_error (data_columns x) i = Some values ->
      map Some values
      = map (fun row => float_of_str (nth i row ""))
            [["0"; "1.5"; "first"]; ["1"; "2.5"; "second"]].
Proof.
  assert (Hrun : exists x : XVG float,
             XVG_init true "dist.xvg" MoreSamples.text_in_third_column
               = Returned x [msg_read "dist.xvg"] /\
             xvg_legends x = [] /\ xvg_column_num x = 3).
  { eexists. vm_compute. repeat split. }
  destruct Hrun as (x & Hrun & Hleg & Hnum). exists x. split; [exact Hrun|].
  pose proof (XVG_init_data_columns true _ _ x _ Hrun) as (Hw & Hcount & Hcols).
  split; [exact Hnum|]. split; [|exact Hcols].
  rewrite Hcount, Hleg, Hnum. reflexivity.
Defined.

Lemma XVG_init_heads_unpaired_witness :
  exists x : XVG float,
    XVG_init true "dist.xvg" MoreSamples.two_legends_two_columns
      = Returned x [msg_read "dist.xvg"] /\
    xvg_legends x = ["s1"; "s2"] /\
    xvg_column_num x = 2 /\
    data_heads x = ["Time (ps)"] /\
    length (data_columns x) = 1.
Proof.
  assert (Hrun : exists x : XVG float,
             XVG_init true "dist.xvg" MoreSamples.two_legends_two_columns
               = Returned x [msg_read "dist.xvg"] /\
             xvg_legends x = ["s1"; "s2"] /\ xvg_column_num x = 2 /\
             xvg_xlabel x = "Time (ps)").
  { eexists. vm_compute. repeat split. }
  destruct Hrun as (x & Hrun & Hleg & Hnum & Hxl). exists x.
  split; [exact Hrun|]. split; [exact Hleg|]. split; [exact Hnum|].
  destruct (XVG_init_heads_unpaired true _ _ x _ Hrun) as [_ Hmany].
  destruct Hmany as (Hheads & Hcount & _).
  - rewrite Hleg. discriminate.
  - rewrite Hleg, Hnum. cbn. lia.
  - rewrite Hxl in Hheads. now split.
Defined.

Lemma find_all_false {A} (test : A -> bool) (l : list A) :
  (forall a, In a l -> test a = false) -> find test l = None.
Proof.
  induction l as [|a l IH]; intros Hall; [reflexivity|].
  cbn [find]. rewrite (Hall a (or_introl eq_refl)).
  apply IH. intros b Hb. apply Hall. now right.
Qed.

Section InitByKind.
Context {F : Type} `{PyFloat F}.

(** The state after the loop is what the invariants say. *)
Lemma loop_state_unique (xvgfile : string) (lines : list string) (x : XVG F) :
  parsed xvgfile lines x -> raw_shape x (rows_of lines) ->
  x = loop_state xvgfile lines.
Proof.
  intros (Hname & Htitle & Hxl & Hyl & Hleg & Hh & Hc)
         (Hrows & Hnum & Hwidth & _ & Hnth).
  destruct x as [name title xl yl legends cn rn cols heads data].
  cbn in *. subst. unfold loop_state. f_equal; [exact Hwidth|].
  rewrite <- Hwidth.
  apply nth_ext with (d := []) (d' := []).
  - now rewrite length_map, length_seq.
  - intros j Hj. rewrite (Hnth j Hj).
    rewrite (nth_indep _ [] (map (fun row => nth 0 row "") (rows_of lines)))
      by (rewrite length_map, length_seq; lia).
    rewrite (map_nth (fun j => map (fun row => nth j row "") (rows_of lines))
               (seq 0 (length cols)) 0).
    rewrite seq_nth by lia. reflexivity.
Qed.

(** The loop over the lines as a function of the data lines and the
    state the lines of each kind give. *)
Lemma read_lines_by_kind (xvgfile : string) (lines : list string) :
  Forall (fun l => split_ws l <> []) lines ->
  for_each read_line lines (fresh (F := F) xvgfile)
  = match first_mismatch (lines_of DataRow lines) with
    | Some row => Exit [msg_columns_differ xvgfile; ("        " ++ row)%string]
    | None => Returned (loop_state xvgfile lines) []
    end.
Proof.
  intros Htok.
  set (width := length (split_ws (hd "" (lines_of DataRow lines)))).
  set (wrong := fun l => kind_eqb (classify l) DataRow
                         && negb (length (split_ws l) =? width)).
  assert (Hfind : forall data,
            Forall (fun l => classify l = DataRow) data ->
            find (fun l => negb (length (split_ws l) =? width)) data
            = find wrong data).
  { intros data Hdata. induction Hdata as [|l data Hl _ IH]; [reflexivity|].
    cbn [find]. unfold wrong at 1. rewrite Hl. cbn [kind_eqb andb].
    now rewrite IH. }
  assert (Hdata : Forall (fun l => classify l = DataRow) (lines_of DataRow lines)).
  { apply Forall_forall. intros l Hl. apply filter_In in Hl as [_ Hk].
    now apply kind_eqb_eq. }
  unfold first_mismatch. fold width. rewrite (Hfind _ Hdata).
  destruct (existsb wrong lines) eqn:Hex.
  - destruct (first_match wrong _ Hex)
      as (before & row & after & Hsplit & Hrow & Hpre).
    pose proof Hrow as Hrow'. unfold wrong in Hrow'.
    apply andb_true_iff in Hrow' as [Hk Hw].
    apply negb_true_iff, Nat.eqb_neq in Hw.
    assert (Hd : lines_of DataRow lines
                 = lines_of DataRow before ++ row :: lines_of DataRow after).
    { rewrite Hsplit. unfold lines_of. rewrite filter_app. cbn [filter].
      now rewrite Hk. }
    assert (Hbefore : forall l, In l (lines_of DataRow before) -> wrong l = false).
    { intros l Hl. apply filter_In in Hl as [Hl _].
      rewrite forallb_forall in Hpre. specialize (Hpre l Hl).
      now apply negb_true_iff in Hpre. }
    assert (Hfound : find wrong (lines_of DataRow lines) = Some row).
    { rewrite Hd. clear - Hbefore Hrow.
      induction (lines_of DataRow before) as [|l data IH]; cbn [app find].
      - now rewrite Hrow.
      - rewrite (Hbefore l (or_introl eq_refl)). apply IH.
        intros l' Hl'. apply Hbefore. now right. }
    rewrite Hfound, Hsplit.
    destruct (lines_of DataRow before) as [|first_row data] eqn:Hb.
    { exfalso. apply Hw. unfold width. rewrite Hd. reflexivity. }
    assert (Hwidth : width = length (split_ws first_row))
      by (unfold width; rewrite Hd; reflexivity).
    apply (read_lines_mismatch_at xvgfile before row after first_row).
    + rewrite Hsplit in Htok. apply Forall_app in Htok. tauto.
    + now rewrite Hb.
    + apply Forall_forall. intros l Hl. rewrite <- Hwidth.
      pose proof Hl as Hl'. rewrite Hb in Hl'. specialize (Hbefore l Hl').
      apply filter_In in Hl as [_ Hkl]. unfold wrong in Hbefore.
      rewrite Hkl in Hbefore. cbn [andb] in Hbefore.
      apply negb_false_iff in Hbefore. now apply Nat.eqb_eq.
    + now apply kind_eqb_eq.
    + now rewrite <- Hwidth.
  - assert (Hnone : find wrong (lines_of DataRow lines) = None).
    { apply find_all_false. intros l Hl. apply filter_In in Hl as [Hl _].
      destruct (wrong l) eqn:Hwl; [|reflexivity].
      assert (existsb wrong lines = true)
        by (apply existsb_exists; now exists l).
      congruence. }
    rewrite Hnone.
    assert (Hu : Forall (fun r => length r = length (hd [] (rows_of lines)))
                        (rows_of lines)).
    { apply Forall_forall. intros r Hr. unfold rows_of in Hr.
      apply in_map_iff in Hr as (l & <- & Hl).
      pose proof Hl as Hl'. apply filter_In in Hl' as [Hin Hk].
      assert (Hwl : wrong l = false).
      { destruct (wrong l) eqn:Hwl; [|reflexivity].
        assert (existsb wrong lines = true)
          by (apply existsb_exists; now exists l).
        congruence. }
      unfold wrong in Hwl. rewrite Hk in Hwl. cbn [andb] in Hwl.
      apply negb_false_iff, Nat.eqb_eq in Hwl. rewrite Hwl. unfold width, rows_of.
      destruct (lines_of DataRow lines); [destruct Hl | reflexivity]. }
    destruct (read_lines_ok (F := F) xvgfile lines Htok Hu) as [x Hloop].
    destruct (read_lines_inv _ _ Htok _ _ Hloop) as (_ & Hp & Hs).
    rewrite Hloop. f_equal. now apply loop_state_unique.
Qed.

(** The state after the loop depends on the lines that are read only. *)
Lemma loop_state_by_kind (xvgfile : string) (lines lines' : list string) :
  (forall k, is_read k = true -> lines_of k lines = lines_of k lines') ->
  loop_state (F := F) xvgfile lines = loop_state xvgfile lines'.
Proof.
  intros Hk. unfold loop_state, rows_of.
  now rewrite (Hk Title eq_refl), (Hk XLabel eq_refl), (Hk YLabel eq_refl),
    (Hk Legend eq_refl), (Hk DataRow eq_refl).
Qed.

(** X25: what the constructor reads of a file.  The outcome of
    [XVG(xvgfile)], the dataset, the lines printed and the way the call
    ends, depends on the lines of the file only through the title lines,
    the x-label lines, the y-label lines, the legend lines and the data
    lines, each kind in the order of the file: blank lines, comments and
    other lines that start with [@] can be added or removed anywhere, and
    lines of different kinds can change places, without any effect. *)
Theorem XVG_init_by_kind (file_exists : bool) (xvgfile : string)
    (raw_lines raw_lines' : list string) :
  (forall k, is_read k = true ->
     lines_of k (clean raw_lines) = lines_of k (clean raw_lines')) ->
  XVG_init (F := F) file_exists xvgfile raw_lines
  = XVG_init file_exists xvgfile raw_lines'.
Proof.
  intros Hk.
  destruct file_exists; [|now rewrite !XVG_init_no_file].
  destruct (string_dec (PyStr.suffix 4 xvgfile) ".xvg") as [Hsuf|Hsuf];
    [|now rewrite !(XVG_init_bad_suffix _ _ Hsuf)].
  rewrite !(XVG_init_unfold _ _ Hsuf).
  rewrite !read_lines_by_kind by apply clean_tokens.
  rewrite (Hk DataRow eq_refl).
  now rewrite (loop_state_by_kind xvgfile _ _ Hk).
Qed.

End InitByKind.

Lemma XVG_init_by_kind_witness :
  XVG_init (F := float) true "energy.xvg" (Samples.energy_file "A, B")
  = XVG_init true "energy.xvg" (MoreSamples.energy_file_reordered "A, B").
Proof.
  apply (XVG_init_by_kind true "energy.xvg").
  intros k Hk. destruct k; try discriminate Hk; vm_compute; reflexivity.
Defined.

Section QuotedValues.
Local Open Scope string_scope.

(** Stripping on the right leaves what comes before a rest that is not
    stripped away. *)
Lemma rstrip_by_append (p : ascii -> bool) (a b : string) :
  rstrip_by p b <> "" -> rstrip_by p (a ++ b) = a ++ rstrip_by p b.
Proof.
  intros Hb. induction a as [|c a IH]; [reflexivity|].
  cbn [append rstrip_by]. rewrite IH.
  destruct (a ++ rstrip_by p b) eqn:Ha; [|reflexivity].
  destruct a; [cbn in Ha; contradiction | discriminate].
Qed.

Lemma rstrip_one_quote : rstrip_by (Ascii.eqb dquote) (String dquote "") = "".
Proof. reflexivity. Qed.

(** Stripping the double quotes on the right of [v] followed by one gives
    [v] back, for a [v] that is not empty and has no double quote. *)
Lemma rstrip_quote (v : string) :
  v <> "" -> has_char dquote v = false ->
  rstrip_by (Ascii.eqb dquote) (v ++ String dquote "") = v.
Proof.
  induction v as [|c v IH]; intros Hne Hv; [contradiction|].
  unfold has_char in Hv. cbn [any_char] in Hv.
  apply orb_false_iff in Hv as [Hc Hv].
  cbn [append rstrip_by]. destruct v as [|c' v].
  - cbn [append]. rewrite rstrip_one_quote. now rewrite Hc.
  - rewrite IH by (discriminate || exact Hv). reflexivity.
Qed.

(** The leading double quotes of [p], a double quote and [w] are those of
    [p], and the one before [w] when [p] has nothing else. *)
Lemma lstrip_quote (p : string) (c : ascii) (w : string) :
  Ascii.eqb dquote c = false ->
  lstrip_by (Ascii.eqb dquote) (p ++ String dquote (String c w)) = String c w \/
  exists a, lstrip_by (Ascii.eqb dquote) (p ++ String dquote (String c w))
            = a ++ String dquote (String c w).
Proof.
  intros Hc. induction p as [|d p IH].
  - left. cbn [append lstrip_by]. rewrite Ascii.eqb_refl. now rewrite Hc.
  - cbn [append lstrip_by]. destruct (Ascii.eqb dquote d).
    + exact IH.
    + right. now exists (String d p).
Qed.

Lemma rstrip_two_quotes (p : string) :
  p <> "" -> has_char dquote p = false ->
  rstrip_by (Ascii.eqb dquote) (p ++ String dquote (String dquote "")) = p.
Proof.
  induction p as [|c p IH]; intros Hne Hp; [contradiction|].
  unfold has_char in Hp. cbn [any_char] in Hp.
  apply orb_false_iff in Hp as [Hc Hp].
  cbn [append]. destruct p as [|d p].
  - cbn [append rstrip_by]. rewrite Ascii.eqb_refl. now rewrite Hc.
  - cbn [rstrip_by]. rewrite IH by (discriminate || exact Hp). reflexivity.
Qed.

Lemma split_on_not_nil (sep : ascii) (s : string) : split_on sep s <> [].
Proof.
  destruct s as [|c s]; cbn; [discriminate|].
  destruct (Ascii.eqb sep c); [discriminate|].
  destruct (split_on sep s); discriminate.
Qed.

Lemma last_cons {A} (a : A) (l : list A) (d : A) :
  l <> [] -> last (a :: l) d = last l d.
Proof. destruct l; [contradiction | reflexivity]. Qed.

(** The piece after the last double quote. *)
Lemma last_piece_after_quote (a v : string) :
  has_char dquote v = false ->
  last_piece (split_on dquote (a ++ String dquote v)) = v.
Proof.
  intros Hv. unfold last_piece. induction a as [|c a IH].
  - cbn [append split_on]. rewrite Ascii.eqb_refl.
    rewrite last_cons by apply split_on_not_nil.
    now rewrite (split_on_none _ _ Hv).
  - cbn [append split_on]. destruct (Ascii.eqb dquote c).
    + rewrite last_cons by apply split_on_not_nil. exact IH.
    + destruct (split_on dquote (a ++ String dquote v)) as [|h t] eqn:Hs;
        [now apply split_on_not_nil in Hs|].
      destruct t as [|h' t].
      * exfalso.
        assert (Hlen : 2 <= length (split_on dquote (a ++ String dquote v))).
        { clear. induction a as [|d a IHa].
          - cbn [append split_on]. rewrite Ascii.eqb_refl.
            pose proof (split_on_not_nil dquote v) as Hn.
            destruct (split_on dquote v); [contradiction | cbn; lia].
          - cbn [append split_on]. destruct (Ascii.eqb dquote d); [cbn; lia|].
            destruct (split_on dquote (a ++ String dquote v)); cbn in *; lia. }
        rewrite Hs in Hlen. cbn in Hlen. lia.
      * exact IH.
Qed.

(** X29: the value of a metadata line.  For a line that ends in a text
    between double quotes, where the text is not empty and holds no double
    quote, the value read is that text, whatever comes before it.  For a
    line that ends in two double quotes with nothing between them and has
    no other double quote, the value read is not the empty text but
    everything before the quotes. *)
Theorem quoted_metadata_value :
  (forall before value : string,
     value <> "" -> has_char dquote value = false ->
     metadata_value (before ++ String dquote (value ++ String dquote ""))
     = value) /\
  (forall before : string,
     before <> "" -> has_char dquote before = false ->
     metadata_value (before ++ String dquote (String dquote "")) = before).
Proof.
  split.
  - intros before value Hne Hv. unfold metadata_value, strip_char, strip_by.
    destruct value as [|c w] eqn:Hvalue; [contradiction|]. rewrite <- Hvalue in *.
    assert (Hc : Ascii.eqb dquote c = false).
    { rewrite Hvalue in Hv. unfold has_char in Hv. cbn [any_char] in Hv.
      now apply orb_false_iff in Hv as [Hc _]. }
    assert (Hrest : rstrip_by (Ascii.eqb dquote) (value ++ String dquote "")
                    <> "")
      by (rewrite (rstrip_quote value Hne Hv); exact Hne).
    assert (Hform : value ++ String dquote "" = String c (w ++ String dquote ""))
      by (rewrite Hvalue; reflexivity).
    destruct (lstrip_quote before c (w ++ String dquote "") Hc) as [Hl|[a Hl]];
      rewrite <- Hform in Hl; rewrite Hl.
    + rewrite (rstrip_quote value Hne Hv).
      now rewrite (split_on_none _ _ Hv).
    + change (a ++ String dquote (value ++ String dquote ""))
        with (a ++ (String dquote "" ++ (value ++ String dquote ""))).
      rewrite <- (append_assoc a (String dquote "") (value ++ String dquote "")).
      rewrite rstrip_by_append by exact Hrest.
      rewrite (rstrip_quote value Hne Hv).
      rewrite append_assoc. now apply last_piece_after_quote.
  - intros before Hne Hb. unfold metadata_value, strip_char, strip_by.
    destruct before as [|c p] eqn:Hbefore; [contradiction|].
    rewrite <- Hbefore in *.
    assert (Hl : lstrip_by (Ascii.eqb dquote)
                   (before ++ String dquote (String dquote ""))
                 = before ++ String dquote (String dquote "")).
    { rewrite Hbefore in *. unfold has_char in Hb. cbn [any_char] in Hb.
      apply orb_false_iff in Hb as [Hc _].
      cbn [append lstrip_by]. now rewrite Hc. }
    rewrite Hl.
    rewrite (rstrip_two_quotes before Hne Hb).
    now rewrite (split_on_none _ _ Hb).
Qed.

End QuotedValues.

Lemma quoted_metadata_value_witness :
  metadata_value ("@    title " ++ Samples.quoted "GROMACS Energies")
    = "GROMACS Energies" /\
  metadata_value ("@    title " ++ Samples.quoted "") = "@    title ".
Proof.
  split.
  - apply (proj1 quoted_metadata_value "@    title " "GROMACS Energies");
      [discriminate | reflexivity].
  - apply (proj2 quoted_metadata_value "@    title ");
      [discriminate | reflexivity].
Defined.

(** * More properties of the averages *)

Import StatsMore.

Section SliceFacts.
Context {A : Type}.

(** [l[-k:]] and [l[:-k]] for [k > 0]. *)
Lemma slice_from_end (l : list A) (k : Z) :
  (0 < k)%Z ->
  slice l (Some (- k)%Z) None = skipn (length l - Z.to_nat k) l.
Proof.
  intros Hk. unfold slice, slice_bound.
  destruct (Z.ltb_spec (- k) 0) as [_|Hge]; [|lia].
  set (n := Z.of_nat (length l)).
  replace (Z.to_nat (Z.max (- k + n) 0)) with (length l - Z.to_nat k) by lia.
  apply firstn_all2. rewrite length_skipn. lia.
Qed.

Lemma slice_to_end (l : list A) (k : Z) :
  (0 < k)%Z ->
  slice l None (Some (- k)%Z) = firstn (length l - Z.to_nat k) l.
Proof.
  intros Hk. unfold slice, slice_bound.
  destruct (Z.ltb_spec (- k) 0) as [_|Hge]; [|lia].
  set (n := Z.of_nat (length l)). cbn [Z.to_nat skipn].
  f_equal. lia.
Qed.

(** The window [column[i - w : i]] for [w <= i]. *)
Lemma slice_window (l : list A) (w i : nat) :
  w <= i ->
  slice l (Some (Z.of_nat i - Z.of_nat w)%Z) (Some (Z.of_nat i))
  = firstn w (skipn (i - w) l).
Proof.
  intros Hw.
  rewrite slice_index_range by (cbn; lia).
  rewrite index_range_skipn. cbn [bound_or].
  replace (Z.to_nat (Z.of_nat i - Z.of_nat w)) with (i - w) by lia.
  rewrite Nat2Z.id. f_equal. lia.
Qed.

(** A window below [m] does not see what comes at [m] or after. *)
Lemma window_firstn (l : list A) (w a m : nat) :
  a + w <= m ->
  firstn w (skipn a (firstn m l)) = firstn w (skipn a l).
Proof.
  intros Hm. rewrite skipn_firstn_comm, firstn_firstn. f_equal. lia.
Qed.

End SliceFacts.

Section AverageExtras.
Context {F : Type} `{PyFloat F}.

(** X2: negative bounds pass the two checks of [calc_average] and are read
    as Python slices read them, from the end of the column.  With
    [start = -k] and no end the averages and deviations are those of the
    last [k] rows (of all rows when there are fewer); with [end = -k] and
    no start they are those of all rows but the last [k]. *)
Theorem calc_average_from_end (x : XVG F) (k : Z) :
  (0 < k)%Z ->
  let last_rows (column : list F) := skipn (length column - Z.to_nat k) column in
  let first_rows (column : list F) := firstn (length column - Z.to_nat k) column in
  calc_average x (Some (- k)%Z) None
  = Returned (data_heads x,
              map (fun column => np_mean (last_rows column)) (data_columns x),
              map (fun column => np_std (last_rows column)) (data_columns x))
             [] /\
  calc_average x None (Some (- k)%Z)
  = Returned (data_heads x,
              map (fun column => np_mean (first_rows column)) (data_columns x),
              map (fun column => np_std (first_rows column)) (data_columns x))
             [].
Proof.
  intros Hk last_rows first_rows. split.
  - rewrite calc_average_valid.
    + rewrite (map_ext (fun column => np_mean (slice column (Some (- k)%Z) None))
                       (fun column => np_mean (last_rows column))),
        (map_ext (fun column => np_std (slice column (Some (- k)%Z) None))
                 (fun column => np_std (last_rows column)));
        [reflexivity| |]; intros column; unfold last_rows;
        now rewrite slice_from_end.
    + intros [(a & b & _ & Hb & _)|[(a & Ha & Hge)|(b & Hb & _)]];
        try discriminate.
      injection Ha as <-. lia.
  - rewrite calc_average_valid.
    + rewrite (map_ext (fun column => np_mean (slice column None (Some (- k)%Z)))
                       (fun column => np_mean (first_rows column))),
        (map_ext (fun column => np_std (slice column None (Some (- k)%Z)))
                 (fun column => np_std (first_rows column)));
        [reflexivity| |]; intros column; unfold first_rows;
        now rewrite slice_to_end.
    + intros [(a & b & Ha & _)|[(a & Ha & _)|(b & Hb & Hge)]];
        try discriminate.
      injection Hb as <-. lia.
Qed.

End AverageExtras.

Lemma calc_average_from_end_witness :
  (0 < 2)%Z /\
  calc_average Samples.one_to_six (Some (-2)%Z) None
    = Returned (["x"], [5.5%float], [0.5%float]) [] /\
  calc_average Samples.one_to_six None (Some (-2)%Z)
    = Returned (["x"], [2.5%float], [PrimFloat.sqrt 1.25]) [].
Proof.
  split; [lia|].
  pose proof (calc_average_from_end Samples.one_to_six 2 ltac:(lia)) as [Hs He].
  split.
  - etransitivity; [exact Hs | vm_compute; reflexivity].
  - etransitivity; [exact He | vm_compute; reflexivity].
Defined.

Section MvaveExtras.
Context {F : Type} `{PyFloat F}.
Variable norm_ppf : F -> F -> F -> F.

(** The three lists a loop appends to, one element a turn. *)
Lemma fold_left_append3 {I A B C} (f : I -> A) (g : I -> B) (h : I -> C)
    (l : list I) (a0 : list A) (b0 : list B) (c0 : list C) :
  fold_left (fun acc i => let '(a, b, c) := acc in
                          (a ++ [f i], b ++ [g i], c ++ [h i])) l (a0, b0, c0)
  = (a0 ++ map f l, b0 ++ map g l, c0 ++ map h l).
Proof.
  revert a0 b0 c0. induction l as [|i l IH]; intros a0 b0 c0; cbn.
  - now rewrite !app_nil_r.
  - rewrite IH, <- !app_assoc. reflexivity.
Qed.

Lemma mvave_column_windows (w : nat) (confidence : F) (row_num : nat)
    (column : list F) :
  let bounds i :=
    norm_interval norm_ppf confidence (np_mean (window_before w column i))
                  (np_std (window_before w column i)) in
  mvave_column norm_ppf (Z.of_nat w) confidence row_num column
  = (repeat fnan w
       ++ map (fun i => np_mean (window_before w column i)) (seq w (row_num - w)),
     repeat fnan w ++ map (fun i => snd (bounds i)) (seq w (row_num - w)),
     repeat fnan w ++ map (fun i => fst (bounds i)) (seq w (row_num - w))).
Proof.
  intros bounds. unfold mvave_column. rewrite Nat2Z.id.
  rewrite <- (fold_left_append3
                (fun i => np_mean (window_before w column i))
                (fun i => snd (bounds i)) (fun i => fst (bounds i))).
  set (l := seq w (row_num - w)).
  assert (Hl : Forall (fun i => w <= i) l).
  { apply Forall_forall. intros i Hi. apply in_seq in Hi. lia. }
  generalize (repeat fnan w, repeat fnan w, repeat fnan w) as acc.
  induction Hl as [|i l Hi _ IH]; intros acc; [reflexivity|].
  cbn [fold_left]. rewrite <- IH. f_equal.
  destruct acc as [[a b] c]. unfold bounds, window_before.
  now rewrite (slice_window column w i Hi).
Qed.

End MvaveExtras.

Section MvaveTheorems.
Context {F : Type} `{PyFloat F}.
Variable norm_ppf : F -> F -> F -> F.

Lemma mvave_guards (x : XVG F) (windowsize : Z) (confidence : F) :
  (0 < windowsize)%Z -> (2 * windowsize <= Z.of_nat (xvg_row_num x))%Z ->
  fleb confidence (float_of_int 0) = false ->
  fleb (float_of_int 1) confidence = false ->
  calc_mvave norm_ppf x windowsize confidence
  = let per_column :=
      map (mvave_column norm_ppf windowsize confidence (xvg_row_num x))
          (data_columns x) in
    Returned (data_heads x,
              map (fun r => fst (fst r)) per_column,
              map (fun r => snd (fst r)) per_column,
              map snd per_column) [].
Proof.
  intros Hpos Hhalf Hlo Hhi. unfold calc_mvave.
  destruct (Z.leb_spec windowsize 0) as [Hle|_]; [lia|].
  destruct (Z.gtb_spec windowsize (Z.of_nat (xvg_row_num x) / 2)) as [Hgt|_].
  { assert (Z.of_nat (xvg_row_num x) / 2 < windowsize)%Z by lia.
    assert (windowsize <= Z.of_nat (xvg_row_num x) / 2)%Z
      by (apply Z.div_le_lower_bound; lia).
    lia. }
  rewrite Hlo, Hhi. reflexivity.
Qed.

(** The moving average does not look at a column from row
    [row_num - 1] on. *)
Lemma mvave_column_firstn (windowsize : Z) (confidence : F) (row_num : nat)
    (column : list F) :
  (0 < windowsize)%Z ->
  mvave_column norm_ppf windowsize confidence row_num (firstn (row_num - 1) column)
  = mvave_column norm_ppf windowsize confidence row_num column.
Proof.
  intros Hpos. rewrite <- (Z2Nat.id windowsize) by lia.
  set (w := Z.to_nat windowsize). assert (Hw : 0 < w) by (subst w; lia).
  rewrite !mvave_column_windows.
  assert (Hwin : forall i, In i (seq w (row_num - w)) ->
            window_before w (firstn (row_num - 1) column) i
            = window_before w column i).
  { intros i Hi. apply in_seq in Hi. unfold window_before.
    apply window_firstn. lia. }
  f_equal; [f_equal|]; f_equal; apply map_ext_in; intros i Hi;
    now rewrite (Hwin i Hi).
Qed.

(** X8: the moving average in closed form.  For a window of [w] rows with
    [0 < w] and [2 * w <= row_num], and a confidence that passes the check,
    every column gives three lists: [w] NaN, then for each row [i] from [w]
    to [row_num - 1] the mean of the [w] rows before it,
    [column[i - w : i]], which do not include row [i] itself, and the high
    and low bound of the interval around that mean. *)
Theorem calc_mvave_windows (x : XVG F) (windowsize : Z) (confidence : F) :
  (0 < windowsize)%Z -> (2 * windowsize <= Z.of_nat (xvg_row_num x))%Z ->
  fleb confidence (float_of_int 0) = false ->
  fleb (float_of_int 1) confidence = false ->
  let w := Z.to_nat windowsize in
  let rows := seq w (xvg_row_num x - w) in
  let bounds column i :=
    norm_interval norm_ppf confidence (np_mean (window_before w column i))
                  (np_std (window_before w column i)) in
  calc_mvave norm_ppf x windowsize confidence
  = Returned
      (data_heads x,
       map (fun column =>
              repeat fnan w
              ++ map (fun i => np_mean (window_before w column i)) rows)
           (data_columns x),
       map (fun column =>
              repeat fnan w ++ map (fun i => snd (bounds column i)) rows)
           (data_columns x),
       map (fun column =>
              repeat fnan w ++ map (fun i => fst (bounds column i)) rows)
           (data_columns x))
      [].
Proof.
  intros Hpos Hhalf Hlo Hhi w rows bounds.
  rewrite (mvave_guards x windowsize confidence Hpos Hhalf Hlo Hhi).
  cbv zeta. rewrite !map_map.
  assert (Hcol : forall column,
            mvave_column norm_ppf windowsize confidence (xvg_row_num x) column
            = (repeat fnan w
                 ++ map (fun i => np_mean (window_before w column i)) rows,
               repeat fnan w ++ map (fun i => snd (bounds column i)) rows,
               repeat fnan w ++ map (fun i => fst (bounds column i)) rows)).
  { intros column. rewrite <- (Z2Nat.id windowsize) at 1 by lia. fold w.
    now rewrite mvave_column_windows. }
  set (mv := mvave_column norm_ppf windowsize confidence (xvg_row_num x)) in *.
  rewrite (map_ext (fun column => fst (fst (mv column))) _
             (fun column => f_equal (fun r => fst (fst r)) (Hcol column))),
    (map_ext (fun column => snd (fst (mv column))) _
             (fun column => f_equal (fun r => snd (fst r)) (Hcol column))),
    (map_ext (fun column => snd (mv column)) _
             (fun column => f_equal snd (Hcol column))).
  reflexivity.
Qed.

End MvaveTheorems.

Section MvaveMore.
Context {F : Type} `{PyFloat F}.
Variable norm_ppf : F -> F -> F -> F.

(** X9: the last row never enters a moving average.  The window of row [i]
    ends before row [i] and the last window is that of row [row_num - 1],
    so two datasets with the same heads and row count whose columns agree
    on their first [row_num - 1] values give the same result, whatever
    their last row holds. *)
Theorem calc_mvave_ignores_last_row (x x' : XVG F) (windowsize : Z)
    (confidence : F) :
  data_heads x = data_heads x' ->
  xvg_row_num x = xvg_row_num x' ->
  map (firstn (xvg_row_num x - 1)) (data_columns x)
    = map (firstn (xvg_row_num x - 1)) (data_columns x') ->
  calc_mvave norm_ppf x windowsize confidence
  = calc_mvave norm_ppf x' windowsize confidence.
Proof.
  intros Hheads Hrows Hcols. unfold calc_mvave. rewrite <- Hrows, <- Hheads.
  destruct (Z.leb_spec windowsize 0) as [Hle|Hpos]; [reflexivity|].
  cbn [orb].
  destruct (windowsize >? Z.of_nat (xvg_row_num x) / 2)%Z; [reflexivity|].
  destruct (fleb confidence (float_of_int 0) || fleb (float_of_int 1) confidence);
    [reflexivity|].
  rewrite !bind_ret_l.
  assert (Hper :
    map (mvave_column norm_ppf windowsize confidence (xvg_row_num x))
        (data_columns x)
    = map (mvave_column norm_ppf windowsize confidence (xvg_row_num x))
          (data_columns x')).
  { rewrite <- (map_ext _ _ (fun column =>
                  mvave_column_firstn norm_ppf windowsize confidence
                    (xvg_row_num x) column Hpos)).
    rewrite <- (map_ext _ _ (fun column =>
                  mvave_column_firstn norm_ppf windowsize confidence
                    (xvg_row_num x) column Hpos)).
    rewrite <- !(map_map (firstn (xvg_row_num x - 1))
                   (mvave_column norm_ppf windowsize confidence (xvg_row_num x))).
    now rewrite Hcols. }
  now rewrite Hper.
Qed.

(** X10: a dataset of fewer than two rows has no moving average: half its
    row count is 0, so every window size is refused, whatever the
    confidence. *)
Theorem calc_mvave_short_dataset (x : XVG F) (windowsize : Z) (confidence : F) :
  xvg_row_num x < 2 ->
  calc_mvave norm_ppf x windowsize confidence = Exit [msg_windowsize].
Proof.
  intros Hrows. unfold calc_mvave.
  assert (Hhalf : (Z.of_nat (xvg_row_num x) / 2 = 0)%Z)
    by (apply Z.div_small; lia).
  rewrite Hhalf.
  destruct (Z.leb_spec windowsize 0) as [Hle|Hpos]; [reflexivity|].
  destruct (Z.gtb_spec windowsize 0) as [_|Hle]; [reflexivity|lia].
Qed.

End MvaveMore.

(** X11: the check of the confidence lets a NaN through: both comparisons
    with a NaN are false, so with a window size that passes the first
    check [calc_mvave] returns, and the NaN is handed to the quantile
    function. *)
Theorem calc_mvave_nan_confidence
    (norm_ppf : float -> float -> float -> float) (x : XVG float)
    (windowsize : Z) :
  (0 < windowsize)%Z -> (2 * windowsize <= Z.of_nat (xvg_row_num x))%Z ->
  let per_column :=
    map (mvave_column norm_ppf windowsize PrimFloat.nan (xvg_row_num x))
        (data_columns x) in
  calc_mvave norm_ppf x windowsize PrimFloat.nan
  = Returned (data_heads x,
              map (fun r => fst (fst r)) per_column,
              map (fun r => snd (fst r)) per_column,
              map snd per_column) [] /\
  (forall loc scale : float,
     norm_interval norm_ppf PrimFloat.nan loc scale
     = (norm_ppf PrimFloat.nan loc scale, norm_ppf PrimFloat.nan loc scale)).
Proof.
  intros Hpos Hhalf. split.
  - now apply mvave_guards.
  - reflexivity.
Qed.

Lemma calc_mvave_windows_witness :
  exists mv_ave high low,
    calc_mvave Samples.linear_ppf Samples.one_to_six 2 0.5%float
      = Returned (["x"], [mv_ave], [high], [low]) [] /\
    mv_ave = [PrimFloat.nan; PrimFloat.nan; 1.5; 2.5; 3.5; 4.5]%float /\
    length high = 6 /\ length low = 6.
Proof.
  do 3 eexists. split.
  - etransitivity.
    + apply (calc_mvave_windows Samples.linear_ppf Samples.one_to_six 2 0.5%float);
        [lia | cbn; lia | reflexivity | reflexivity].
    + vm_compute. reflexivity.
  - split; [reflexivity|]. split; reflexivity.
Defined.

Lemma calc_mvave_ignores_last_row_witness :
  calc_mvave Samples.linear_ppf Samples.one_to_six 2 0.5%float
  = calc_mvave Samples.linear_ppf (Samples.dataset [1; 2; 3; 4; 5; 100]%Z)
               2 0.5%float.
Proof.
  apply (calc_mvave_ignores_last_row Samples.linear_ppf);
    vm_compute; reflexivity.
Defined.

Lemma calc_mvave_short_dataset_witness :
  calc_mvave Samples.linear_ppf (Samples.dataset [7]%Z) 1 0.5%float
  = Exit [msg_windowsize].
Proof.
  apply (calc_mvave_short_dataset Samples.linear_ppf). cbn. lia.
Defined.

Lemma calc_mvave_nan_confidence_witness :
  exists mv_ave high low,
    calc_mvave Samples.linear_ppf Samples.one_to_six 2 PrimFloat.nan
      = Returned (["x"], [mv_ave], [high], [low]) [] /\
    mv_ave = [PrimFloat.nan; PrimFloat.nan; 1.5; 2.5; 3.5; 4.5]%float.
Proof.
  do 3 eexists. split.
  - etransitivity.
    + apply (calc_mvave_nan_confidence Samples.linear_ppf Samples.one_to_six 2);
        [lia | cbn; lia].
    + vm_compute. reflexivity.
  - reflexivity.
Defined.

(** * More properties of the distribution *)

Section Histogram.
Context {F : Type} `{PyArith F}.

Lemma index_by_length {A B} (l : list A) (l' : list B) (i : Z) :
  length l = length l' -> index l i = index l' i.
Proof. intros Hlen. unfold index. now rewrite Hlen. Qed.

Lemma nth_update (k j : nat) (f : Z -> Z) (l : list Z) :
  k < length l ->
  nth j (update k f l) 0%Z = if j =? k then f (nth j l 0%Z) else nth j l 0%Z.
Proof.
  revert k j. induction l as [|a l IH]; intros k j Hk; [cbn in Hk; lia|].
  destruct k, j; cbn; try reflexivity.
  rewrite IH by (cbn in Hk; lia). reflexivity.
Qed.

(** The counting loop from any list of [bin] counts. *)
Lemma count_loop_slots (column_min bin_window : F) (bin : Z) (column : list F)
    (frequency0 frequency : list Z) (out : list string) :
  length frequency0 = Z.to_nat bin ->
  for_each (fun frequency value =>
      index <- bucket column_min bin_window bin value;;
      increment frequency index) column frequency0 = Returned frequency out ->
  Forall (fun value => slot column_min bin_window bin value <> None) column /\
  forall k,
    nth k frequency 0%Z
    = (nth k frequency0 0
       + Z.of_nat (length (filter (in_slot column_min bin_window bin k) column)))%Z.
Proof.
  revert frequency0 out.
  induction column as [|v column IH]; intros frequency0 out Hlen Hrun.
  - cbn in Hrun. injection Hrun as <- _. split; [constructor|].
    intros k. cbn. lia.
  - cbn [for_each] in Hrun.
    destruct (bucket column_min bin_window bin v) as [i o| |] eqn:Hb;
      try discriminate.
    pose proof (bucket_Returned _ _ _ _ _ _ Hb) as ->.
    rewrite bind_Returned_nil in Hrun. unfold increment in Hrun.
    destruct (index frequency0 i) as [j|] eqn:Hi; [|discriminate].
    unfold ret in Hrun. rewrite bind_Returned_nil in Hrun.
    pose proof (index_lt _ _ _ Hi) as Hj.
    assert (Hslot : slot column_min bin_window bin v = Some j).
    { unfold slot. rewrite Hb, <- Hi. apply index_by_length.
      now rewrite repeat_length. }
    destruct (IH _ _ (eq_trans (update_length _ _ _) Hlen) Hrun) as [Hall Hcount].
    split; [constructor; [congruence | exact Hall]|].
    intros k. rewrite Hcount, (nth_update j k _ _ Hj).
    cbn [filter]. unfold in_slot at 2. rewrite Hslot.
    destruct (Nat.eqb_spec j k) as [->|Hne].
    + rewrite Nat.eqb_refl. cbn [length]. lia.
    + destruct (Nat.eqb_spec k j) as [->|_]; [contradiction|]. reflexivity.
Qed.

(** X12: the counts are a histogram.  When the counting loop of
    [draw_distribution] goes through, every value has a position in the
    list of counts, and the count at position [k] is the number of values
    of the column whose position is [k]. *)
Theorem bin_counts_histogram (column_min bin_window : F) (bin : Z)
    (column : list F) (frequency : list Z) (out : list string) :
  bin_counts column_min bin_window bin column = Returned frequency out ->
  length frequency = Z.to_nat bin /\
  Forall (fun value => slot column_min bin_window bin value <> None) column /\
  forall k,
    nth k frequency 0%Z
    = Z.of_nat (length (filter (in_slot column_min bin_window bin k) column)).
Proof.
  intros Hrun.
  destruct (bin_counts_sum _ _ _ _ _ _ Hrun) as (_ & Hlen & _).
  destruct (count_loop_slots _ _ _ _ _ _ _ (repeat_length _ _) Hrun)
    as [Hall Hcount].
  split; [exact Hlen|]. split; [exact Hall|].
  intros k. rewrite Hcount.
  replace (nth k (repeat 0%Z (Z.to_nat bin)) 0%Z) with 0%Z; [lia|].
  symmetry. apply nth_repeat.
Qed.




(** With no count to increment the first value of the column fails. *)
Lemma distribution_no_counts (row_num : nat) (bin : Z) (column : list F)
    (column_min column_max : F) :
  (bin <= 0)%Z ->
  np_min column = Some column_min -> np_max column = Some column_max ->
  feqb (fdiv (fsub column_max column_min) (float_of_int bin)) (float_of_int 0)
    = false ->
  exists e, distribution row_num bin column = Raised e [].
Proof.
  intros Hbin Hmin Hmax Hw.
  unfold distribution. rewrite Hmin, Hmax, Hw. cbn [negb].
  destruct column as [|v column']; [discriminate|].
  unfold bin_counts. replace (Z.to_nat bin) with 0 by lia.
  cbn [repeat for_each]. unfold bucket, int.
  destruct (int_of_float _) as [e|i].
  - exists e. reflexivity.
  - exists IndexError. unfold raise, ret. cbn [bind app].
    set (j := if (i =? bin)%Z then (bin - 1)%Z else i).
    assert (Hnone : index (@nil Z) j = None).
    { unfold index. cbn [length Z.of_nat].
      destruct (Z.leb_spec 0 j), (Z.ltb_spec j 0), (Z.leb_spec 0 (j + 0));
        try reflexivity; lia. }
    unfold increment. rewrite Hnone. reflexivity.
Qed.

(** X13: a bin count of zero or less.  The list of counts is then empty, so
    for a first column that is not constant (a bin width other than zero)
    the first value already fails: its bucket cannot be computed, or
    incrementing its count raises [IndexError].  The call raises without
    printing; it neither returns nor exits. *)
Theorem draw_distribution_nonpositive_bin (x : XVG F) (bin : Z)
    (column : list F) (rest : list (list F)) (column_min column_max : F) :
  (bin <= 0)%Z ->
  data_columns x = column :: rest ->
  np_min column = Some column_min -> np_max column = Some column_max ->
  feqb (fdiv (fsub column_max column_min) (float_of_int bin)) (float_of_int 0)
    = false ->
  exists e, draw_distribution x bin = Raised e [].
Proof.
  intros Hbin Hcols Hmin Hmax Hw.
  destruct (distribution_no_counts (xvg_row_num x) bin column _ _
              Hbin Hmin Hmax Hw) as [e Hd].
  exists e. unfold draw_distribution. rewrite Hcols. cbn [map_run].
  now rewrite Hd.
Qed.

(** X14: what is handed to the plot for one column.  The x values and the
    frequencies have the same length: 1 for a column whose bin width
    compares equal to zero, [bin] for any other column; and nothing is
    printed. *)
Theorem distribution_plot_shape (row_num : nat) (bin : Z) (column : list F)
    (column_min column_max : F) (x_value frequency : list F)
    (out : list string) :
  np_min column = Some column_min -> np_max column = Some column_max ->
  distribution row_num bin column = Returned (x_value, frequency) out ->
  out = [] /\
  length x_value = length frequency /\
  length x_value
  = if feqb (fdiv (fsub column_max column_min) (float_of_int bin))
            (float_of_int 0)
    then 1 else Z.to_nat bin.
Proof.
  intros Hmin Hmax. unfold distribution. rewrite Hmin, Hmax.
  destruct (feqb _ _); cbn [negb].
  - unfold ret. intros Hr. injection Hr as <- <- <-.
    split; [reflexivity|]. split; reflexivity.
  - destruct (bin_counts _ _ bin column) as [counts o| |] eqn:Hc;
      try discriminate.
    destruct (bin_counts_sum _ _ _ _ _ _ Hc) as (-> & Hlen & _).
    rewrite bind_Returned_nil.
    destruct (negb _); [discriminate|].
    unfold ret. cbn [bind app]. intros Hr. injection Hr as <- <- <-.
    rewrite !length_map. unfold range. rewrite length_map, length_seq.
    split; [reflexivity|]. split; [now rewrite Hlen | reflexivity].
Qed.

End Histogram.




(** A quotient by zero is an infinity or a NaN, never zero. *)
Lemma div_zero_not_zero (a : float) :
  PrimFloat.eqb (a / Binary64.of_Z 0)%float (Binary64.of_Z 0) = false.
Proof.
  change (Binary64.of_Z 0) with 0%float.
  rewrite eqb_spec, div_spec.
  change (Prim2SF 0%float) with (S754_zero false).
  destruct (Prim2SF a) as [[]|[]| |[] m e]; vm_compute; reflexivity.
Qed.

(** X15: with [bin = 0] in double precision the call never returns, whatever
    the first column holds: its bin width is an infinity or a NaN, which is
    not zero, so the counting loop is entered with an empty list of counts
    and the first value raises. *)
Theorem draw_distribution_zero_bin (x : XVG float) (value : float)
    (column : list float) (rest : list (list float)) :
  data_columns x = (value :: column) :: rest ->
  exists e, draw_distribution x 0 = Raised e [].
Proof.
  intros Hcols.
  destruct (distribution_no_counts (xvg_row_num x) 0 (value :: column)
              (fold_left np_minimum column value)
              (fold_left np_maximum column value))
    as [e Hd]; [lia | reflexivity | reflexivity | apply div_zero_not_zero |].
  exists e. unfold draw_distribution. rewrite Hcols. cbn [map_run].
  now rewrite Hd.
Qed.

Lemma bin_counts_histogram_witness :
  exists frequency,
    bin_counts 5%float 0.5%float 2 [5; 5; 5; 6]%float = Returned frequency [] /\
    frequency = [3; 1]%Z /\
    nth 0 frequency 0%Z
    = Z.of_nat (length (filter (in_slot 5%float 0.5%float 2 0) [5; 5; 5; 6]%float)).
Proof.
  assert (Hrun : bin_counts 5%float 0.5%float 2 [5; 5; 5; 6]%float
                 = Returned [3; 1]%Z []) by (vm_compute; reflexivity).
  exists [3; 1]%Z. split; [exact Hrun|]. split; [reflexivity|].
  destruct (bin_counts_histogram _ _ _ _ _ _ Hrun) as (_ & _ & Hcount).
  exact (Hcount 0).
Defined.

Lemma draw_distribution_nonpositive_bin_witness :
  exists e, draw_distribution Samples.one_to_six (-3) = Raised e [].
Proof.
  apply (draw_distribution_nonpositive_bin Samples.one_to_six (-3)
           (map Binary64.of_Z [1; 2; 3; 4; 5; 6]%Z) [] 1%float 6%float);
    [lia | reflexivity | vm_compute; reflexivity | vm_compute; reflexivity
    | vm_compute; reflexivity].
Defined.

Lemma distribution_plot_shape_witness :
  exists x_value frequency,
    distribution 4 2 [5; 5; 5; 6]%float = Returned (x_value, frequency) [] /\
    length x_value = length frequency /\
    length x_value = 2 /\
    exists x_value' frequency',
      distribution 4 2 [5; 5; 5; 5]%float
        = Returned (x_value', frequency') [] /\
      length x_value' = 1.
Proof.
  assert (Hrun : distribution 4 2 [5; 5; 5; 6]%float
                 = Returned ([5; 5.5], [75; 25])%float [])
    by (vm_compute; reflexivity).
  assert (Hflat : distribution 4 2 [5; 5; 5; 5]%float
                  = Returned ([5], [1])%float [])
    by (vm_compute; reflexivity).
  assert (Hmin : np_min [5; 5; 5; 6]%float = Some 5%float)
    by (vm_compute; reflexivity).
  assert (Hmax : np_max [5; 5; 5; 6]%float = Some 6%float)
    by (vm_compute; reflexivity).
  assert (Hmin' : np_min [5; 5; 5; 5]%float = Some 5%float)
    by (vm_compute; reflexivity).
  assert (Hmax' : np_max [5; 5; 5; 5]%float = Some 5%float)
    by (vm_compute; reflexivity).
  do 2 eexists. split; [exact Hrun|].
  destruct (distribution_plot_shape 4 2 _ _ _ _ _ _ Hmin Hmax Hrun)
    as (_ & Hlen & Hbin).
  split; [exact Hlen|]. split; [exact Hbin|].
  do 2 eexists. split; [exact Hflat|].
  destruct (distribution_plot_shape 4 2 _ _ _ _ _ _ Hmin' Hmax' Hflat)
    as (_ & _ & Hone).
  exact Hone.
Defined.

Lemma draw_distribution_zero_bin_witness :
  exists e, draw_distribution Samples.four_fives 0 = Raised e [].
Proof.
  apply (draw_distribution_zero_bin Samples.four_fives 5%float
           [5; 5; 5]%float []).
  vm_compute. reflexivity.
Defined.

(** * The stacked plot *)

Import Stacking.

Section Items.
Context {A : Type}.

Lemma item_in_range (l : list A) (i : nat) (d : A) :
  i < length l -> item l (Z.of_nat i) = Returned (nth i l d) [].
Proof.
  intros Hi. unfold item, index.
  destruct (Z.leb_spec 0 (Z.of_nat i)) as [_|Hneg]; [|lia].
  destruct (Z.ltb_spec (Z.of_nat i) (Z.of_nat (length l))) as [_|Hge]; [|lia].
  rewrite Nat2Z.id.
  destruct (nth_error l i) as [a|] eqn:Ha.
  - now rewrite (nth_error_nth _ _ d Ha).
  - apply nth_error_None in Ha. lia.
Qed.

Lemma item_first (a : A) (l : list A) : item (a :: l) 0 = Returned a [].
Proof. exact (item_in_range (a :: l) 0 a (Nat.lt_0_succ _)). Qed.

Lemma item_empty (i : Z) : item (@nil A) i = Raised IndexError [].
Proof.
  unfold item, index. cbn [length Z.of_nat].
  destruct (Z.leb_spec 0 i), (Z.ltb_spec i 0), (Z.leb_spec 0 (i + 0));
    try reflexivity; lia.
Qed.

End Items.

Lemma map_run_Returned {A B} (f : A -> run B) (g : A -> B) (l : list A) :
  (forall a, In a l -> f a = Returned (g a) []) ->
  map_run f l = Returned (map g l) [].
Proof.
  induction l as [|a l IH]; intros Hf; [reflexivity|].
  cbn [map_run map]. rewrite (Hf a (or_introl eq_refl)), bind_Returned_nil.
  rewrite IH by (intros b Hb; apply Hf; now right).
  reflexivity.
Qed.

Lemma map_run_map {A B C} (f : B -> run C) (h : A -> B) (l : list A) :
  map_run f (map h l) = map_run (fun a => f (h a)) l.
Proof.
  induction l as [|a l IH]; [reflexivity|].
  cbn [map map_run]. now rewrite IH.
Qed.

Lemma range_from_nat (a b : nat) :
  range_from (Z.of_nat a) (Z.of_nat b) = map Z.of_nat (seq a (b - a)).
Proof.
  unfold range_from.
  replace (Z.to_nat (Z.of_nat b - Z.of_nat a)) with (b - a) by lia.
  generalize (b - a) as n. intros n. revert a.
  induction n as [|n IH]; intros a; [reflexivity|].
  cbn [seq map]. f_equal; [lia|].
  rewrite <- seq_shift, map_map, <- IH. apply map_ext. intros k. lia.
Qed.

Lemma seq_offset (a n : nat) : seq a n = map (fun k => a + k) (seq 0 n).
Proof.
  induction a as [|a IH].
  - now rewrite map_id.
  - rewrite <- seq_shift, IH, map_map. reflexivity.
Qed.

Lemma range_from_empty (a b : Z) : (b <= a)%Z -> range_from a b = [].
Proof.
  intros Hle. unfold range_from. now replace (Z.to_nat (b - a)) with 0 by lia.
Qed.

Lemma range_nat (n : nat) : range (Z.of_nat n) = map Z.of_nat (seq 0 n).
Proof. unfold range. now rewrite Nat2Z.id. Qed.

Section StackingLemmas.
Context {F : Type} `{PyArith F}.
Variable py_sum : list F -> F.

Lemma stacking_end_out_of_range (columns start : Z) (stop : option Z) :
  (0 <= columns <= start)%Z ->
  stacking_end columns start stop
  = Returned columns [msg_stack_start; msg_stack_end].
Proof.
  intros Hn. unfold stacking_end.
  destruct (Z.geb_spec start columns) as [_|Hlt]; [|lia].
  unfold print, ret. cbn [bind app].
  assert (Hbad : (1 <=? start)%Z || (1 >? columns)%Z = true).
  { destruct (Z.leb_spec 1 start) as [_|Hs]; [reflexivity|].
    destruct (Z.gtb_spec 1 columns) as [_|Hc]; [reflexivity|lia]. }
  rewrite Hbad. reflexivity.
Qed.

Lemma stacking_end_given (columns start e : Z) :
  (start < e <= columns)%Z ->
  stacking_end columns start (Some e) = Returned e [].
Proof.
  intros He. unfold stacking_end.
  destruct (Z.geb_spec start columns) as [Hge|_]; [lia|].
  rewrite bind_ret_l.
  destruct (Z.leb_spec e start) as [Hle|_]; [lia|].
  destruct (Z.gtb_spec e columns) as [Hgt|_]; [lia|]. reflexivity.
Qed.

Lemma stacking_end_default (columns start : Z) (stop : option Z) :
  (start < columns)%Z ->
  match stop with
  | Some e => (e <= start)%Z \/ (columns < e)%Z
  | None => True
  end ->
  stacking_end columns start stop
  = Returned columns (match stop with Some _ => [msg_stack_end] | None => [] end).
Proof.
  intros Hs Hstop. unfold stacking_end.
  destruct (Z.geb_spec start columns) as [Hge|_]; [lia|].
  rewrite bind_ret_l. destruct stop as [e|]; [|reflexivity].
  assert (Hbad : (e <=? start)%Z || (e >? columns)%Z = true).
  { destruct Hstop as [Hle|Hgt].
    - destruct (Z.leb_spec e start); [reflexivity|lia].
    - destruct (Z.gtb_spec e columns); [apply orb_true_r|lia]. }
  rewrite Hbad. reflexivity.
Qed.

(** The sums of one turn of the loop over a consistent dataset. *)
Lemma stack_data_sums (x : XVG F) (s e k : nat) :
  consistent x -> s + k < e -> e <= length (data_columns x) ->
  stack_data py_sum x (Z.of_nat s) (Z.of_nat e) (Z.of_nat (s + k))
  = Returned (column_sums py_sum x s (e - k)) [].
Proof.
  intros (_ & Hlen & _) Hk He. unfold stack_data, column_sums.
  replace (Z.of_nat e - (Z.of_nat (s + k) - Z.of_nat s))%Z
    with (Z.of_nat (e - k)) by lia.
  rewrite range_from_nat, range_nat, map_run_map.
  apply map_run_Returned. intros row Hrow. apply in_seq in Hrow.
  rewrite map_run_map.
  rewrite (map_run_Returned _
             (fun i => nth row (nth i (data_columns x) []) (float_of_int 0))).
  - now rewrite bind_Returned_nil.
  - intros i Hi. apply in_seq in Hi.
    assert (Hi' : i < length (data_columns x)) by lia.
    rewrite (item_in_range _ i [] Hi'), bind_Returned_nil.
    apply item_in_range.
    rewrite Forall_forall in Hlen. rewrite (Hlen _ (nth_In _ [] Hi')). lia.
Qed.

Lemma py_max_nonempty (l : list F) :
  l <> [] -> exists v, py_max l = Returned v [].
Proof. destruct l as [|a l]; [congruence | eexists; reflexivity]. Qed.

Lemma py_min_nonempty (l : list F) :
  l <> [] -> exists v, py_min l = Returned v [].
Proof. destruct l as [|a l]; [congruence | eexists; reflexivity]. Qed.

Lemma column_sums_length (x : XVG F) (a b : nat) :
  length (column_sums py_sum x a b) = xvg_row_num x.
Proof. unfold column_sums. now rewrite length_map, length_seq. Qed.

(** One turn of the loop over a consistent dataset. *)
Lemma stack_turn_layer (x : XVG F) (s e k : nat) (layers : list (layer F))
    (ylim_max ylim_min : F) :
  consistent x -> s + k < e -> e <= length (data_columns x) ->
  exists ylim_max' ylim_min',
    stack_turn py_sum x (Z.of_nat s) (Z.of_nat e) (layers, ylim_max, ylim_min)
               (Z.of_nat (s + k))
    = Returned (layers ++ [stacked_columns py_sum x s (e - k)],
                ylim_max', ylim_min') [].
Proof.
  intros Hx Hk He. pose proof Hx as (Hheads & Hlen & Hrows).
  unfold stack_turn.
  rewrite (stack_data_sums x s e k Hx Hk He), bind_Returned_nil.
  change 0%Z with (Z.of_nat 0).
  rewrite (item_in_range (data_columns x) 0 []) by lia.
  rewrite bind_Returned_nil.
  replace (Z.of_nat e + Z.of_nat s - Z.of_nat (s + k) - 1)%Z
    with (Z.of_nat (e - k - 1)) by lia.
  rewrite (item_in_range (data_heads x) (e - k - 1) "") by lia.
  rewrite bind_Returned_nil.
  assert (Hne : column_sums py_sum x s (e - k) <> []).
  { intros Hnil. apply (f_equal (@length F)) in Hnil.
    rewrite column_sums_length in Hnil. cbn in Hnil. lia. }
  destruct (py_max_nonempty _ Hne) as [hi ->].
  destruct (py_min_nonempty _ Hne) as [lo ->].
  rewrite !bind_Returned_nil. unfold ret.
  rewrite column_sums_length. do 2 eexists. reflexivity.
Qed.

(** The loop over a consistent dataset. *)
Lemma stack_loop_layers (x : XVG F) (s e : nat) (ks : list nat)
    (layers : list (layer F)) (ylim_max ylim_min : F) :
  consistent x -> e <= length (data_columns x) ->
  Forall (fun k => s + k < e) ks ->
  exists ylim_max' ylim_min',
    for_each (stack_turn py_sum x (Z.of_nat s) (Z.of_nat e))
             (map (fun k => Z.of_nat (s + k)) ks) (layers, ylim_max, ylim_min)
    = Returned (layers ++ map (fun k => stacked_columns py_sum x s (e - k)) ks,
                ylim_max', ylim_min') [].
Proof.
  intros Hx He Hks. revert layers ylim_max ylim_min.
  induction Hks as [|k ks Hk _ IH]; intros layers ylim_max ylim_min.
  - cbn. rewrite app_nil_r. do 2 eexists. reflexivity.
  - cbn [map for_each].
    destruct (stack_turn_layer x s e k layers ylim_max ylim_min Hx Hk He)
      as (y1 & y2 & ->).
    rewrite bind_Returned_nil.
    destruct (IH (layers ++ [stacked_columns py_sum x s (e - k)]) y1 y2)
      as (y1' & y2' & ->).
    rewrite <- app_assoc. do 2 eexists. reflexivity.
Qed.

(** The call once the end index is settled. *)
Lemma draw_stacking_from_end (x : XVG F) (s e : nat) (stop : option Z)
    (out : list string) :
  consistent x -> s < e -> e <= length (data_columns x) ->
  stacking_end (Z.of_nat (length (data_columns x))) (Z.of_nat s) stop
    = Returned (Z.of_nat e) out ->
  exists x_min x_max ylim,
    np_min (nth 0 (data_columns x) []) = Some x_min /\
    np_max (nth 0 (data_columns x) []) = Some x_max /\
    draw_stacking py_sum x (Z.of_nat s) stop
    = Returned
        (mkPlot (map (fun k => stacked_columns py_sum x s (e - k))
                     (seq 0 (e - s)))
                (nth 0 (data_heads x) "") (xvg_ylabel x)
                ("Stacked plot of " ++ xvg_title x) (x_min, x_max) ylim)
        out.
Proof.
  intros Hx Hs He Hend. pose proof Hx as (Hheads & Hlen & Hrows).
  unfold draw_stacking. rewrite Hend.
  assert (Hks : Forall (fun k => s + k < e) (seq 0 (e - s))).
  { apply Forall_forall. intros k Hk. apply in_seq in Hk. lia. }
  destruct (stack_loop_layers x s e _ [] (float_of_int 0) (float_of_int 0)
              Hx He Hks) as (y1 & y2 & Hloop).
  assert (Hrange : range_from (Z.of_nat s) (Z.of_nat e)
                   = map (fun k => Z.of_nat (s + k)) (seq 0 (e - s))).
  { rewrite range_from_nat, (seq_offset s). now rewrite map_map. }
  cbn [bind]. rewrite Hrange, Hloop. cbn [app].
  change 0%Z with (Z.of_nat 0).
  rewrite (item_in_range (data_heads x) 0 "") by lia.
  rewrite (item_in_range (data_columns x) 0 []) by lia.
  cbn [bind app].
  assert (Hfirst : nth 0 (data_columns x) [] <> []).
  { intros Hnil. rewrite Forall_forall in Hlen.
    assert (Hin : In (nth 0 (data_columns x) []) (data_columns x))
      by (apply nth_In; lia).
    apply Hlen in Hin. rewrite Hnil in Hin. cbn in Hin. lia. }
  destruct (nth 0 (data_columns x) []) as [|v column]; [congruence|].
  cbn [np_min np_max]. do 3 eexists. split; [reflexivity|].
  split; [reflexivity|]. unfold ret. rewrite app_nil_r. reflexivity.
Qed.

End StackingLemmas.

Section StackingTheorems.
Context {F : Type} `{PyArith F}.
Variable py_sum : list F -> F.

(** The call with a start index that is not below the number of columns. *)
Lemma draw_stacking_nothing (x : XVG F) (start : Z) (stop : option Z)
    (head : string) (heads : list string) (value : F) (column : list F)
    (rest : list (list F)) :
  (Z.of_nat (length (data_columns x)) <= start)%Z ->
  data_heads x = head :: heads ->
  data_columns x = (value :: column) :: rest ->
  draw_stacking py_sum x start stop
  = Returned
      (mkPlot [] head (xvg_ylabel x) ("Stacked plot of " ++ xvg_title x)
              (fold_left np_minimum column value, fold_left np_maximum column value)
              (float_of_int 0, float_of_int 0))
      [msg_stack_start; msg_stack_end].
Proof.
  intros Hstart Hheads Hcols. unfold draw_stacking.
  rewrite stacking_end_out_of_range by lia.
  cbn [bind]. rewrite range_from_empty by lia. cbn [for_each].
  rewrite Hheads, Hcols, !item_first. reflexivity.
Qed.

(** X17: the layers of a stacked plot.  On a dataset whose heads and columns
    go together, with start and end indices [s < e] within the columns,
    the call prints nothing and draws [e - s] layers over the first column.
    Layer [k] (from 0) holds for every row the sum of the columns [s] to
    [e - 1 - k] and is labelled with the head of column [e - 1 - k]: the
    first layer is the total of all stacked columns, the last one is
    column [s] alone.  The x axis is labelled with the first head and spans
    the first column. *)
Theorem draw_stacking_layers (x : XVG F) (s e : nat) :
  consistent x -> s < e -> e <= length (data_columns x) ->
  exists x_min x_max ylim,
    np_min (nth 0 (data_columns x) []) = Some x_min /\
    np_max (nth 0 (data_columns x) []) = Some x_max /\
    draw_stacking py_sum x (Z.of_nat s) (Some (Z.of_nat e))
    = Returned
        (mkPlot (map (fun k => stacked_columns py_sum x s (e - k))
                     (seq 0 (e - s)))
                (nth 0 (data_heads x) "") (xvg_ylabel x)
                ("Stacked plot of " ++ xvg_title x) (x_min, x_max) ylim)
        [].
Proof.
  intros Hx Hs He.
  apply (draw_stacking_from_end py_sum x s e); try assumption.
  apply stacking_end_given. lia.
Qed.

(** X18: the default end.  With a start index below the number of columns,
    a call without end index, or with one that is not above the start or
    is above the number of columns, stacks the columns from the start to
    the last one; a given end index costs the warning that the default is
    used. *)
Theorem draw_stacking_default_end (x : XVG F) (s : nat) (stop : option Z) :
  consistent x -> s < length (data_columns x) ->
  match stop with
  | Some e => (e <= Z.of_nat s)%Z \/ (Z.of_nat (length (data_columns x)) < e)%Z
  | None => True
  end ->
  let n := length (data_columns x) in
  exists x_min x_max ylim,
    draw_stacking py_sum x (Z.of_nat s) stop
    = Returned
        (mkPlot (map (fun k => stacked_columns py_sum x s (n - k))
                     (seq 0 (n - s)))
                (nth 0 (data_heads x) "") (xvg_ylabel x)
                ("Stacked plot of " ++ xvg_title x) (x_min, x_max) ylim)
        (match stop with Some _ => [msg_stack_end] | None => [] end).
Proof.
  intros Hx Hs Hstop n.
  destruct (draw_stacking_from_end py_sum x s n stop
              (match stop with Some _ => [msg_stack_end] | None => [] end)
              Hx Hs (Nat.le_refl _))
    as (x_min & x_max & ylim & _ & _ & Hrun).
  - apply stacking_end_default; [lia | exact Hstop].
  - now exists x_min, x_max, ylim.
Qed.

(** X19: a start index that is not below the number of columns.  The check
    then sets the end index to 1, which the second check refuses in turn:
    both warnings are printed, the end becomes the number of columns, and
    since the start is left as it was no layer is drawn.  The plot has its
    labels, its title and the limits of the first column, and y limits
    [(0, 0)]. *)
Theorem draw_stacking_start_out_of_range (x : XVG F) (start : Z)
    (stop : option Z) (head : string) (heads : list string) (value : F)
    (column : list F) (rest : list (list F)) :
  (Z.of_nat (length (data_columns x)) <= start)%Z ->
  data_heads x = head :: heads ->
  data_columns x = (value :: column) :: rest ->
  exists plot,
    draw_stacking py_sum x start stop
      = Returned plot [msg_stack_start; msg_stack_end] /\
    plot_layers plot = [] /\
    plot_xlabel plot = head /\
    plot_xlim plot = (fold_left np_minimum column value,
                      fold_left np_maximum column value) /\
    plot_ylim plot = (float_of_int 0, float_of_int 0).
Proof.
  intros Hstart Hheads Hcols. eexists. split.
  - exact (draw_stacking_nothing x start stop head heads value column rest
             Hstart Hheads Hcols).
  - repeat split.
Qed.

End StackingTheorems.

Section MainTheorems.
Context {F : Type} `{PyFloat F}.
Variable py_sum : list F -> F.

(** A dataset the constructor returns is consistent. *)
Lemma XVG_init_consistent (file_exists : bool) (xvgfile : string)
    (raw_lines : list string) (x : XVG F) (out : list string) :
  XVG_init file_exists xvgfile raw_lines = Returned x out -> consistent x.
Proof.
  intros Hrun.
  pose proof (XVG_init_column_lengths _ _ _ _ _ Hrun) as Hlen.
  destruct (XVG_init_Returned _ _ _ _ _ Hrun)
    as (x0 & out' & Hp & _ & _ & Hrows & Hrec & _).
  destruct Hp as (_ & _ & _ & _ & _ & Hh & Hc).
  destruct (reconcile_Returned _ _ _ Hh Hc Hrec) as (Hx & _ & _ & Hheads & _).
  assert (Hr : xvg_row_num x = xvg_row_num x0) by (rewrite Hx; reflexivity).
  split; [now symmetry|]. split; [exact Hlen | lia].
Qed.

(** X20: what [main] stacks.  [main] reads the file named by its first
    argument and stacks the columns 2 to 6.  For a file the constructor
    accepts, with [n] numeric columns: with [n >= 7] it draws five layers
    and prints no warning; with [3 <= n < 7] it warns about the end index
    and stacks the columns 2 to [n - 1]; with [n <= 2], as for every file
    with at most one legend, it prints both warnings and draws no layer. *)
Theorem main_layers (program file : string) (arguments : list string)
    (file_exists : string -> bool) (readlines : string -> list string)
    (x : XVG F) (out : list string) :
  XVG_init (file_exists file) file (readlines file) = Returned x out ->
  let n := length (data_columns x) in
  let e := if n <? 7 then n else 7 in
  (length (xvg_legends x) <= 1 -> n <= 2) /\
  exists plot,
    main py_sum (program :: file :: arguments) file_exists readlines
    = Returned plot
        (out ++ (if n <=? 2 then [msg_stack_start; msg_stack_end]
                 else if n <? 7 then [msg_stack_end] else [])) /\
    plot_layers plot
    = map (fun k => stacked_columns py_sum x 2 (e - k)) (seq 0 (e - 2)).
Proof.
  intros Hrun n e.
  assert (Hn : n = length (data_columns x)) by reflexivity. clearbody n.
  destruct (XVG_init_dataset _ _ _ _ _ Hrun) as (_ & _ & _ & Hcount & _).
  rewrite <- Hn in Hcount. unfold analysed_count, consumed_columns in Hcount.
  split.
  - intros Hleg. rewrite Hcount.
    destruct (length (xvg_legends x)) as [|[|l]]; [| |lia];
      repeat match goal with
             | |- context [if ?b then _ else _] => destruct b eqn:?
             end; try lia; cbn in *; discriminate.
  - assert (Hpos : 0 < n) by lia. clear Hcount.
    pose proof (XVG_init_consistent _ _ _ _ _ Hrun) as Hx.
    pose proof Hx as (Hheads & Hlen & Hrows).
    unfold main.
    change 1%Z with (Z.of_nat 1).
    rewrite (item_in_range (program :: file :: arguments) 1 "")
      by (cbn; lia).
    cbn [nth]. rewrite bind_Returned_nil, Hrun. cbn [bind].
    destruct (Nat.leb_spec n 2) as [Hsmall|Hbig].
    + destruct (data_heads x) as [|head heads] eqn:Hh;
        [cbn in Hheads; lia|].
      destruct (data_columns x) as [|column rest] eqn:Hc;
        [cbn in Hn; lia|].
      destruct column as [|value column].
      { inversion Hlen as [|? ? Hzero _]. cbn in Hzero. lia. }
      assert (Hstart : (Z.of_nat (length (data_columns x)) <= 2)%Z)
        by (rewrite Hc, <- Hn; lia).
      rewrite (draw_stacking_nothing py_sum x 2 (Some 7%Z) head heads value
                 column rest Hstart Hh Hc).
      eexists. split; [reflexivity|].
      cbn [plot_layers].
      replace (e - 2) with 0; [reflexivity|].
      unfold e. destruct (Nat.ltb_spec n 7); lia.
    + destruct (Nat.ltb_spec n 7) as [Hlt|Hge].
      * destruct (draw_stacking_from_end py_sum x 2 n (Some 7%Z) [msg_stack_end]
                    Hx Hbig ltac:(lia))
          as (x_min & x_max & ylim & _ & _ & Hdraw).
        { rewrite <- Hn.
          apply (stacking_end_default _ (Z.of_nat 2) (Some 7%Z)); [lia|].
          right. lia. }
        change (Z.of_nat 2) with 2%Z in Hdraw. rewrite Hdraw.
        eexists. split; reflexivity.
      * destruct (draw_stacking_from_end py_sum x 2 7 (Some 7%Z) []
                    Hx ltac:(lia) ltac:(lia))
          as (x_min & x_max & ylim & _ & _ & Hdraw).
        { apply (stacking_end_given _ (Z.of_nat 2) (Z.of_nat 7)). lia. }
        change (Z.of_nat 2) with 2%Z in Hdraw. rewrite Hdraw.
        eexists. split; reflexivity.
Qed.

End MainTheorems.

Lemma three_curves_consistent : consistent MoreSamples.three_curves.
Proof.
  split; [reflexivity|]. split; [repeat constructor | cbn; lia].
Defined.

Lemma draw_stacking_layers_witness :
  exists plot,
    draw_stacking np_sum MoreSamples.three_curves 1 (Some 4%Z)
      = Returned plot [] /\
    map layer_label (plot_layers plot)
      = ["c (kJ/mol)"; "b (kJ/mol)"; "a (kJ/mol)"] /\
    map layer_top (plot_layers plot)
      = [[111; 222]; [11; 22]; [1; 2]]%float.
Proof.
  destruct (draw_stacking_layers np_sum MoreSamples.three_curves 1 4
              three_curves_consistent ltac:(lia) ltac:(cbn; lia))
    as (x_min & x_max & ylim & _ & _ & Hrun).
  eexists. split; [exact Hrun|]. split; vm_compute; reflexivity.
Defined.

Lemma draw_stacking_default_end_witness :
  exists plot,
    draw_stacking np_sum MoreSamples.three_curves 2 (Some 7%Z)
      = Returned plot [msg_stack_end] /\
    map layer_label (plot_layers plot) = ["c (kJ/mol)"; "b (kJ/mol)"] /\
    map layer_top (plot_layers plot) = [[110; 220]; [10; 20]]%float.
Proof.
  destruct (draw_stacking_default_end np_sum MoreSamples.three_curves 2
              (Some 7%Z) three_curves_consistent ltac:(cbn; lia)
              ltac:(right; cbn; lia))
    as (x_min & x_max & ylim & Hrun).
  eexists. split; [exact Hrun|]. split; vm_compute; reflexivity.
Defined.

Lemma draw_stacking_start_out_of_range_witness :
  exists plot,
    draw_stacking np_sum MoreSamples.three_curves 4 None
      = Returned plot [msg_stack_start; msg_stack_end] /\
    plot_layers plot = [] /\
    plot_xlabel plot = "Time (ps)" /\
    plot_xlim plot = (0, 1)%float /\
    plot_ylim plot = (0, 0)%float.
Proof.
  destruct (draw_stacking_start_out_of_range np_sum MoreSamples.three_curves 4
              None "Time (ps)" ["a (kJ/mol)"; "b (kJ/mol)"; "c (kJ/mol)"]
              0%float [1%float] [[1; 2]; [10; 20]; [100; 200]]%float
              ltac:(cbn; lia) eq_refl eq_refl)
    as (plot & Hrun & Hlayers & Hxlabel & Hxlim & Hylim).
  exists plot. split; [exact Hrun|]. split; [exact Hlayers|].
  split; [exact Hxlabel|]. split.
  - rewrite Hxlim. vm_compute. reflexivity.
  - rewrite Hylim. vm_compute. reflexivity.
Defined.

Lemma main_layers_witness :
  exists plot,
    main np_sum ["XVG.py"; "energy.xvg"] (fun _ => true)
         (fun _ => Samples.energy_file "A, B")
      = Returned plot [msg_read "energy.xvg"; msg_stack_end] /\
    map layer_label (plot_layers plot) = ["s2 B"] /\
    map layer_top (plot_layers plot) = [[-2; -4; -6]]%float.
Proof.
  assert (Hrun : exists x : XVG float,
             XVG_init true "energy.xvg" (Samples.energy_file "A, B")
               = Returned x [msg_read "energy.xvg"] /\
             length (data_columns x) = 3 /\
             map (fun k => layer_label (stacked_columns np_sum x 2 (3 - k)))
                 (seq 0 1) = ["s2 B"] /\
             map (fun k => layer_top (stacked_columns np_sum x 2 (3 - k)))
                 (seq 0 1) = [[-2; -4; -6]]%float).
  { eexists. split; [vm_compute; reflexivity|]. split; [reflexivity|].
    split; vm_compute; reflexivity. }
  destruct Hrun as (x & Hrun & Hn & Hlabels & Htops).
  destruct (main_layers np_sum "XVG.py" "energy.xvg" [] (fun _ => true)
              (fun _ => Samples.energy_file "A, B") x _ Hrun)
    as (_ & plot & Hmain & Hlayers).
  rewrite Hn in Hmain, Hlayers. cbn [Nat.leb Nat.ltb app] in Hmain, Hlayers.
  exists plot. split; [exact Hmain|].
  rewrite Hlayers, !map_map. split; [exact Hlabels | exact Htops].
Defined.

(** * The csv export *)

Import Csv.

Section Strings.
Local Open Scope string_scope.

Lemma substring_all (s : string) : substring 0 (String.length s) s = s.
Proof. induction s as [|c s IH]; cbn; [reflexivity | now rewrite IH]. Qed.

Lemma substring_skip (a b : string) (n : nat) :
  substring (String.length a) n (a ++ b) = substring 0 n b.
Proof. induction a as [|x a IH]; cbn; [reflexivity | exact IH]. Qed.

Lemma substring_take (a b : string) :
  substring 0 (String.length a) (a ++ b) = a.
Proof.
  induction a as [|x a IH]; cbn.
  - destruct b; reflexivity.
  - now rewrite IH.
Qed.

(** A string is what comes before a position and what comes after. *)
Lemma substring_split (s : string) (n : nat) :
  n <= String.length s ->
  s = substring 0 n s ++ substring n (String.length s - n) s.
Proof.
  revert n. induction s as [|c s IH]; intros n Hn.
  - destruct n; reflexivity.
  - destruct n as [|n].
    + cbn [substring append Nat.sub String.length].
      now rewrite substring_all.
    + cbn [substring append String.length Nat.sub]. f_equal.
      apply IH. cbn in Hn. lia.
Qed.

(** [(stem + t)[-len(t):] == t] and [(stem + t)[:-len(t)] == stem]. *)
Lemma suffix_append (stem t : string) :
  PyStr.suffix (String.length t) (stem ++ t) = t.
Proof.
  unfold PyStr.suffix. rewrite length_append.
  replace (String.length stem + String.length t - String.length t)
    with (String.length stem) by lia.
  rewrite substring_skip. apply substring_all.
Qed.

Lemma drop_last_append (stem t : string) :
  drop_last (String.length t) (stem ++ t) = stem.
Proof.
  unfold drop_last. rewrite length_append.
  replace (String.length stem + String.length t - String.length t)
    with (String.length stem) by lia.
  apply substring_take.
Qed.

(** A string with the four-character suffix [t] ends in [t]. *)
Lemma suffix_stem (s t : string) :
  String.length t = 4 -> PyStr.suffix 4 s = t ->
  s = drop_last 4 s ++ t.
Proof.
  intros Hlen Hsuf. unfold PyStr.suffix in Hsuf. unfold drop_last.
  destruct (Nat.le_gt_cases 4 (String.length s)) as [Hge|Hlt].
  - rewrite (substring_split s (String.length s - 4)) at 1 by lia.
    f_equal.
    replace (String.length s - (String.length s - 4)) with 4 by lia.
    exact Hsuf.
  - replace (String.length s - 4) with 0 in * by lia.
    assert (Hs : String.length (substring 0 4 s) = String.length s).
    { clear - Hlt. destruct s as [|a [|b [|c [|d s]]]]; cbn in *;
        try reflexivity; lia. }
    rewrite Hsuf, Hlen in Hs. lia.
Qed.

Lemma concat_empty_cons (a : string) (l : list string) :
  String.concat "" (a :: l) = a ++ String.concat "" l.
Proof.
  destruct l as [|b l]; cbn [String.concat]; [now rewrite append_nil_r|].
  reflexivity.
Qed.

End Strings.

Section CsvLemmas.
Context {F : Type} `{PyFloat F}.
Variable str_of_float : F -> string.

(** The raw columns of a dataset the constructor returns. *)
Lemma XVG_init_raw_shape (file_exists : bool) (xvgfile : string)
    (raw_lines : list string) (x : XVG F) (out : list string) :
  XVG_init file_exists xvgfile raw_lines = Returned x out ->
  xvg_filename x = xvgfile /\
  PyStr.suffix 4 xvgfile = ".xvg" /\
  raw_shape x (rows_of (clean raw_lines)).
Proof.
  intros Hrun.
  destruct (XVG_init_Returned _ _ _ _ _ Hrun)
    as (x0 & out' & Hp & Hs & _ & _ & Hrec & _).
  destruct Hp as (Hname & _ & _ & _ & _ & Hh & Hc).
  destruct (reconcile_Returned _ _ _ Hh Hc Hrec) as (Hx & _).
  split; [rewrite Hx; exact Hname|]. split.
  - destruct file_exists; [|discriminate].
    destruct (string_dec (PyStr.suffix 4 xvgfile) ".xvg") as [Hsuf|Hsuf];
      [exact Hsuf|].
    rewrite (XVG_init_bad_suffix _ _ Hsuf) in Hrun. discriminate.
  - rewrite Hx. exact Hs.
Qed.

(** No more columns are converted than there are. *)
Lemma consumed_columns_le (legends columns : nat) :
  0 < columns -> consumed_columns legends columns <= columns.
Proof.
  intros Hpos. unfold consumed_columns.
  destruct (Nat.eqb_spec legends 0), (Nat.ltb_spec 1 columns),
    (Nat.ltb_spec 0 legends), (Nat.ltb_spec legends columns); cbn; lia.
Qed.

Lemma out_data_converted (x : XVG F) :
  length (data_columns x) <= length (xvg_columns x) ->
  out_data x
  = map (map Num) (data_columns x)
    ++ map (map Text) (skipn (length (data_columns x)) (xvg_columns x)).
Proof.
  intros Hle. unfold out_data.
  destruct (Nat.eqb_spec (length (data_columns x)) (length (xvg_columns x)))
    as [Heq|Hne].
  - rewrite Heq, skipn_all. cbn [map]. now rewrite app_nil_r.
  - destruct (Nat.ltb_spec (length (data_columns x)) (length (xvg_columns x)));
      [reflexivity | lia].
Qed.

(** One line of a dataset whose columns all have [row_num] elements. *)
Lemma csv_line_row (x : XVG F) (r : nat) :
  length (data_columns x) <= length (xvg_columns x) ->
  Forall (fun column => length column = xvg_row_num x) (data_columns x) ->
  Forall (fun column => length column = xvg_row_num x) (xvg_columns x) ->
  r < xvg_row_num x ->
  csv_line str_of_float x (Z.of_nat r) = Returned (csv_row str_of_float x r) [].
Proof.
  intros Hle Hdata Hraw Hr. unfold csv_line, csv_row.
  rewrite (out_data_converted x Hle).
  rewrite (map_run_Returned _
             (fun column => str str_of_float (nth r column (Text "")))).
  - rewrite bind_Returned_nil. unfold ret. do 3 f_equal.
    rewrite map_app, !map_map. f_equal.
    + apply map_ext_in. intros column Hin.
      rewrite Forall_forall in Hdata.
      rewrite (nth_indep _ (Text "") (Num fnan))
        by (rewrite length_map, (Hdata _ Hin); exact Hr).
      now rewrite map_nth.
    + apply map_ext. intros column.
      change (Text (F := F) "") with (Text (F := F) EmptyString).
      now rewrite (map_nth Text).
  - intros column Hin.
    assert (Hlen : length column = xvg_row_num x).
    { apply in_app_or in Hin as [Hin|Hin]; apply in_map_iff in Hin
        as (c & <- & Hc); rewrite length_map.
      - rewrite Forall_forall in Hdata. now apply Hdata.
      - rewrite Forall_forall in Hraw. apply Hraw.
        rewrite <- (firstn_skipn (length (data_columns x)) (xvg_columns x)).
        apply in_or_app. now right. }
    rewrite (item_in_range column r (Text "")) by lia.
    now rewrite bind_Returned_nil.
Qed.

Lemma write_rows_all (x : XVG F) (rs : list nat) (content : string) :
  (forall r, In r rs ->
     csv_line str_of_float x (Z.of_nat r)
     = Returned (csv_row str_of_float x r) []) ->
  write_rows str_of_float x (map Z.of_nat rs) content
  = ((content ++ String.concat "" (map (csv_row str_of_float x) rs))%string,
     Returned tt []).
Proof.
  revert content. induction rs as [|r rs IH]; intros content Hrows.
  - cbn. now rewrite append_nil_r.
  - cbn [map write_rows]. rewrite (Hrows r (or_introl eq_refl)).
    rewrite IH by (intros r' Hr'; apply Hrows; now right).
    rewrite concat_empty_cons, append_assoc. reflexivity.
Qed.

End CsvLemmas.

Section CsvTheorems.
Context {F : Type} `{PyFloat F}.
Variable str_of_float : F -> string.

Lemma raw_columns_length (x : XVG F) (rows : list (list string)) :
  raw_shape x rows ->
  Forall (fun column => length column = xvg_row_num x) (xvg_columns x).
Proof.
  intros Hs. apply Forall_forall. intros column Hin.
  destruct (In_nth _ _ [] Hin) as (j & Hj & <-).
  destruct (raw_column_shape x rows j Hs Hj) as (col & Hcol & _ & Hlen).
  now rewrite (nth_error_nth _ _ [] Hcol).
Qed.

(** What the export needs of a dataset the constructor returns. *)
Lemma XVG_init_exportable (file_exists : bool) (xvgfile : string)
    (raw_lines : list string) (x : XVG F) (out : list string) :
  XVG_init file_exists xvgfile raw_lines = Returned x out ->
  0 < length (xvg_columns x) /\
  length (data_columns x) <= length (xvg_columns x) /\
  Forall (fun column => length column = xvg_row_num x) (data_columns x) /\
  Forall (fun column => length column = xvg_row_num x) (xvg_columns x).
Proof.
  intros Hrun.
  destruct (XVG_init_raw_shape _ _ _ _ _ Hrun) as (_ & _ & Hs).
  destruct (XVG_init_dataset _ _ _ _ _ Hrun) as (_ & _ & Hnum & Hcount & _).
  destruct (XVG_init_Returned _ _ _ _ _ Hrun)
    as (x0 & out' & Hp & _ & Hcols & _ & Hrec & _).
  destruct Hp as (_ & _ & _ & _ & _ & Hh & Hc).
  destruct (reconcile_Returned _ _ _ Hh Hc Hrec) as (Hx & _).
  assert (Hpos : 0 < length (xvg_columns x)).
  { rewrite <- Hnum, Hx. cbn. lia. }
  split; [exact Hpos|]. split.
  - rewrite Hcount. unfold analysed_count. now apply consumed_columns_le.
  - split; [exact (XVG_init_column_lengths _ _ _ _ _ Hrun)|].
    exact (raw_columns_length x _ Hs).
Qed.

(** X21: the export of a dataset the constructor returned.  The target is
    the name given or, for the empty name, the name of the xvg file with
    its last four characters replaced by [.csv].  The call has three
    outcomes: a target that does not end in [.csv] and a target that
    exists are refused with their message, and no file is opened; otherwise
    the file is written in full, the heads on the first line and one line
    for each row, and the success line is printed.  It never raises, and
    never leaves a file that is written in part. *)
Theorem xvg2csv_constructed (path_exists : string -> bool)
    (file_exists : bool) (xvgfile : string) (raw_lines : list string)
    (x : XVG F) (out : list string) (outcsv : string) :
  XVG_init file_exists xvgfile raw_lines = Returned x out ->
  let target := if String.eqb outcsv ""
                then (drop_last 4 xvgfile ++ ".csv")%string else outcsv in
  xvg2csv str_of_float path_exists x outcsv
  = if negb (String.eqb (PyStr.suffix 4 target) ".csv")
    then (None, Exit [msg_csv_suffix])
    else if path_exists target
    then (None, Exit [msg_csv_exists target])
    else (Some (target, csv_text str_of_float x),
          Returned tt [msg_csv_done xvgfile target]).
Proof.
  intros Hrun target.
  destruct (XVG_init_raw_shape _ _ _ _ _ Hrun) as (Hname & _ & _).
  destruct (XVG_init_exportable _ _ _ _ _ Hrun) as (_ & Hle & Hdata & Hraw).
  unfold xvg2csv. rewrite Hname. fold target.
  destruct (negb _); [reflexivity|].
  destruct (path_exists target); [reflexivity|].
  rewrite range_nat, (write_rows_all str_of_float).
  - unfold csv_text. rewrite append_assoc. reflexivity.
  - intros r Hr. apply in_seq in Hr.
    apply csv_line_row; try assumption. lia.
Qed.

(** X22: the default name of the export.  The name of a dataset the
    constructor returned ends in [.xvg]; without a name given, the export
    goes to the same name with [.csv] for [.xvg], as if that name had
    been given, and this name passes the check of the suffix. *)
Theorem xvg2csv_default_name (path_exists : string -> bool)
    (file_exists : bool) (xvgfile : string) (raw_lines : list string)
    (x : XVG F) (out : list string) :
  XVG_init file_exists xvgfile raw_lines = Returned x out ->
  exists stem,
    xvgfile = (stem ++ ".xvg")%string /\
    PyStr.suffix 4 (stem ++ ".csv") = ".csv" /\
    xvg2csv str_of_float path_exists x ""
    = xvg2csv str_of_float path_exists x (stem ++ ".csv").
Proof.
  intros Hrun.
  destruct (XVG_init_raw_shape _ _ _ _ _ Hrun) as (Hname & Hsuf & _).
  exists (drop_last 4 xvgfile).
  pose proof (suffix_stem xvgfile ".xvg" eq_refl Hsuf) as Hstem.
  split; [exact Hstem|]. split; [exact (suffix_append _ ".csv")|].
  unfold xvg2csv. rewrite Hname. cbn [String.eqb].
  destruct (drop_last 4 xvgfile ++ ".csv")%string eqn:Hd; [|reflexivity].
  apply (f_equal String.length) in Hd. rewrite length_append in Hd.
  cbn in Hd. lia.
Qed.

(** X23: the lines of the export and the file.  Line [r] of the data holds
    as many fields as the data rows of the xvg file have tokens: first the
    values of the numeric columns as [str] prints them, which are the
    floats of the first tokens of data row [r], then the other tokens of
    that row as they stand in the file. *)
Theorem csv_row_tokens (file_exists : bool) (xvgfile : string)
    (raw_lines : list string) (x : XVG F) (out : list string) (r : nat) :
  XVG_init file_exists xvgfile raw_lines = Returned x out ->
  r < xvg_row_num x ->
  let tokens := nth r (rows_of (clean raw_lines)) [] in
  let converted := length (data_columns x) in
  exists values,
    map Some values = map float_of_str (firstn converted tokens) /\
    length values + length (skipn converted tokens) = xvg_column_num x /\
    csv_row str_of_float x r
    = (String.concat "," (map str_of_float values ++ skipn converted tokens)
       ++ line_feed)%string.
Proof.
  intros Hrun Hr tokens converted.
  destruct (XVG_init_raw_shape _ _ _ _ _ Hrun) as (_ & _ & Hs).
  destruct (XVG_init_exportable _ _ _ _ _ Hrun) as (_ & Hle & Hdata & _).
  destruct (XVG_init_dataset _ _ _ _ _ Hrun) as (_ & _ & Hnum & _ & _ & _ & Hcols).
  pose proof Hs as (Hrows & _ & _ & Hwidth & Hnth).
  assert (Hrow : r < length (rows_of (clean raw_lines))) by lia.
  assert (Htok : length tokens = length (xvg_columns x)).
  { rewrite Forall_forall in Hwidth. apply Hwidth. now apply nth_In. }
  exists (map (fun column => nth r column fnan) (data_columns x)).
  assert (Hvalues :
    map Some (map (fun column => nth r column fnan) (data_columns x))
    = map float_of_str (firstn converted tokens)).
  { apply nth_error_ext. intros i.
    rewrite !nth_error_map, nth_error_firstn.
    destruct (Nat.ltb_spec i converted) as [Hi|Hi].
    - destruct (nth_error (data_columns x) i) as [column|] eqn:Hc;
        [|apply nth_error_None in Hc; unfold converted in Hi; lia].
      pose proof (Forall2_seq_nth _ _ _ _ _ Hcols Hc) as Hcol.
      assert (Hlen : length column = xvg_row_num x).
      { rewrite Forall_forall in Hdata. apply Hdata.
        eapply nth_error_In. exact Hc. }
      apply (f_equal (fun l => nth_error l r)) in Hcol.
      rewrite !nth_error_map in Hcol.
      rewrite (nth_error_nth' column fnan) in Hcol by lia.
      rewrite (nth_error_nth' (rows_of (clean raw_lines)) [] Hrow) in Hcol.
      fold tokens in Hcol. cbn [option_map] in Hcol.
      rewrite (nth_error_nth' tokens "") by (unfold converted in Hi; lia).
      cbn [option_map]. congruence.
    - destruct (nth_error (data_columns x) i) as [column|] eqn:Hc;
        [|reflexivity].
      assert (i < length (data_columns x)) by (apply nth_error_Some; congruence).
      unfold converted in Hi. lia. }
  split; [exact Hvalues|]. split.
  - rewrite length_map, length_skipn. fold converted. lia.
  - unfold csv_row. do 3 f_equal.
    + now rewrite map_map.
    + fold converted. apply nth_error_ext. intros j.
      rewrite nth_error_map, !nth_error_skipn.
      destruct (Nat.lt_ge_cases (converted + j) (length (xvg_columns x)))
        as [Hj|Hj].
      * rewrite (nth_error_nth' (xvg_columns x) [] Hj).
        rewrite (nth_error_nth' tokens "") by lia.
        cbn [option_map]. f_equal. rewrite (Hnth _ Hj).
        assert (Hr' : nth_error (map (fun row => nth (converted + j) row "")
                                     (rows_of (clean raw_lines))) r
                      = Some (nth (converted + j) tokens "")).
        { rewrite nth_error_map, (nth_error_nth' _ [] Hrow). reflexivity. }
        exact (nth_error_nth _ _ "" Hr').
      * assert (Hnone : nth_error (xvg_columns x) (converted + j) = None)
          by now apply nth_error_None.
        rewrite Hnone. cbn [option_map]. symmetry.
        apply nth_error_None. lia.
Qed.

End CsvTheorems.
Section CsvWidths.
Context {F : Type} `{PyFloat F}.
Variable str_of_float : F -> string.

(** X24: the header of the export and its lines.  Every line of the data
    has [column_num] fields, one for each column of the xvg file, while
    the header has one name for each numeric column, which are never more.
    The header names every field only for a file with one column, for a
    file with two columns and no legend, and for a file with one legend
    less than it has columns; for any other file the last fields of the
    lines have no name in the header. *)
Theorem csv_header_width (file_exists : bool) (xvgfile : string)
    (raw_lines : list string) (x : XVG F) (out : list string) :
  XVG_init file_exists xvgfile raw_lines = Returned x out ->
  let names := length (data_heads x) in
  let fields := length (out_data x) in
  let legends := length (xvg_legends x) in
  fields = xvg_column_num x /\
  names <= fields /\
  (names = fields <->
   xvg_column_num x = 1 \/ (legends = 0 /\ xvg_column_num x = 2)
   \/ S legends = xvg_column_num x).
Proof.
  intros Hrun names fields legends.
  destruct (XVG_init_exportable _ _ _ _ _ Hrun) as (Hpos & Hle & _ & _).
  destruct (XVG_init_dataset _ _ _ _ _ Hrun) as (_ & _ & Hnum & Hcount & _).
  destruct (XVG_init_consistent _ _ _ _ _ Hrun) as (Hheads & _).
  assert (Hfields : fields = xvg_column_num x).
  { unfold fields. rewrite (out_data_converted x Hle).
    rewrite length_app, !length_map, length_skipn. lia. }
  assert (Hnames : names = consumed_columns legends (xvg_column_num x)).
  { unfold names. rewrite Hheads, Hcount, Hnum. reflexivity. }
  rewrite Hfields, Hnames. rewrite <- Hnum in Hpos.
  split; [reflexivity|]. split; [now apply consumed_columns_le|].
  unfold consumed_columns.
  destruct (Nat.eqb_spec legends 0), (Nat.ltb_spec 1 (xvg_column_num x)),
    (Nat.ltb_spec 0 legends), (Nat.ltb_spec legends (xvg_column_num x));
    cbn [andb]; lia.
Qed.

End CsvWidths.

Lemma xvg2csv_constructed_witness :
  exists x : XVG float,
    XVG_init true "run.xvg" MoreSamples.whole_numbers
      = Returned x [msg_read "run.xvg"] /\
    xvg2csv MoreSamples.str_of_whole (fun _ => false) x ""
    = (Some ("run.csv",
             ("t,y" ++ line_feed ++ "0.0,1.0,first" ++ line_feed
              ++ "1.0,2.0,second" ++ line_feed)%string),
       Returned tt [msg_csv_done "run.xvg" "run.csv"]) /\
    xvg2csv MoreSamples.str_of_whole (fun _ => true) x ""
    = (None, Exit [msg_csv_exists "run.csv"]) /\
    xvg2csv MoreSamples.str_of_whole (fun _ => false) x "run.txt"
    = (None, Exit [msg_csv_suffix]).
Proof.
  assert (Hrun : exists x : XVG float,
             XVG_init true "run.xvg" MoreSamples.whole_numbers
               = Returned x [msg_read "run.xvg"] /\
             csv_text MoreSamples.str_of_whole x
             = ("t,y" ++ line_feed ++ "0.0,1.0,first" ++ line_feed
                ++ "1.0,2.0,second" ++ line_feed)%string).
  { eexists. split; vm_compute; reflexivity. }
  destruct Hrun as (x & Hrun & Htext). exists x. split; [exact Hrun|].
  split; [|split].
  - rewrite (xvg2csv_constructed MoreSamples.str_of_whole (fun _ => false)
               true _ _ x _ "" Hrun).
    rewrite Htext. reflexivity.
  - exact (xvg2csv_constructed MoreSamples.str_of_whole (fun _ => true)
             true _ _ x _ "" Hrun).
  - exact (xvg2csv_constructed MoreSamples.str_of_whole (fun _ => false)
             true _ _ x _ "run.txt" Hrun).
Defined.

Lemma xvg2csv_default_name_witness :
  exists x : XVG float,
    XVG_init true "run.xvg" MoreSamples.whole_numbers
      = Returned x [msg_read "run.xvg"] /\
    exists stem,
      "run.xvg" = (stem ++ ".xvg")%string /\
      PyStr.suffix 4 (stem ++ ".csv") = ".csv" /\
      xvg2csv MoreSamples.str_of_whole (fun _ => false) x ""
      = xvg2csv MoreSamples.str_of_whole (fun _ => false) x (stem ++ ".csv").
Proof.
  assert (Hrun : exists x : XVG float,
             XVG_init true "run.xvg" MoreSamples.whole_numbers
               = Returned x [msg_read "run.xvg"])
    by (eexists; vm_compute; reflexivity).
  destruct Hrun as (x & Hrun). exists x. split; [exact Hrun|].
  exact (xvg2csv_default_name MoreSamples.str_of_whole (fun _ => false)
           true _ _ x _ Hrun).
Defined.

Lemma csv_row_tokens_witness :
  exists x : XVG float,
    XVG_init true "run.xvg" MoreSamples.whole_numbers
      = Returned x [msg_read "run.xvg"] /\
    exists values,
      map Some values = map float_of_str ["1"; "2"] /\
      csv_row MoreSamples.str_of_whole x 1
      = (String.concat "," (map MoreSamples.str_of_whole values ++ ["second"])
         ++ line_feed)%string.
Proof.
  assert (Hrun : exists x : XVG float,
             XVG_init true "run.xvg" MoreSamples.whole_numbers
               = Returned x [msg_read "run.xvg"] /\
             xvg_row_num x = 2 /\ length (data_columns x) = 2)
    by (eexists; vm_compute; repeat split).
  destruct Hrun as (x & Hrun & Hrows & Hcols). exists x. split; [exact Hrun|].
  destruct (csv_row_tokens MoreSamples.str_of_whole true _ _ x _ 1 Hrun
              ltac:(lia)) as (values & Hvalues & _ & Hrow).
  rewrite Hcols in Hvalues, Hrow.
  exists values. split; [exact Hvalues | exact Hrow].
Defined.

Lemma csv_header_width_witness :
  exists x : XVG float,
    XVG_init true "run.xvg" MoreSamples.whole_numbers
      = Returned x [msg_read "run.xvg"] /\
    length (out_data x) = 3 /\
    length (data_heads x) <= length (out_data x) /\
    length (data_heads x) <> length (out_data x).
Proof.
  assert (Hrun : exists x : XVG float,
             XVG_init true "run.xvg" MoreSamples.whole_numbers
               = Returned x [msg_read "run.xvg"] /\
             xvg_column_num x = 3 /\ length (xvg_legends x) = 0)
    by (eexists; vm_compute; repeat split).
  destruct Hrun as (x & Hrun & Hnum & Hleg). exists x. split; [exact Hrun|].
  destruct (csv_header_width true _ _ x _ Hrun) as (Hfields & Hle & Hiff).
  rewrite Hnum in Hfields, Hiff. rewrite Hleg in Hiff.
  split; [exact Hfields|]. split; [exact Hle|].
  intros Heq. apply Hiff in Heq. lia.
Defined.

(** * The figures of [draw] and [draw_distribution] *)

Import Drawing.

Section Layout.

Lemma half_of (n : nat) : 2 * (n / 2) <= n < 2 * (n / 2) + 2.
Proof.
  pose proof (Nat.div_mod_eq n 2) as Hn.
  pose proof (Nat.mod_upper_bound n 2 ltac:(lia)) as Hr. lia.
Qed.

(** The remainder in the second half of a row of length [h]. *)
Lemma mod_second_half (a h : nat) : h <= a < 2 * h -> a mod h = a - h.
Proof.
  intros Ha. symmetry. apply (Nat.mod_unique a h 1); lia.
Qed.

(** The cells of a grid of two rows of [h] columns, filled row by row. *)
Lemma row_by_row (h a b : nat) :
  a < b < 2 * h ->
  let cell_of k := mkCell (if k <? h then 0 else 1) (k mod h) false in
  cell_col (cell_of a) < h /\
  before (cell_of a) (cell_of b).
Proof.
  intros Hab cell_of. assert (Hh : 0 < h) by lia. unfold cell_of, before.
  cbn [cell_row cell_col]. split; [apply Nat.mod_upper_bound; lia|].
  destruct (Nat.ltb_spec a h) as [Ha|Ha], (Nat.ltb_spec b h) as [Hb|Hb].
  - right. split; [reflexivity|]. rewrite !Nat.mod_small by lia. lia.
  - left. lia.
  - lia.
  - right. split; [reflexivity|]. rewrite !mod_second_half by lia. lia.
Qed.

(** X27: the places of the subplots.  In [draw] the columns 1 to
    [column_num - 1], and in [draw_distribution] the columns 0 to
    [column_num - 1], each get a cell of the grid the function makes: the
    subscript is computed without a division by zero and lies inside the
    grid, a later column comes later in reading order, so no two columns
    share a cell, and only the last column takes the rest of its row. *)
Theorem subplot_layout :
  (forall column_num i, 1 <= i < column_num ->
     exists c,
       draw_cell column_num i = inr c /\
       in_grid (draw_grid column_num) c /\
       (cell_to_end c = true <-> i = column_num - 1) /\
       forall j c', i < j < column_num -> draw_cell column_num j = inr c' ->
         before c c') /\
  (forall column_num i, i < column_num ->
     exists c,
       distribution_cell column_num i = inr c /\
       in_grid (distribution_grid column_num) c /\
       (cell_to_end c = true <-> i = column_num - 1) /\
       forall j c', i < j < column_num ->
         distribution_cell column_num j = inr c' -> before c c').
Proof.
  split.
  - intros n i Hi. pose proof (half_of n) as Hhalf.
    assert (Hh : 0 < n / 2) by lia.
    unfold draw_cell. destruct (Nat.eqb_spec (n / 2) 0) as [Hz|_]; [lia|].
    eexists. split; [reflexivity|]. split; [|split].
    + unfold in_grid, draw_grid. cbn [cell_row cell_col].
      destruct (Nat.ltb_spec 2 n) as [Hbig|Hsmall]; cbn [fst snd].
      * split; [destruct (_ <? _); lia | apply Nat.mod_upper_bound; lia].
      * assert (n = 2) by lia. subst n. assert (i = 1) by lia. subst i.
        cbn. lia.
    + cbn [cell_to_end]. apply Nat.eqb_eq.
    + intros j c' Hj Hc'. injection Hc' as <-.
      destruct (row_by_row (n / 2) (i - 1) (j - 1) ltac:(lia)) as [_ Hb].
      exact Hb.
  - intros n i Hi. pose proof (half_of (n + 1)) as Hhalf.
    assert (Hh : 0 < (n + 1) / 2) by lia.
    unfold distribution_cell.
    destruct (Nat.eqb_spec ((n + 1) / 2) 0) as [Hz|_]; [lia|].
    eexists. split; [reflexivity|]. split; [|split].
    + unfold in_grid, distribution_grid. cbn [cell_row cell_col fst snd].
      split; [destruct (_ <? _); lia | apply Nat.mod_upper_bound; lia].
    + cbn [cell_to_end]. apply Nat.eqb_eq.
    + intros j c' Hj Hc'. injection Hc' as <-.
      destruct (row_by_row ((n + 1) / 2) i j ltac:(lia)) as [_ Hb].
      exact Hb.
Qed.

End Layout.

Section DrawTheorems.
Context {F : Type} `{PyArith F}.

Lemma map_result_ok {A B} (f : A -> result B) (g : A -> B) (l : list A) :
  (forall a, In a l -> f a = inr (g a)) -> map_result f l = inr (map g l).
Proof.
  induction l as [|a l IH]; intros Hf; [reflexivity|].
  cbn [map_result map]. rewrite (Hf a (or_introl eq_refl)). cbn [rbind].
  rewrite IH by (intros b Hb; apply Hf; now right). reflexivity.
Qed.

Lemma at_index_nth {A} (l : list A) (i : nat) (d : A) :
  i < length l -> at_index l i = inr (nth i l d).
Proof.
  intros Hi. unfold at_index. now rewrite (nth_error_nth' l d Hi).
Qed.

(** The subplot of one column. *)
Lemma draw_column_ok (x : XVG F) (first : list F) (rest : list (list F))
    (x_min x_max : F) (x_space low high : Z) (i : nat) :
  length (data_heads x) = length (data_columns x) ->
  data_columns x = first :: rest ->
  int_of_float (fsub x_min (float_of_int x_space)) = inr low ->
  int_of_float (fadd x_max (float_of_int x_space)) = inr high ->
  1 <= i < length (data_columns x) ->
  let column_num := length (data_columns x) in
  draw_column x column_num x_min x_max x_space i
  = inr (mkSubplot
           (mkCell (if i - 1 <? column_num / 2 then 0 else 1)
                   ((i - 1) mod (column_num / 2)) (i =? column_num - 1))
           first (nth i (data_columns x) []) (nth i (data_heads x) "")
           (low, high) (nth 0 (data_heads x) "")).
Proof.
  intros Hheads Hcols Hlow Hhigh Hi column_num.
  pose proof (half_of column_num) as Hhalf. fold column_num in Hi.
  unfold draw_column, draw_cell.
  destruct (Nat.eqb_spec (column_num / 2) 0) as [Hz|_]; [lia|].
  cbn [rbind].
  assert (Hfirst : at_index (data_columns x) 0 = inr first)
    by (rewrite Hcols; reflexivity).
  rewrite Hfirst. cbn [rbind].
  rewrite (at_index_nth (data_columns x) i []) by (fold column_num; lia).
  rewrite (at_index_nth (data_heads x) i "")
    by (rewrite Hheads; fold column_num; lia).
  cbn [rbind]. unfold to_int. rewrite Hlow, Hhigh. cbn [rbind].
  rewrite (at_index_nth (data_heads x) 0 "")
    by (rewrite Hheads; fold column_num; lia).
  reflexivity.
Qed.

(** X26: what [draw] draws.  On a dataset with as many heads as columns, a
    first column that is not empty and x limits that convert to integers,
    when the two grids of line 307 can both be built, [draw] makes one
    subplot for each column after the first, in the order of the columns:
    column [i] against the first column, with head [i] on the y axis and
    the first head on the x axis, in the cell computed for [i], all with
    the same x limits: the minimum and the maximum of the first column,
    widened by [int((max - min) / 100)] and cut to integers.  The grid is
    the one of two rows for more than two columns and the one of one row
    otherwise. *)
Theorem draw_subplots {G : Type} (GridSpec : nat -> nat -> result G)
    (x : XVG F) (first : list F) (rest : list (list F))
    (x_min x_max : F) (x_space low high : Z) (wide tall : G) :
  length (data_heads x) = length (data_columns x) ->
  data_columns x = first :: rest ->
  np_min first = Some x_min -> np_max first = Some x_max ->
  int_of_float (fdiv (fsub x_max x_min) (float_of_int 100)) = inr x_space ->
  int_of_float (fsub x_min (float_of_int x_space)) = inr low ->
  int_of_float (fadd x_max (float_of_int x_space)) = inr high ->
  GridSpec 1 (length (data_columns x)) = inr wide ->
  GridSpec 2 (length (data_columns x) / 2) = inr tall ->
  let column_num := length (data_columns x) in
  draw GridSpec x
  = inr (if 2 <? column_num then tall else wide,
         map (fun i =>
                mkSubplot
                  (mkCell (if i - 1 <? column_num / 2 then 0 else 1)
                          ((i - 1) mod (column_num / 2))
                          (i =? column_num - 1))
                  first (nth i (data_columns x) []) (nth i (data_heads x) "")
                  (low, high) (nth 0 (data_heads x) ""))
             (seq 1 (column_num - 1)),
         xvg_title x).
Proof.
  intros Hheads Hcols Hmin Hmax Hspace Hlow Hhigh Hwide Htall column_num.
  unfold draw. fold column_num.
  assert (Hfirst : at_index (data_columns x) 0 = inr first)
    by (rewrite Hcols; reflexivity).
  rewrite Hfirst. cbn [rbind]. rewrite Hmin, Hmax. cbn [or_raise rbind].
  unfold to_int at 1. rewrite Hspace. cbn [rbind].
  fold column_num in Hwide, Htall. rewrite Hwide, Htall. cbn [rbind].
  erewrite map_result_ok; [reflexivity|].
  intros i Hi. apply in_seq in Hi.
  apply (draw_column_ok x first rest); try assumption. fold column_num. lia.
Qed.

(** X30: the grids of line 307 are both built before one is chosen.  When
    the grid of two rows cannot be built, [draw] fails with the failure of
    its construction although for one or two columns the grid it would
    use is the other one: with a library that refuses a grid without
    columns, [GridSpec(2, 0)], a dataset of one column cannot be drawn. *)
Theorem draw_builds_both_grids {G : Type} (GridSpec : nat -> nat -> result G)
    (x : XVG F) (first : list F) (rest : list (list F)) (x_min x_max : F)
    (x_space : Z) (wide : G) (e : failure) :
  data_columns x = first :: rest ->
  np_min first = Some x_min -> np_max first = Some x_max ->
  int_of_float (fdiv (fsub x_max x_min) (float_of_int 100)) = inr x_space ->
  GridSpec 1 (length (data_columns x)) = inr wide ->
  GridSpec 2 (length (data_columns x) / 2) = inl e ->
  draw GridSpec x = inl e.
Proof.
  intros Hcols Hmin Hmax Hspace Hwide Htall. unfold draw.
  assert (Hfirst : at_index (data_columns x) 0 = inr first)
    by (rewrite Hcols; reflexivity).
  rewrite Hfirst. cbn [rbind]. rewrite Hmin, Hmax. cbn [or_raise rbind].
  unfold to_int at 1. rewrite Hspace. cbn [rbind].
  rewrite Hwide, Htall. reflexivity.
Qed.

End DrawTheorems.


Lemma draw_subplots_witness :
  exists plots,
    draw MoreSamples.positive_grid MoreSamples.three_curves
      = inr ((2, 2), plots, "Energies") /\
    map sub_cell plots
      = [mkCell 0 0 false; mkCell 0 1 false; mkCell 1 0 true] /\
    map sub_ylabel plots = ["a (kJ/mol)"; "b (kJ/mol)"; "c (kJ/mol)"] /\
    map sub_y plots = [[1; 2]; [10; 20]; [100; 200]]%float /\
    map sub_xlim plots = [(0, 1); (0, 1); (0, 1)]%Z.
Proof.
  eexists. split.
  - etransitivity.
    + apply (draw_subplots MoreSamples.positive_grid MoreSamples.three_curves
               [0; 1]%float [[1; 2]; [10; 20]; [100; 200]]%float
               0%float 1%float 0%Z 0%Z 1%Z (1, 4) (2, 2));
        vm_compute; reflexivity.
    + vm_compute. reflexivity.
  - repeat split.
Defined.


Lemma subplot_layout_witness :
  (exists c, draw_cell 5 4 = inr c /\ in_grid (draw_grid 5) c /\
             (cell_to_end c = true <-> 4 = 5 - 1)) /\
  (exists c, distribution_cell 5 2 = inr c /\
             in_grid (distribution_grid 5) c /\
             (cell_to_end c = true <-> 2 = 5 - 1)).
Proof.
  split.
  - destruct (proj1 subplot_layout 5 4 ltac:(lia)) as (c & Hc & Hin & Hend & _).
    exists c. split; [exact Hc|]. split; [exact Hin | exact Hend].
  - destruct (proj2 subplot_layout 5 2 ltac:(lia)) as (c & Hc & Hin & Hend & _).
    exists c. split; [exact Hc|]. split; [exact Hin | exact Hend].
Defined.

Lemma draw_builds_both_grids_witness :
  draw MoreSamples.positive_grid Samples.one_to_six
  = inl (Raises ValueError).
Proof.
  apply (draw_builds_both_grids MoreSamples.positive_grid Samples.one_to_six
           (map Binary64.of_Z [1; 2; 3; 4; 5; 6]%Z) [] 1%float 6%float 0%Z
           (1, 1) (Raises ValueError));
    vm_compute; reflexivity.
Defined.
